(** * py2tex: the environment composition and serialization engine

    A shallow embedding of [py2tex/tex_base.py] (the [TexObject] /
    [TexEnvironment] engine with merge-on-build package registries), of
    [py2tex/document.py] (the in-place [TexEnvironment], [Document], [Table]
    and [Tabular] classes) and of the curve methods of [py2tex/plot.py],
    together with the properties of the specification that concern them.

    Python strings are [string]; tuples and lists of strings are
    [list string]; a [dict] is an association list in insertion order whose
    keys are pairwise distinct; an operation that may raise returns a
    [result], and a method that updates its object returns the updated
    object (what an object holds when an exception leaves the method is
    not kept). *)

From Stdlib Require Import List String Ascii ZArith Lia Bool Decimal DecimalString.
Import ListNotations.
Open Scope string_scope.
Open Scope list_scope.

Set Implicit Arguments.

(** String concatenation, Python's [+] on [str]. *)
Infix "+:+" := String.append (at level 60, right associativity).

(** The newline character as a string. *)
Definition nl : string := String "010"%char EmptyString.

(** ** Python values and exceptions *)

Inductive exn : Type :=
| TypeError
| IndexError
| AttributeError
| ValueError.

Inductive result (A : Type) : Type :=
| Ok (a : A)
| Raise (e : exn).

Arguments Ok {A} a.
Arguments Raise {A} e.

Definition bind {A B : Type} (r : result A) (k : A -> result B) : result B :=
  match r with
  | Ok a => k a
  | Raise e => Raise e
  end.

Notation "x <- r ;; k" := (bind r (fun x => k))
  (at level 61, r at next level, right associativity).
Notation "' p <- r ;; k" := (bind r (fun p => k))
  (at level 61, p pattern, r at next level, right associativity).

(** The non-float Python values that occur as option values and table
    cells, with their [str]. *)
Inductive pyval : Type :=
| VNone
| VBool (b : bool)
| VInt (z : Z)
| VStr (s : string).

Definition str_of_Z (z : Z) : string := NilZero.string_of_int (Z.to_int z).

Definition py_str (v : pyval) : string :=
  match v with
  | VNone => "None"
  | VBool true => "True"
  | VBool false => "False"
  | VInt z => str_of_Z z
  | VStr s => s
  end.

(** Truthiness of a string and of a sequence. *)
Definition str_truthy (s : string) : bool :=
  match s with
  | EmptyString => false
  | String _ _ => true
  end.

Definition seq_truthy {A : Type} (l : list A) : bool :=
  match l with
  | [] => false
  | _ :: _ => true
  end.

(** [sep.join(l)] on a list of strings. *)
Definition join (sep : string) (l : list string) : string := String.concat sep l.

(** ** Dictionaries

    Insertion-ordered, as Python's [dict]: assigning to a key that is present
    keeps its position and replaces its value, assigning to a new key appends
    an entry. *)

Section Dict.
Variable V : Type.

Definition dict := list (string * V).

Fixpoint dict_get (k : string) (d : dict) : option V :=
  match d with
  | [] => None
  | (k', v) :: d' => if String.eqb k k' then Some v else dict_get k d'
  end.

Fixpoint dict_set (k : string) (v : V) (d : dict) : dict :=
  match d with
  | [] => [(k, v)]
  | (k', v') :: d' =>
      if String.eqb k k' then (k', v) :: d' else (k', v') :: dict_set k v d'
  end.

(** [d.update(other)] *)
Definition dict_update (d other : dict) : dict :=
  fold_left (fun acc kv => dict_set (fst kv) (snd kv) acc) other d.

Definition dict_keys (d : dict) : list string := map fst d.

(** Number of entries stored under a name. *)
Definition dict_count (k : string) (d : dict) : nat :=
  List.length (filter (String.eqb k) (dict_keys d)).

(** The representation invariant: keys are pairwise distinct. *)
Definition dict_wf (d : dict) : Prop := NoDup (dict_keys d).
End Dict.

Arguments dict_get {V} k d.
Arguments dict_set {V} k v d.
Arguments dict_update {V} d other.
Arguments dict_keys {V} d.
Arguments dict_count {V} k d.
Arguments dict_wf {V} d.

(** [k in d] *)
Definition dict_has {V : Type} (k : string) (d : dict V) : bool :=
  match dict_get k d with
  | Some _ => true
  | None => false
  end.

(** [d] after [d.update(o)] for each [o] of [others] in turn. *)
Definition dict_update_all {V : Type} (d : dict V) (others : list (dict V)) : dict V :=
  fold_left dict_update others d.

(** The value the last dictionary of [others] holding [k] gives it. *)
Fixpoint last_get {V : Type} (k : string) (others : list (dict V)) : option V :=
  match others with
  | [] => None
  | o :: rest =>
      match last_get k rest with
      | Some v => Some v
      | None => dict_get k o
      end
  end.

(** ** [tex_base.py]: objects, environments and the merge-on-build pass *)

Module TexBase.

(** The attributes [TexEnvironment.__init__] adds to a [TexObject].
    [head] and [tail] are lists of lines; the constructor sets them to the
    one-line opening and closing markers. *)
Record EnvFields : Type := mkEnvFields {
  head : list string;
  tail : list string;
  parameters : list string;
  options : list string;
  kwoptions : dict pyval;
  label_pos : string;
  label : string
}.

(** An element of a body: a string, or an object. *)
Inductive item (O : Type) : Type :=
| IText (s : string)
| IObj (o : O).

Arguments IText {O} s.
Arguments IObj {O} o.

(** A [TexObject] carries [name], [body] and [packages]; it is a
    [TexEnvironment] exactly when [env] is present. A package entry maps
    the package name to its keyword options. *)
#[warnings="-register-all"]
Inductive TexObject : Type :=
| mkTexObject (name : string) (body : list (item TexObject))
              (packages : dict (dict pyval)) (env : option EnvFields).

Definition name (o : TexObject) : string :=
  match o with mkTexObject n _ _ _ => n end.
Definition body (o : TexObject) : list (item TexObject) :=
  match o with mkTexObject _ b _ _ => b end.
Definition packages (o : TexObject) : dict (dict pyval) :=
  match o with mkTexObject _ _ p _ => p end.
Definition env (o : TexObject) : option EnvFields :=
  match o with mkTexObject _ _ _ e => e end.

(** [isinstance(obj, TexEnvironment)] *)
Definition is_TexEnvironment (o : TexObject) : bool :=
  match env o with Some _ => true | None => false end.

(** [TexObject.__init__] *)
Definition TexObject_init (obj_name : string) : TexObject :=
  mkTexObject obj_name [] [] None.

(** A call of [TexObject.__init__] that passes the keyword arguments named
    [keywords]: the initializer takes [obj_name] only, so any keyword
    argument is refused with a [TypeError]. *)
Definition TexObject_init_call (obj_name : string) (keywords : list string)
  : result TexObject :=
  match keywords with
  | [] => Ok (TexObject_init obj_name)
  | _ :: _ => Raise TypeError
  end.

(** The [options] argument of [TexEnvironment.__init__]: a tuple of strings,
    or one string, which the constructor wraps into a tuple. *)
Inductive options_arg : Type :=
| OTuple (t : list string)
| OStr (s : string).

Definition options_tuple (options : options_arg) : list string :=
  match options with
  | OTuple t => t
  | OStr s => [s]
  end.

Definition begin_marker (env_name : string) : string := "\begin{" +:+ env_name +:+ "}".
Definition end_marker (env_name : string) : string := "\end{" +:+ env_name +:+ "}".

(** An environment given by its attributes, with the one-line head and
    tail, an empty body and an empty registry. *)
Definition env_object (env_name : string) (parameters options : list string)
           (label label_pos : string) (kwoptions : dict pyval) : TexObject :=
  mkTexObject env_name [] []
    (Some (mkEnvFields [begin_marker env_name] [end_marker env_name]
                       parameters options kwoptions label_pos label)).

(** [TexEnvironment.__init__]: the call of the base initializer, which
    passes [label] and [label_pos] as keyword arguments, then the
    assignments of the attributes. *)
Definition TexEnvironment_init (env_name : string) (parameters : list string)
           (options : options_arg) (label label_pos : string) (kwoptions : dict pyval)
  : result TexObject :=
  self <- TexObject_init_call env_name ["label"; "label_pos"] ;;
  Ok (mkTexObject (name self) (body self) (packages self)
        (env (env_object env_name parameters (options_tuple options)
                         label label_pos kwoptions))).

(** [{o: '' for o in options}] *)
Definition options_dict (options : list string) : dict pyval :=
  fold_left (fun acc o => dict_set o (VStr "") acc) options [].

(** [TexObject.add_package] *)
Definition add_package (o : TexObject) (package : string) (options : list string)
           (kwoptions : dict pyval) : TexObject :=
  let kwoptions := dict_update kwoptions (options_dict options) in
  mkTexObject (name o) (body o) (dict_set package kwoptions (packages o)) (env o).

(** [TexEnvironment.add_text] and [TexEnvironment.new] *)
Definition add_text (o : TexObject) (text : string) : TexObject :=
  mkTexObject (name o) (body o ++ [IText text]) (packages o) (env o).

Definition new (o obj : TexObject) : TexObject :=
  mkTexObject (name o) (body o ++ [IObj obj]) (packages o) (env o).

(** What the module-level [build(obj)] returns: a string, or the object
    itself when it is not a [TexEnvironment]. *)
Inductive piece : Type :=
| PStr (s : string)
| PObj.

(** ['\n'.join(tex)]: a [TypeError] as soon as an element is not a string. *)
Fixpoint pieces_strings (tex : list piece) : result (list string) :=
  match tex with
  | [] => Ok []
  | PStr s :: rest => ss <- pieces_strings rest ;; Ok (s :: ss)
  | PObj :: _ => Raise TypeError
  end.

Definition join_pieces (sep : string) (tex : list piece) : result string :=
  ss <- pieces_strings tex ;; Ok (join sep ss).

Section Build.
(** [obj.build()] on a nested object, resolved by the enclosing
    fixpoint. *)
Variable obj_build : TexObject -> result (string * TexObject).

(** The module-level [build(obj)]; the built object is returned next to
    the text because [build] updates its [packages] in place. *)
Definition build (it : item TexObject) : result (piece * item TexObject) :=
  match it with
  | IText s => Ok (PStr s, it)
  | IObj c =>
      if is_TexEnvironment c
      then '(s, c') <- obj_build c ;; Ok (PStr s, IObj c')
      else Ok (PObj, it)
  end.

(** The loop of [TexObject.build]: build each element and merge the
    packages of each object into [self.packages]. *)
Fixpoint build_body (body : list (item TexObject)) (pk : dict (dict pyval))
  : result (list piece * list (item TexObject) * dict (dict pyval)) :=
  match body with
  | [] => Ok ([], [], pk)
  | text_or_obj :: rest =>
      '(p, it') <- build text_or_obj ;;
      let pk' := match it' with
                 | IObj c => dict_update pk (packages c)
                 | IText _ => pk
                 end in
      '(ps, rest', pk'') <- build_body rest pk' ;;
      Ok (p :: ps, it' :: rest', pk'')
  end.

(** [TexObject.build] *)
Definition TexObject_build (o : TexObject) : result (string * TexObject) :=
  match o with
  | mkTexObject n b pk e =>
      '(tex, b', pk') <- build_body b pk ;;
      s <- join_pieces nl tex ;;
      Ok (s, mkTexObject n b' pk' e)
  end.

(** [head[0] += s] *)
Definition iadd_first (h : list string) (s : string) : result (list string) :=
  match h with
  | [] => Raise IndexError
  | x :: r => Ok ((x +:+ s) :: r)
  end.

Definition render_kwoptions (kw : dict pyval) : string :=
  join ", " (map (fun kv => join "=" [fst kv; py_str (snd kv)]) kw).

(** The bracketed list appended to the opening marker. *)
Definition options_suffix (f : EnvFields) : string :=
  let kwoptions := render_kwoptions (kwoptions f) in
  let options := join ", " (options f) in
  let options := if str_truthy kwoptions && str_truthy options
                 then options +:+ ", " else options in
  "[" +:+ options +:+ kwoptions +:+ "]".

Definition parameters_suffix (f : EnvFields) : string :=
  "{" +:+ join ", " (parameters f) +:+ "}".

Definition label_line (n : string) (f : EnvFields) : string :=
  "\label{" +:+ n +:+ ":" +:+ label f +:+ "}".

(** [head or list(self.head)] *)
Definition arg_or (arg : option (list string)) (dflt : list string) : list string :=
  match arg with
  | Some (x :: r) => x :: r
  | _ => dflt
  end.

(** Lines 138-155 of [TexEnvironment.build]: the head and tail lines. *)
Definition head_tail (n : string) (f : EnvFields) (head0 tail0 : option (list string))
  : result (list string * list string) :=
  let head := arg_or head0 (head f) in
  let tail := arg_or tail0 (tail f) in
  head <- (if seq_truthy (options f) || seq_truthy (kwoptions f)
           then iadd_first head (options_suffix f) else Ok head) ;;
  head <- (if seq_truthy (parameters f)
           then iadd_first head (parameters_suffix f) else Ok head) ;;
  if str_truthy (label f)
  then if String.eqb (label_pos f) "top"
       then Ok (head ++ [label_line n f], tail)
       else Ok (head, label_line n f :: tail)
  else Ok (head, tail).

(** [TexEnvironment.build] *)
Definition TexEnvironment_build (f : EnvFields) (o : TexObject)
           (head0 tail0 : option (list string)) : result (string * TexObject) :=
  '(head, tail) <- head_tail (name o) f head0 tail0 ;;
  '(body, o') <- TexObject_build o ;;
  let tex := if str_truthy body then head ++ [body] ++ tail else head ++ tail in
  Ok (join nl tex, o').
End Build.

(** [obj.build()]: the method the object's class provides. *)
Fixpoint obj_build (o : TexObject) {struct o} : result (string * TexObject) :=
  match env o with
  | Some f => TexEnvironment_build obj_build f o None None
  | None => TexObject_build obj_build o
  end.

(** *** The output of an environment, line by line *)

(** What [build] appends to the opening marker. *)
Definition options_part (f : EnvFields) : string :=
  if seq_truthy (options f) || seq_truthy (kwoptions f)
  then options_suffix f else "".

Definition parameters_part (f : EnvFields) : string :=
  if seq_truthy (parameters f) then parameters_suffix f else "".

Definition decorated_marker (f : EnvFields) (marker : string) : string :=
  marker +:+ options_part f +:+ parameters_part f.

(** The label line, where it goes after the head or before the tail. *)
Definition top_label (n : string) (f : EnvFields) : list string :=
  if str_truthy (label f) && String.eqb (label_pos f) "top"
  then [label_line n f] else [].

Definition bottom_label (n : string) (f : EnvFields) : list string :=
  if str_truthy (label f) && negb (String.eqb (label_pos f) "top")
  then [label_line n f] else [].

(** The body contributes one element to the joined list, or none when it
    is the empty string. *)
Definition body_lines (body : string) : list string :=
  if str_truthy body then [body] else [].




(** The text of an environment whose head is the line [first] followed by
    [rest]: label and body in their places, joined by newlines. *)
Definition env_text (n : string) (f : EnvFields) (first : string) (rest : list string)
           (body : string) : string :=
  join nl (first :: rest ++ top_label n f ++ body_lines body ++ bottom_label n f ++ tail f).

(** The text of a build result. *)
Definition text_of (r : result (string * TexObject)) : result string :=
  '(text, _) <- r ;; Ok text.

(** The node data without the package registries, which [build] fills. *)
Definition strip_item (strip : TexObject -> TexObject) (it : item TexObject)
  : item TexObject :=
  match it with
  | IText s => IText s
  | IObj c => IObj (strip c)
  end.

Fixpoint strip (o : TexObject) : TexObject :=
  match o with
  | mkTexObject n b _ e => mkTexObject n (map (strip_item strip) b) [] e
  end.

(** Trees on which [build] cannot raise: every nested object is an
    environment, and every environment has a first head line to
    decorate. *)
Definition buildable_item (buildable : TexObject -> bool) (it : item TexObject) : bool :=
  match it with
  | IText _ => true
  | IObj c => is_TexEnvironment c && buildable c
  end.

Fixpoint buildable (o : TexObject) : bool :=
  match o with
  | mkTexObject _ b _ e =>
      match e with
      | Some f => seq_truthy (head f)
      | None => true
      end && forallb (buildable_item buildable) b
  end.

(** The pieces the loop of [TexObject.build] collects. *)
Definition pieces_of (r : result (list piece * list (item TexObject) * dict (dict pyval)))
  : result (list piece) :=
  '(tex, _, _) <- r ;; Ok tex.

(** Sample trees. *)
Definition labelled_table_env : TexObject :=
  add_text (env_object "table" ["p1"; "p2"] ["a"; "b"] "lab" "top"
                       [("k", VStr "v"); ("n", VInt 3)])
           "hello".


Definition empty_env : TexObject :=
  env_object "center" [] [] "" "top" [].

Definition bottom_labelled_env : TexObject :=
  add_text (env_object "figure" [] ["h!"] "plot" "bottom" []) "\centering".

Definition two_declarations : TexObject :=
  let first := add_package (env_object "figure" [] [] "" "top" [])
                           "P" ["draft"] [] in
  let second := add_package (env_object "table" [] [] "" "top" [])
                            "P" [] [("mode", VStr "final")] in
  new (add_text (new (env_object "section" [] [] "" "top" []) first) "text")
      second.

(** The subtree [c], once built, holds package [P] with the option set
    [opts]: this is what its parent merges. *)
Definition declares (c : TexObject) (P : string) (opts : dict pyval) : Prop :=
  exists text c', obj_build c = Ok (text, c') /\ dict_get P (packages c') = Some opts.

(** *** Vocabulary of the further properties *)

(** A figure as [plot.py] leaves it when it is not a float: head and tail
    emptied. *)
Definition headless_env (options : list string) : TexObject :=
  mkTexObject "figure" [IText "\centering"] []
    (Some (mkEnvFields [] [] [] options [] "bottom" "")).

(** A package declared two levels down. *)
Definition nested_declaration : TexObject :=
  new (env_object "section" [] [] "" "top" [])
      (new (env_object "figure" [] [] "" "top" [])
           (add_package (env_object "axis" [] [] "" "top" [])
                        "pgfplots" [] [])).

(** Some node of the tree holds package [P] in its own registry. *)
Definition item_declares (tree_declares : TexObject -> bool) (it : item TexObject) : bool :=
  match it with
  | IText _ => false
  | IObj c => tree_declares c
  end.

Fixpoint tree_declares (P : string) (o : TexObject) : bool :=
  match o with
  | mkTexObject _ b pk _ => dict_has P pk || existsb (item_declares (tree_declares P)) b
  end.

(** What an element of a body contributes to the text of its parent: a
    string itself, an environment the text its [build] returns. *)
Inductive contributes : item TexObject -> string -> Prop :=
| contributes_text (s : string) : contributes (IText s) s
| contributes_env (c c' : TexObject) (t : string) :
    is_TexEnvironment c = true -> obj_build c = Ok (t, c') -> contributes (IObj c) t.

(** The registries of the objects of a body, in body order. *)
Fixpoint child_packages (b : list (item TexObject)) : list (dict (dict pyval)) :=
  match b with
  | [] => []
  | IText _ :: rest => child_packages rest
  | IObj c :: rest => packages c :: child_packages rest
  end.

(** Every registry of the tree is a dictionary. *)
Fixpoint tree_wf (o : TexObject) : Prop :=
  match o with
  | mkTexObject _ b pk _ =>
      dict_wf pk /\
      (fix items (l : list (item TexObject)) : Prop :=
         match l with
         | [] => True
         | IText _ :: r => items r
         | IObj c :: r => tree_wf c /\ items r
         end) b
  end.

End TexBase.

(** ** [document.py]: the in-place environments, [Document], [Table], [Tabular] *)

(** A finite Python [float]: the binary fraction [fmant * 2 ^ fexp]. *)
Record pyfloat : Type := mkFloat { fmant : Z; fexp : Z }.

(** A cell of the object array behind a [Tabular]. *)
Inductive cell : Type :=
| CFloat (x : pyfloat)
| CVal (v : pyval).

(** [slice(start, end).indices(length)] for the default step: the resolved
    [(start, stop)]. *)
Definition slice_bound (length : Z) (dflt : Z) (i : option Z) : Z :=
  match i with
  | None => dflt
  | Some i =>
      if (i <? 0)%Z
      then let i := (i + length)%Z in if (i <? 0)%Z then 0%Z else i
      else if (length <? i)%Z then length else i
  end.

Definition slice_indices (start stop : option Z) (length : Z) : Z * Z :=
  (slice_bound length 0%Z start, slice_bound length length stop).

(** ['c' * n] *)
Fixpoint str_repeat (s : string) (n : nat) : string :=
  match n with
  | O => ""
  | S n' => s +:+ str_repeat s n'
  end.

(** The characters of a string, as [list(s)] and iteration over a string
    give them. *)
Fixpoint str_chars (s : string) : list string :=
  match s with
  | EmptyString => []
  | String c s' => String c EmptyString :: str_chars s'
  end.

(** [format(x, '.<prec>f')]: fixed-point notation, the exact value rounded
    to [prec] decimals, ties to even. *)
Definition zero_pad (width : nat) (s : string) : string :=
  match width - String.length s with
  | O => s
  | S k => str_repeat "0" (S k) +:+ s
  end.

Definition round_half_even (num den : Z) : Z :=
  let q := (num / den)%Z in
  let r := (num mod den)%Z in
  if (den <? 2 * r)%Z then (q + 1)%Z
  else if (2 * r =? den)%Z then (if Z.odd q then (q + 1)%Z else q)
  else q.

Definition format_fixed (prec : nat) (x : pyfloat) : string :=
  let scale := (10 ^ Z.of_nat prec)%Z in
  let num := (Z.abs (fmant x) * scale * 2 ^ Z.max 0 (fexp x))%Z in
  let den := (2 ^ Z.max 0 (- fexp x))%Z in
  let n := round_half_even num den in
  let sign := if (fmant x <? 0)%Z then "-" else "" in
  let frac := match prec with
              | O => ""
              | S _ => "." +:+ zero_pad prec (str_of_Z (n mod scale))
              end in
  sign +:+ str_of_Z (n / scale) +:+ frac.

Module Doc.

(** The [trim_left] / [trim_right] arguments of [add_rule]: a [bool] or a
    [str]. *)
Inductive trim_arg : Type :=
| TBool (b : bool)
| TStr (s : string).

Definition trim_truthy (t : trim_arg) : bool :=
  match t with
  | TBool b => b
  | TStr s => str_truthy s
  end.

(** A registered rule [(col_start, col_end, r + l)]. *)
Definition rule : Type := option Z * option Z * string.

(** [self.rules], keyed by row number. *)
Definition rules_t : Type := list (Z * rule).

Fixpoint rules_get (i : Z) (rs : rules_t) : option rule :=
  match rs with
  | [] => None
  | (j, r) :: rs' => if Z.eqb i j then Some r else rules_get i rs'
  end.

Fixpoint rules_set (i : Z) (r : rule) (rs : rules_t) : rules_t :=
  match rs with
  | [] => [(i, r)]
  | (j, r') :: rs' => if Z.eqb i j then (j, r) :: rs' else (j, r') :: rules_set i r rs'
  end.

(** The attributes [Tabular.__init__] adds. [shape] is also the shape of
    [data]: [data] holds [fst shape] rows of [snd shape] cells. *)
Record TabularFields : Type := mkTabularFields {
  shape : nat * nat;
  alignment : string;
  float_format : string;
  data : list (list cell);
  rules : rules_t
}.

(** The class of an environment, which selects its [build]. *)
Inductive kind : Type :=
| KEnv
| KTable
| KTabular (t : TabularFields).

(** [self.body]: the list of texts and environments, or, once [build] has
    run, the joined string. *)
Inductive body_t (I : Type) : Type :=
| BList (l : list I)
| BStr (s : string).

Arguments BList {I} l.
Arguments BStr {I} s.

Inductive item (E : Type) : Type :=
| IText (s : string)
| IEnv (e : E).

Arguments IText {E} s.
Arguments IEnv {E} e.

(** A [TexEnvironment] of [document.py] (the [parent_doc] back-reference,
    which only constructors read, is left out). *)
#[warnings="-register-all"]
Inductive TexEnvironment : Type :=
| mkTexEnvironment (cls : kind) (env_name : string)
                   (body : body_t (item TexEnvironment)) (head tail : string).

Definition cls (e : TexEnvironment) : kind :=
  match e with mkTexEnvironment k _ _ _ _ => k end.
Definition env_name (e : TexEnvironment) : string :=
  match e with mkTexEnvironment _ n _ _ _ => n end.
Definition body (e : TexEnvironment) : body_t (item TexEnvironment) :=
  match e with mkTexEnvironment _ _ b _ _ => b end.
Definition head (e : TexEnvironment) : string :=
  match e with mkTexEnvironment _ _ _ h _ => h end.
Definition tail (e : TexEnvironment) : string :=
  match e with mkTexEnvironment _ _ _ _ t => t end.

(** [TexEnvironment.__init__] *)
Definition TexEnvironment_init (k : kind) (env_name : string) (parameters : list string)
           (options : option string) : TexEnvironment :=
  let head := "\begin{" +:+ env_name +:+ "}" in
  let head := if seq_truthy parameters
              then head +:+ "{" +:+ join "," parameters +:+ "}" else head in
  let head := match options with
              | Some o => if str_truthy o then head +:+ "[" +:+ o +:+ "]" else head
              | None => head
              end in
  mkTexEnvironment k env_name (BList []) head ("\end{" +:+ env_name +:+ "}").

(** [self.body.append(x)] *)
Definition body_append {I : Type} (b : body_t I) (x : I) : result (body_t I) :=
  match b with
  | BList l => Ok (BList (l ++ [x]))
  | BStr _ => Raise AttributeError
  end.

(** [Tabular.add_rule] *)
Definition trim_code (letter : string) (t : trim_arg) : string :=
  let r := if trim_truthy t then letter else "" in
  match t with
  | TStr s => r +:+ "{" +:+ s +:+ "}"
  | TBool _ => r
  end.

Definition add_rule (t : TabularFields) (row : Z) (col_start col_end : option Z)
           (trim_right trim_left : trim_arg) : TabularFields :=
  let r := trim_code "r" trim_right in
  let l := trim_code "l" trim_left in
  mkTabularFields (shape t) (alignment t) (float_format t) (data t)
                  (rules_set row (col_start, col_end, r +:+ l) (rules t)).

(** [Tabular.build_rule]; [trim] is a string or [None]. *)
Definition build_rule (t : TabularFields) (start end_ : option Z) (trim : option string)
  : string :=
  let trim_true := match trim with Some s => str_truthy s | None => false end in
  match start, end_, trim_true with
  | None, None, false => "\midrule"
  | _, _, _ =>
      let rule := "\cmidrule" in
      let rule := match trim with
                  | Some s => if str_truthy s then rule +:+ "(" +:+ s +:+ ")" else rule
                  | None => rule
                  end in
      let '(start, end_) := slice_indices start end_ (Z.of_nat (snd (shape t))) in
      rule +:+ "{" +:+ str_of_Z (start + 1) +:+ "-" +:+ str_of_Z end_ +:+ "}"
  end.

Section Build.
(** Python's formatting of a float under a format spec: what
    ['{value:spec}'.format(value=x)] returns, or the exception it raises
    when it refuses the spec. *)
Variable format_float : string -> pyfloat -> result string.

(** The first loop of [Tabular.build]: a cell becomes its text, row by
    row and cell by cell; the first cell that is refused ends the build. *)
Definition format_cell (float_format : string) (value : cell) : result string :=
  match value with
  | CFloat x => format_float float_format x
  | CVal v => Ok (py_str v)
  end.

Fixpoint format_row (float_format : string) (row : list cell) : result (list string) :=
  match row with
  | [] => Ok []
  | value :: rest =>
      entry <- format_cell float_format value ;;
      entries <- format_row float_format rest ;;
      Ok (entry :: entries)
  end.

Fixpoint format_data (float_format : string) (data : list (list cell))
  : result (list (list string)) :=
  match data with
  | [] => Ok []
  | row :: rest =>
      entries <- format_row float_format row ;;
      more <- format_data float_format rest ;;
      Ok (entries :: more)
  end.

(** The second loop of [Tabular.build]: the lines appended to the body,
    row by row ([i] is the index of the first row of [rows]). *)
Fixpoint tabular_lines (t : TabularFields) (i : Z) (rows : list (list string))
  : list string :=
  match rows with
  | [] => []
  | row :: rest =>
      let line := join " & " row +:+ "\\" in
      match rules_get i (rules t) with
      | Some (start, end_, trim) =>
          line :: build_rule t start end_ (Some trim) :: tabular_lines t (i + 1) rest
      | None => line :: tabular_lines t (i + 1) rest
      end
  end.

(** [self.body.append(line)] for each line in turn. *)
Fixpoint body_extend {E : Type} (b : body_t (item E)) (lines : list string)
  : result (body_t (item E)) :=
  match lines with
  | [] => Ok b
  | l :: rest => b' <- body_append b (IText l) ;; body_extend b' rest
  end.

(** The string list joined at the end of [TexEnvironment.build]. *)
Fixpoint items_strings {E : Type} (l : list (item E)) : result (list string) :=
  match l with
  | [] => Ok []
  | IText s :: rest => ss <- items_strings rest ;; Ok (s :: ss)
  | IEnv _ :: _ => Raise TypeError
  end.

Section Loop.
(** [line.build()] on a nested environment. *)
Variable env_build : TexEnvironment -> result TexEnvironment.

(** The loop of [TexEnvironment.build]: an environment of the body is
    built and replaced by its [body]. A list left in [body] would be
    refused by the final join; a successful build never leaves one. *)
Fixpoint build_items (l : list (item TexEnvironment))
  : result (list (item TexEnvironment)) :=
  match l with
  | [] => Ok []
  | IText s :: rest => rest' <- build_items rest ;; Ok (IText s :: rest')
  | IEnv line :: rest =>
      line' <- env_build line ;;
      match body line' with
      | BStr s => rest' <- build_items rest ;; Ok (IText s :: rest')
      | BList _ => Raise TypeError
      end
  end.

(** [TexEnvironment.build]. On a string body the loop visits its
    characters and [[self.head] + self.body] raises. *)
Definition TexEnvironment_build (e : TexEnvironment) : result TexEnvironment :=
  match e with
  | mkTexEnvironment k n b h tl =>
      match b with
      | BList l =>
          l' <- build_items l ;;
          ss <- items_strings l' ;;
          Ok (mkTexEnvironment k n (BStr (join nl ([h] ++ ss ++ [tl]))) h tl)
      | BStr _ => Raise TypeError
      end
  end.

(** [self.body.append(line)] for each of [lines], then
    [TexEnvironment.build]: the appended lines are the last texts of the
    body (see [TexEnvironment_build_appended_eq]). *)
Definition TexEnvironment_build_appended (e : TexEnvironment) (lines : list string)
  : result TexEnvironment :=
  match e with
  | mkTexEnvironment k n b h tl =>
      match b with
      | BList l =>
          l' <- build_items l ;;
          ss <- items_strings l' ;;
          Ok (mkTexEnvironment k n (BStr (join nl ([h] ++ (ss ++ lines) ++ [tl]))) h tl)
      | BStr _ =>
          match lines with
          | [] => Raise TypeError
          | _ :: _ => Raise AttributeError
          end
      end
  end.

(** [Table.build] *)
Definition Table_build (e : TexEnvironment) : result TexEnvironment :=
  TexEnvironment_build e.

(** [Tabular.build]: decorate head and tail, format the cells in place,
    append a line per row and a rule line where one is registered
    (each rule is also printed to the standard output, which is not
    modelled), then the inherited build. *)
Definition Tabular_build (t : TabularFields) (e : TexEnvironment)
  : result TexEnvironment :=
  match e with
  | mkTexEnvironment _ n b h tl =>
      let '(row, col) := shape t in
      let h := h +:+ "{" +:+ str_repeat "c" col +:+ "}" +:+ nl +:+ "\toprule" in
      let tl := "\bottomrule" +:+ nl +:+ tl in
      entries <- format_data (float_format t) (data t) ;;
      let t' := mkTabularFields (shape t) (alignment t) (float_format t)
                  (map (map (fun s => CVal (VStr s))) entries) (rules t) in
      TexEnvironment_build_appended (mkTexEnvironment (KTabular t') n b h tl)
                                    (tabular_lines t 0 entries)
  end.
End Loop.

(** [line.build()]: the method of the environment's class. *)
Fixpoint env_build (e : TexEnvironment) {struct e} : result TexEnvironment :=
  match e with
  | mkTexEnvironment k _ _ _ _ =>
      match k with
      | KEnv => TexEnvironment_build env_build e
      | KTable => Table_build env_build e
      | KTabular t => Tabular_build env_build t e
      end
  end.
End Build.

(** [Tabular.__init__] (its call of [parent_doc.add_package('booktabs')]
    is part of [new_table] below) and [Table.__init__]. *)
Definition Tabular_init (shape : nat * nat) (alignment float_format : string)
  : TexEnvironment :=
  let t := mkTabularFields shape alignment float_format
             (repeat (repeat (CVal VNone) (snd shape)) (fst shape)) [] in
  TexEnvironment_init (KTabular t) "tabular" [] None.

Definition Table_init (position : string) (tabular : TexEnvironment) : TexEnvironment :=
  match TexEnvironment_init KTable "table" [] (Some position) with
  | mkTexEnvironment k n _ h tl =>
      mkTexEnvironment k n (BList [IEnv tabular]) (h +:+ nl +:+ "\centering") tl
  end.

(** [self.header]: the list of preamble lines, or, once [Document.build]
    has run, the joined string. *)
Inductive header_t : Type :=
| HList (l : list string)
| HStr (s : string).

(** A [Document]: the attributes of its [TexEnvironment] part ([self_env])
    and its own. A package entry maps the package name to its option
    string. *)
Record Document : Type := mkDocument {
  self_env : TexEnvironment;
  filename : string;
  header : header_t;
  packages : dict string;
  margins : dict string
}.

Definition set_packages (d : Document) (pk : dict string) : Document :=
  mkDocument (self_env d) (filename d) (header d) pk (margins d).

(** [Document.add_package]. With keyword options the loop calls
    [options.append] on a string. *)
Definition str_append (options : string) (x : string) : result string :=
  Raise AttributeError.

Fixpoint append_kwoptions (options : string) (kwoptions : dict pyval) {struct kwoptions}
  : result string :=
  match kwoptions with
  | [] => Ok options
  | (key, value) :: rest =>
      options <- str_append options (key +:+ "=" +:+ py_str value) ;;
      append_kwoptions options rest
  end.

Definition add_package (d : Document) (package : string) (options : list string)
           (kwoptions : dict pyval) : result Document :=
  let options := if seq_truthy options then "[" +:+ join "," options +:+ "]" else "" in
  options <- (if seq_truthy kwoptions then append_kwoptions options kwoptions
              else Ok options) ;;
  Ok (set_packages d (dict_set package options (packages d))).

(** [Document.set_margins] *)
Definition set_margins (d : Document) (margin : string) (top bottom : option string)
  : Document :=
  let m := [("top", margin); ("bottom", margin); ("margin", margin)] in
  let m := match top with Some t => dict_set "top" t m | None => m end in
  let m := match bottom with Some b => dict_set "bottom" b m | None => m end in
  let geometry := join "," (map (fun kv => fst kv +:+ "=" +:+ snd kv) m) in
  mkDocument (self_env d) (filename d) (header d)
             (dict_set "geometry" geometry (packages d)) m.

(** [Document.__init__] *)
Definition Document_init (filename doc_type : string) (options : list string)
           (kwoptions : dict pyval) : Document :=
  let env := mkTexEnvironment KEnv "document" (BList []) "\begin{document}" "\end{document}" in
  let options := options ++ map (fun kv => fst kv +:+ "=" +:+ py_str (snd kv)) kwoptions in
  let options := "[" +:+ join "," options +:+ "]" in
  let header := ["\documentclass" +:+ options +:+ "{" +:+ doc_type +:+ "}"] in
  set_margins (mkDocument env filename (HList header)
                          [("inputenc", "utf8"); ("geometry", "")] [])
              "2.5cm" None None.

(** [add_text] and [new_table] on the document: the table is appended to
    the body and its tabular registers [booktabs] with the document. *)
Definition with_env (d : Document) (e : TexEnvironment) : Document :=
  mkDocument e (filename d) (header d) (packages d) (margins d).

Definition append_item (e : TexEnvironment) (x : item TexEnvironment)
  : result TexEnvironment :=
  b <- body_append (body e) x ;;
  Ok (mkTexEnvironment (cls e) (env_name e) b (head e) (tail e)).

Definition add_text (d : Document) (text : string) : result Document :=
  e <- append_item (self_env d) (IText text) ;; Ok (with_env d e).

Definition new_table (d : Document) (position : string) (tabular : TabularFields)
  : result Document :=
  let tab := TexEnvironment_init (KTabular tabular) "tabular" [] None in
  d <- add_package d "booktabs" [] [] ;;
  e <- append_item (self_env d) (IEnv (Table_init position tab)) ;;
  Ok (with_env d e).

Section DocumentBuild.
Variable format_float : string -> pyfloat -> result string.

(** One line of the preamble, lines 108-110. *)
Definition usepackage_line (package options : string) : string :=
  let options := if str_truthy options then "[" +:+ options +:+ "]" else options in
  "\usepackage" +:+ options +:+ "{" +:+ package +:+ "}".

(** [self.header.append(x)] *)
Definition header_append (h : header_t) (x : string) : result header_t :=
  match h with
  | HList l => Ok (HList (l ++ [x]))
  | HStr _ => Raise AttributeError
  end.

Fixpoint append_packages (h : header_t) (pk : dict string) : result header_t :=
  match pk with
  | [] => Ok h
  | (package, options) :: rest =>
      h <- header_append h (usepackage_line package options) ;;
      append_packages h rest
  end.

(** Lines 107-111: the preamble is rendered from [self.packages]. *)
Definition render_header (d : Document) : result Document :=
  h <- append_packages (header d) (packages d) ;;
  let lines := match h with HList l => l | HStr s => str_chars s end in
  Ok (mkDocument (self_env d) (filename d) (HStr (join nl lines)) (packages d) (margins d)).

(** Line 113: [super().build()]. *)
Definition build_body (d : Document) : result Document :=
  e <- TexEnvironment_build (env_build format_float) (self_env d) ;;
  Ok (with_env d e).

(** Line 114: the text handed to [self.file.save]. *)
Definition saved_text (d : Document) : result string :=
  match header d, body (self_env d) with
  | HStr h, BStr b => Ok (h +:+ nl +:+ b)
  | _, _ => Raise TypeError
  end.

(** The statements of [Document.build] as a transition system over the
    document: the program point, the document, and the text written to
    the file so far. *)
Inductive point : Type :=
| AtHeader
| AtBody
| AtSave
| Finished.

Record config : Type := mkConfig {
  at_point : point;
  doc : Document;
  saved : option string
}.

Definition start (d : Document) : config := mkConfig AtHeader d None.

Definition step (c : config) : result config :=
  match at_point c with
  | AtHeader => d <- render_header (doc c) ;; Ok (mkConfig AtBody d (saved c))
  | AtBody => d <- build_body (doc c) ;; Ok (mkConfig AtSave d (saved c))
  | AtSave => tex <- saved_text (doc c) ;; Ok (mkConfig Finished (doc c) (Some tex))
  | Finished => Ok c
  end.

Inductive reaches (c : config) : config -> Prop :=
| reaches_refl : reaches c c
| reaches_step : forall c1 c2, reaches c c1 -> step c1 = Ok c2 -> reaches c c2.

(** [Document.build]: the document afterwards and the text saved for the
    typesetting tool (whose run is not modelled). *)
Definition Document_build (d : Document) : result (Document * string) :=
  d <- render_header d ;;
  d <- build_body d ;;
  tex <- saved_text d ;;
  Ok (d, tex).

Definition header_rendered (d : Document) : bool :=
  match header d with HStr _ => true | HList _ => false end.

Definition body_built (d : Document) : bool :=
  match body (self_env d) with BStr _ => true | BList _ => false end.
End DocumentBuild.

(** *** Vocabulary of the properties *)

(** A tree on which [build] has not run: every body is still a list. *)
Definition unbuilt_item (unbuilt : TexEnvironment -> bool) (it : item TexEnvironment)
  : bool :=
  match it with
  | IText _ => true
  | IEnv c => unbuilt c
  end.

Fixpoint unbuilt (e : TexEnvironment) : bool :=
  match e with
  | mkTexEnvironment _ _ b _ _ =>
      match b with
      | BList l => forallb (unbuilt_item unbuilt) l
      | BStr _ => false
      end
  end.

(** The preamble lines: the lines of the header, then one declaration per
    entry of the registry, in its order. *)
Definition preamble_lines (hl : list string) (pk : dict string) : list string :=
  hl ++ map (fun kv => usepackage_line (fst kv) (snd kv)) pk.

(** The ordering the specification words: whenever, in a run of
    [Document.build], the preamble has been rendered, the body has been
    built. *)
Definition body_built_before_preamble (format_float : string -> pyfloat -> result string)
           (d : Document) : Prop :=
  forall c, reaches format_float (start d) c ->
            header_rendered (doc c) = true -> body_built (doc c) = true.

(** [top ?? uniform] *)
Definition or_default (o : option string) (dflt : string) : string :=
  match o with
  | Some x => x
  | None => dflt
  end.

(** Slice resolution as the language defines it: a negative index counts
    from the end, and the result is clamped to [0 .. length]. *)
Definition slice_clamp (length i : Z) : Z :=
  Z.max 0 (Z.min length (if (i <? 0)%Z then (i + length)%Z else i)).

Definition slice_resolve (start stop : option Z) (length : Z) : Z * Z :=
  (match start with Some i => slice_clamp length i | None => 0%Z end,
   match stop with Some i => slice_clamp length i | None => length end).

(** The line of a row, and the rule line registered under a row, if any. *)
Definition row_line (row : list string) : string := join " & " row +:+ "\\".

Definition rule_line (t : TabularFields) (i : nat) : list string :=
  match rules_get (Z.of_nat i) (rules t) with
  | Some (start, end_, trim) => [build_rule t start end_ (Some trim)]
  | None => []
  end.

Definition row_lines (t : TabularFields) (entries : list (list string)) : list string :=
  flat_map (fun ir => row_line (snd ir) :: rule_line t (fst ir))
           (combine (seq 0 (List.length entries)) entries).

(** The tabular once its cells are replaced in place by their texts
    [entries]. *)
Definition formatted (t : TabularFields) (entries : list (list string)) : TabularFields :=
  mkTabularFields (shape t) (alignment t) (float_format t)
    (map (map (fun s => CVal (VStr s))) entries) (rules t).

(** Every float cell of every tabular of the tree is accepted by the float
    format of its tabular. *)
Definition formats_item (formats : TexEnvironment -> bool) (it : item TexEnvironment)
  : bool :=
  match it with
  | IText _ => true
  | IEnv c => formats c
  end.

Fixpoint formats (format_float : string -> pyfloat -> result string)
         (e : TexEnvironment) : bool :=
  match e with
  | mkTexEnvironment k _ b _ _ =>
      match k with
      | KTabular t =>
          match format_data format_float (float_format t) (data t) with
          | Ok _ => true
          | Raise _ => false
          end
      | _ => true
      end
      && match b with
         | BList l => forallb (formats_item (formats format_float)) l
         | BStr _ => true
         end
  end.

(** The formatter of the examples. It agrees with Python's on ['.2f']
    (fixed-point notation with two decimals) and on the specs Python refuses
    with a [ValueError], such as ['not a format']; the examples use no
    other spec. *)
Definition sample_format (spec : string) (x : pyfloat) : result string :=
  if String.eqb spec ".2f" then Ok (format_fixed 2 x) else Raise ValueError.

(** The document of the scenario: a text and a table of shape (2, 2) with
    the cells [[1.5, 2], ["A", "B"]] and a rule under the first row. *)
Definition sample_tabular : TabularFields :=
  add_rule (mkTabularFields (2, 2) "c" ".2f"
              [[CFloat (mkFloat 3 (-1)); CVal (VInt 2)];
               [CVal (VStr "A"); CVal (VStr "B")]] [])
           0 (Some 1%Z) (Some 3%Z) (TBool false) (TBool false).

(** The same cells under a float format that is no format spec. *)
Definition refused_tabular : TabularFields :=
  mkTabularFields (2, 2) "c" "not a format"
    [[CFloat (mkFloat 3 (-1)); CVal (VInt 2)];
     [CVal (VStr "A"); CVal (VStr "B")]] [].

Definition sample_document : Document :=
  Eval vm_compute in
    let d0 := Document_init "Test" "article" ["12pt"] [] in
    match (d <- add_text d0 "This section tests tables." ;;
           new_table d "h!" sample_tabular) with
    | Ok d => d
    | Raise _ => d0
    end.

(** *** Vocabulary of the further properties *)

(** What an element of a body contributes to the string that replaces the
    body: a text itself, an environment the string its [build] leaves in its
    [body]. *)
Inductive contributes (format_float : string -> pyfloat -> result string)
  : item TexEnvironment -> string -> Prop :=
| contributes_text (s : string) : contributes format_float (IText s) s
| contributes_env (c c' : TexEnvironment) (s : string) :
    env_build format_float c = Ok c' -> body c' = BStr s ->
    contributes format_float (IEnv c) s.

(** The exception a second [build] raises on an environment of class [k]:
    a tabular with rows fails on [self.body.append], everything else on
    [[self.head] + self.body]. *)
Definition second_build_exn (k : kind) : exn :=
  match k with
  | KTabular t => if seq_truthy (data t) then AttributeError else TypeError
  | _ => TypeError
  end.

(** What a build left behind, class aside. *)
Definition built_parts (r : result TexEnvironment)
  : result (body_t (item TexEnvironment) * string * string) :=
  e <- r ;; Ok (body e, head e, tail e).

(** The text a [Document.build] saved. *)
Definition saved_of (r : result (Document * string)) : result string :=
  '(_, tex) <- r ;; Ok tex.

Definition with_alignment (t : TabularFields) (alignment : string) : TabularFields :=
  mkTabularFields (shape t) alignment (float_format t) (data t) (rules t).

End Doc.

(** ** [plot.py]: the curves of a plot

    The methods of [Plot] that work on its curves: [add_plot],
    [_build_plots] and [save_to_csv], on a plot whose attributes [axis],
    [plot_name], [plots] and [default_plot_kwoptions] are set. The axis is
    an environment of [tex_base.py]. *)

Module Plot.

(** [s.replace('_', ' ')] *)
Fixpoint replace_underscores (s : string) : string :=
  match s with
  | EmptyString => EmptyString
  | String c s' =>
      String (if Ascii.eqb c "_"%char then " "%char else c) (replace_underscores s')
  end.

(** [{key.replace('_', ' '): value for key, value in kwoptions.items()}] *)
Definition spaced_keys (kwoptions : dict pyval) : dict pyval :=
  fold_left (fun acc kv => dict_set (replace_underscores (fst kv)) (snd kv) acc)
            kwoptions [].

(** ['='.join((k, v))], which takes strings only. *)
Definition kwoption_text (kv : string * pyval) : result string :=
  match snd kv with
  | VStr v => Ok (join "=" [fst kv; v])
  | _ => Raise TypeError
  end.

Fixpoint kwoption_texts (kwoptions : dict pyval) : result (list string) :=
  match kwoptions with
  | [] => Ok []
  | kv :: rest =>
      s <- kwoption_text kv ;;
      ss <- kwoption_texts rest ;;
      Ok (s :: ss)
  end.

(** The end of [Plot.__init__]: the default keyword options of the curves,
    from the arguments [marks] and [lines], each a [bool] or a [str]. *)
Definition default_kwoptions (marks lines : Doc.trim_arg) : dict pyval :=
  let mark_size := if negb (Doc.trim_truthy marks) then "0pt"
                   else match marks with Doc.TStr s => s | Doc.TBool _ => "2pt" end in
  let line_width := if negb (Doc.trim_truthy lines) then "0pt"
                    else match lines with Doc.TStr s => s | Doc.TBool _ => "1.25pt" end in
  [("line width", VStr line_width); ("mark size", VStr mark_size)].

Section Zip.
Variable A : Type.

(** The next item of every column and what is left of the columns, or
    [None] when a column is exhausted. *)
Fixpoint heads_tails (columns : list (list A)) : option (list A * list (list A)) :=
  match columns with
  | [] => Some ([], [])
  | [] :: _ => None
  | (x :: xs) :: rest =>
      match heads_tails rest with
      | Some (hs, ts) => Some (x :: hs, xs :: ts)
      | None => None
      end
  end.

(** [zip] over the unpacked [columns], for at least one column; [first] is
    the first column. *)
Fixpoint zip_from (first : list A) (columns : list (list A)) : list (list A) :=
  match first with
  | [] => []
  | _ :: first' =>
      match heads_tails columns with
      | Some (hs, ts) => hs :: zip_from first' ts
      | None => []
      end
  end.

(** [zip] over the unpacked [columns]; without a column it yields
    nothing. *)
Definition zip_star (columns : list (list A)) : list (list A) :=
  match columns with
  | [] => []
  | first :: _ => zip_from first columns
  end.

(** The length of the shortest column, 0 without a column. *)
Fixpoint shortest (columns : list (list A)) : nat :=
  match columns with
  | [] => 0
  | c :: rest =>
      match rest with
      | [] => List.length c
      | _ :: _ => Nat.min (List.length c) (shortest rest)
      end
  end.
End Zip.

Section Curves.
Variable A : Type.

(** An entry of [self.plots]: the tuple [(X, Y, legend, options,
    kwoptions)]; [legend] is a string or [None]. *)
Record curve : Type := mkCurve {
  X : list A;
  Y : list A;
  legend : option string;
  options : list string;
  kwoptions : dict pyval
}.

Record Plot : Type := mkPlot {
  axis : TexBase.TexObject;
  plot_name : string;
  plots : list curve;
  default_plot_kwoptions : dict pyval
}.

(** [Plot.add_plot] *)
Definition add_plot (p : Plot) (X Y : list A) (options : list string)
           (legend : option string) (kwoptions : dict pyval) : Plot :=
  let options := map replace_underscores options in
  let kwoptions := spaced_keys kwoptions in
  let kwoptions :=
    dict_update kwoptions
                (filter (fun kv => negb (dict_has (fst kv) kwoptions))
                        (default_plot_kwoptions p)) in
  mkPlot (axis p) (plot_name p)
         (plots p ++ [mkCurve X Y legend options kwoptions])
         (default_plot_kwoptions p).

(** The body of the loop of [Plot._build_plots]: the texts it adds to the
    axis for the curve of index [i]. *)
Definition curve_lines (plot_name : string) (i : nat) (c : curve)
  : result (list string) :=
  let options := join ", " (options c) in
  kws <- kwoption_texts (kwoptions c) ;;
  let kwoptions := join ", " kws in
  let options := if str_truthy options && str_truthy kwoptions
                 then options +:+ ", " else options in
  let line := "\addplot+[" +:+ (options +:+ kwoptions) +:+ "] table[x=x"
              +:+ str_of_Z (Z.of_nat i) +:+ ", y=y" +:+ str_of_Z (Z.of_nat i)
              +:+ ", col sep=comma]{" +:+ (plot_name +:+ ".csv") +:+ "};" in
  Ok (line :: match legend c with
              | Some l => if str_truthy l then ["\addlegendentry{" +:+ l +:+ "}"] else []
              | None => []
              end).

Fixpoint build_plots_from (plot_name : string) (i : nat) (cs : list curve)
         (axis : TexBase.TexObject) : result TexBase.TexObject :=
  match cs with
  | [] => Ok axis
  | c :: rest =>
      ls <- curve_lines plot_name i c ;;
      build_plots_from plot_name (S i) rest (fold_left TexBase.add_text ls axis)
  end.

(** [Plot._build_plots] *)
Definition _build_plots (p : Plot) : result Plot :=
  axis' <- build_plots_from (plot_name p) 0 (plots p) (axis p) ;;
  Ok (mkPlot axis' (plot_name p) (plots p) (default_plot_kwoptions p)).

(** [Plot.save_to_csv]: the name of the file it opens for writing, and
    the rows it hands to the writer, the row of titles first. *)
Definition titles (n : nat) : list string :=
  flat_map (fun i => ["x" +:+ str_of_Z (Z.of_nat i); "y" +:+ str_of_Z (Z.of_nat i)])
           (seq 0 n).

Definition X_Y (cs : list curve) : list (list A) :=
  flat_map (fun c => [X c; Y c]) cs.

Definition save_to_csv (p : Plot) : string * list string * list (list A) :=
  (plot_name p +:+ ".csv", titles (List.length (plots p)), zip_star (X_Y (plots p))).

(** *** Vocabulary of the statements *)

(** The keyword options with their keys respelled, when no two keys are
    respelled alike. *)
Definition respelled (kwoptions : dict pyval) : dict pyval :=
  map (fun kv => (replace_underscores (fst kv), snd kv)) kwoptions.

(** Every keyword option of every curve is a string. *)
Definition str_valued (kwoptions : dict pyval) : bool :=
  forallb (fun kv => match snd kv with VStr _ => true | _ => false end) kwoptions.

(** What stands between the brackets of [\addplot+] for a curve. *)
Definition bracket (c : curve) : string :=
  let options := join ", " (options c) in
  let kwoptions := join ", " (map (fun kv => fst kv +:+ "=" +:+ py_str (snd kv))
                                  (kwoptions c)) in
  if str_truthy options && str_truthy kwoptions
  then options +:+ ", " +:+ kwoptions
  else options +:+ kwoptions.

Definition addplot_line (plot_name : string) (i : nat) (c : curve) : string :=
  "\addplot+[" +:+ bracket c +:+ "] table[x=x" +:+ str_of_Z (Z.of_nat i)
  +:+ ", y=y" +:+ str_of_Z (Z.of_nat i) +:+ ", col sep=comma]{" +:+ plot_name
  +:+ ".csv};".

Definition legend_lines (c : curve) : list string :=
  match legend c with
  | Some l => if str_truthy l then ["\addlegendentry{" +:+ l +:+ "}"] else []
  | None => []
  end.

(** The texts of all the curves, in the order of the curves. *)
Definition plot_lines (plot_name : string) (cs : list curve) : list string :=
  flat_map (fun ic => addplot_line plot_name (fst ic) (snd ic) :: legend_lines (snd ic))
           (combine (seq 0 (List.length cs)) cs).

End Curves.

(** A plot with the default options of [marks=False] and [lines=True] and
    two curves, the second with a line width of its own. *)
Definition sample_plot : Plot Z :=
  add_plot
    (add_plot (mkPlot (TexBase.env_object "axis" [] [] "" "top" [])
                      "fig" [] (default_kwoptions (Doc.TBool false) (Doc.TBool true)))
              [0; 1; 2]%Z [5; 6; 7]%Z ["blue"] (Some "sine") [])
    [0; 1]%Z [8; 9]%Z [] None [("line_width", VStr "2pt")].

End Plot.

(** * Properties *)

(** ** Strings, joins and dictionaries *)

Lemma append_nil_r (s : string) : s +:+ "" = s.
Proof. induction s; simpl; congruence. Qed.

Lemma append_assoc (a b c : string) : (a +:+ b) +:+ c = a +:+ (b +:+ c).
Proof. induction a; simpl; congruence. Qed.


Lemma join_cons (sep x : string) (l : list string) :
  l <> [] -> join sep (x :: l) = x +:+ sep +:+ join sep l.
Proof. destruct l; [congruence | reflexivity]. Qed.

(** Joining a concatenation of two non-empty lists puts one separator
    between the joined halves. *)
Lemma join_app (sep : string) (l1 l2 : list string) :
  l1 <> [] -> l2 <> [] ->
  join sep (l1 ++ l2) = join sep l1 +:+ sep +:+ join sep l2.
Proof.
  intros H1 H2. induction l1 as [|x l1 IH]; [congruence|].
  destruct l1 as [|y l1].
  - change ([x] ++ l2) with (x :: l2). now rewrite join_cons.
  - change ((x :: y :: l1) ++ l2) with (x :: (y :: l1) ++ l2).
    rewrite join_cons by discriminate.
    rewrite IH by discriminate.
    rewrite (@join_cons sep x (y :: l1)) by discriminate.
    now rewrite !append_assoc.
Qed.


Section DictFacts.
Variable V : Type.
Implicit Types (d other : dict V) (k : string) (v : V).

Lemma dict_get_set_same k v d : dict_get k (dict_set k v d) = Some v.
Proof.
  induction d as [|[k' v'] d IH]; simpl.
  - now rewrite String.eqb_refl.
  - destruct (String.eqb k k') eqn:E; simpl; rewrite E; auto.
Qed.

Lemma dict_get_set_other k k' v d :
  k <> k' -> dict_get k (dict_set k' v d) = dict_get k d.
Proof.
  intros Hne. induction d as [|[k2 v2] d IH]; simpl.
  - apply String.eqb_neq in Hne. now rewrite Hne.
  - destruct (String.eqb k' k2) eqn:E; simpl.
    + apply String.eqb_eq in E. subst k2.
      apply String.eqb_neq in Hne. now rewrite Hne.
    + now rewrite IH.
Qed.

Lemma dict_keys_set_in k v d :
  In k (dict_keys d) -> dict_keys (dict_set k v d) = dict_keys d.
Proof.
  induction d as [|[k' v'] d IH]; simpl; [tauto|].
  intros [->|Hin].
  - now rewrite String.eqb_refl.
  - destruct (String.eqb k k'); simpl; [reflexivity|]. now rewrite IH.
Qed.

Lemma dict_keys_set_notin k v d :
  ~ In k (dict_keys d) -> dict_keys (dict_set k v d) = dict_keys d ++ [k].
Proof.
  induction d as [|[k' v'] d IH]; simpl; [reflexivity|].
  intros Hnin. destruct (String.eqb k k') eqn:E.
  - apply String.eqb_eq in E. subst. tauto.
  - simpl. rewrite IH; tauto.
Qed.

(** Assignment keeps the keys pairwise distinct. *)
Lemma dict_wf_set k v d : dict_wf d -> dict_wf (dict_set k v d).
Proof.
  unfold dict_wf. intros Hwf.
  destruct (in_dec string_dec k (dict_keys d)) as [Hin|Hnin].
  - now rewrite dict_keys_set_in.
  - rewrite dict_keys_set_notin by assumption.
    apply NoDup_app; [assumption | constructor; [tauto | constructor] |].
    intros x Hx [<-|[]]. contradiction.
Qed.

Lemma dict_wf_update d other : dict_wf d -> dict_wf (dict_update d other).
Proof.
  unfold dict_update. revert d.
  induction other as [|[k v] other IH]; simpl; intros d Hwf; [assumption|].
  apply IH. now apply dict_wf_set.
Qed.

Lemma dict_get_None_notin k d : dict_get k d = None <-> ~ In k (dict_keys d).
Proof.
  induction d as [|[k' v'] d IH]; simpl; [tauto|].
  destruct (String.eqb k k') eqn:E.
  - apply String.eqb_eq in E. subst. split; [discriminate | tauto].
  - apply String.eqb_neq in E. rewrite IH. split; [intros H [?|?]; auto | tauto].
Qed.

(** Merging a dictionary that does not hold [k] leaves [k] as it was. *)
Lemma dict_get_update_None k d other :
  dict_get k other = None -> dict_get k (dict_update d other) = dict_get k d.
Proof.
  unfold dict_update. revert d.
  induction other as [|[k' v'] other IH]; simpl; intros d H; [reflexivity|].
  destruct (String.eqb k k') eqn:E; [discriminate|].
  rewrite IH by assumption. apply dict_get_set_other. now apply String.eqb_neq.
Qed.

(** Merging a dictionary that holds [k] overwrites [k] with its value. *)
Lemma dict_get_update_Some k v d other :
  dict_wf other -> dict_get k other = Some v ->
  dict_get k (dict_update d other) = Some v.
Proof.
  unfold dict_update, dict_wf. revert d.
  induction other as [|[k' v'] other IH]; simpl; intros d Hwf H; [discriminate|].
  inversion Hwf as [|? ? Hnin Hwf']; subst.
  destruct (String.eqb k k') eqn:E.
  - apply String.eqb_eq in E. subst k'. injection H as ->.
    change (fold_left _ other (dict_set k v d)) with (dict_update (dict_set k v d) other).
    rewrite dict_get_update_None; [apply dict_get_set_same|].
    now apply dict_get_None_notin.
  - now apply IH.
Qed.

Lemma dict_count_notin k (l : list string) :
  ~ In k l -> List.length (filter (String.eqb k) l) = 0.
Proof.
  induction l as [|x l IH]; simpl; [reflexivity|]. intros H.
  destruct (String.eqb k x) eqn:E.
  - apply String.eqb_eq in E. subst. tauto.
  - apply IH. tauto.
Qed.

(** A name that is present is stored exactly once. *)
Lemma dict_count_one k v d :
  dict_wf d -> dict_get k d = Some v -> dict_count k d = 1.
Proof.
  unfold dict_wf, dict_count.
  induction d as [|[k' v'] d IH]; simpl; intros Hwf H; [discriminate|].
  inversion Hwf as [|? ? Hnin Hwf']; subst.
  destruct (String.eqb k k') eqn:E; simpl.
  - apply String.eqb_eq in E. subst k'. now rewrite dict_count_notin.
  - now apply IH.
Qed.
End DictFacts.

(** ** The merge-on-build engine of [tex_base.py] *)

Module TexBaseProps.
Import TexBase.

(** Induction over a tree of objects. *)
Section TexObjectInd.
Variable P : TexObject -> Prop.

Definition P_item (it : item TexObject) : Prop :=
  match it with
  | IText _ => True
  | IObj c => P c
  end.

Hypothesis P_node : forall n b pk e, Forall P_item b -> P (mkTexObject n b pk e).

Fixpoint TexObject_tree_ind (o : TexObject) : P o :=
  match o with
  | mkTexObject n b pk e =>
      P_node n pk e
        ((fix items (l : list (item TexObject)) : Forall P_item l :=
            match l with
            | [] => Forall_nil _
            | it :: r =>
                Forall_cons it
                  (match it return P_item it with
                   | IText _ => I
                   | IObj c => TexObject_tree_ind c
                   end)
                  (items r)
            end) b)
  end.
End TexObjectInd.

(** [obj.build()] is the method of the object's class. *)
Lemma obj_build_env (o : TexObject) (f : EnvFields) :
  env o = Some f -> obj_build o = TexEnvironment_build obj_build f o None None.
Proof. destruct o as [n b pk e]. simpl. now intros ->. Qed.

Lemma obj_build_obj (o : TexObject) :
  env o = None -> obj_build o = TexObject_build obj_build o.
Proof. destruct o as [n b pk e]. simpl. now intros ->. Qed.

(** The head and tail lines [build] computes from a head that starts with
    the opening marker. *)
Lemma head_tail_lines (n : string) (f : EnvFields) (m : string) (rest : list string) :
  head f = m :: rest ->
  head_tail n f None None =
    Ok (decorated_marker f m :: rest ++ top_label n f, bottom_label n f ++ tail f).
Proof.
  intros Hh. unfold head_tail, decorated_marker, options_part, parameters_part,
    top_label, bottom_label, arg_or. rewrite Hh.
  generalize (options_suffix f) (parameters_suffix f) (label_line n f).
  intros os ps ll.
  destruct (seq_truthy (options f) || seq_truthy (kwoptions f));
    destruct (seq_truthy (parameters f)); simpl;
    destruct (str_truthy (label f)); simpl;
    destruct (String.eqb (label_pos f) "top"); simpl;
    rewrite ?append_nil_r, ?append_assoc, ?app_nil_r; reflexivity.
Qed.

(** The text of an environment: head lines, the body unless it is empty,
    tail lines, joined by newlines. *)
Lemma obj_build_lines (o o' : TexObject) (f : EnvFields) (h t : list string)
      (body : string) :
  env o = Some f ->
  head_tail (name o) f None None = Ok (h, t) ->
  TexObject_build obj_build o = Ok (body, o') ->
  obj_build o = Ok (join nl (h ++ body_lines body ++ t), o').
Proof.
  intros He Hht Hb. rewrite (obj_build_env _ He).
  unfold TexEnvironment_build. rewrite Hht. simpl. rewrite Hb. simpl.
  unfold body_lines. destruct (str_truthy body); reflexivity.
Qed.

(** An object without children has the empty body text. *)
Lemma TexObject_build_no_children (o : TexObject) :
  body o = [] -> TexObject_build obj_build o = Ok ("", o).
Proof. destruct o as [n b pk e]. simpl. now intros ->. Qed.





(** *** Head construction *)

(** The text [build] returns for an environment whose head starts with the
    opening marker [m]. *)
Lemma obj_build_text (o o' : TexObject) (f : EnvFields) (m body : string)
      (rest : list string) :
  env o = Some f ->
  head f = m :: rest ->
  TexObject_build obj_build o = Ok (body, o') ->
  obj_build o = Ok (env_text (name o) f (decorated_marker f m) rest body, o').
Proof.
  intros He Hh Hb.
  rewrite (obj_build_lines _ He (head_tail_lines (name o) f Hh) Hb).
  unfold env_text. rewrite <- app_comm_cons. now rewrite <- app_assoc.
Qed.


(** [TexEnvironment.__init__] never returns: the base initializer refuses
    the keyword arguments it is called with, before any attribute is
    assigned. The environments of the statements below are given by their
    attributes. *)
Lemma TexEnvironment_init_raises (env_name : string) (parameters : list string)
      (options : options_arg) (label label_pos : string) (kwoptions : dict pyval) :
  TexEnvironment_init env_name parameters options label label_pos kwoptions
  = Raise TypeError.
Proof. reflexivity. Qed.



(** *** Empty bodies *)

(** C4: an environment whose assembled body is the empty string is built
    as its head lines directly followed by its tail lines, the last head
    line and the first tail line one newline apart; a non-empty body
    stands between the head lines and the tail lines. An environment
    without children has the empty body. *)
Theorem build_empty_body_no_blank_line
        (o o' : TexObject) (f : EnvFields) (h t : list string) (body : string) :
  env o = Some f ->
  head_tail (name o) f None None = Ok (h, t) ->
  TexObject_build obj_build o = Ok (body, o') ->
  (TexBase.body o = [] -> body = "") /\
  (body = "" ->
   obj_build o = Ok (join nl (h ++ t), o') /\
   (h <> [] -> t <> [] -> join nl (h ++ t) = join nl h +:+ nl +:+ join nl t)) /\
  (body <> "" ->
   obj_build o = Ok (join nl (h ++ [body] ++ t), o') /\
   (h <> [] -> t <> [] ->
    join nl (h ++ [body] ++ t) = join nl h +:+ nl +:+ body +:+ nl +:+ join nl t)).
Proof.
  intros He Hht Hb. pose proof (obj_build_lines _ He Hht Hb) as Hl.
  split; [|split].
  - intros Hnil. rewrite (TexObject_build_no_children _ Hnil) in Hb. congruence.
  - intros ->. split; [exact Hl|]. intros Hh Ht. now apply join_app.
  - intros Hne. unfold body_lines in Hl.
    destruct body as [|c body]; [congruence|]. split; [exact Hl|].
    intros Hh Ht. rewrite join_app by (assumption || discriminate).
    change ([String c body] ++ t) with (String c body :: t).
    rewrite join_cons by assumption. reflexivity.
Qed.

Lemma build_empty_body_no_blank_line_witness :
  obj_build empty_env = Ok ("\begin{center}" +:+ nl +:+ "\end{center}", empty_env).
Proof.
  destruct (@build_empty_body_no_blank_line empty_env empty_env
              (mkEnvFields [begin_marker "center"] [end_marker "center"] [] [] [] "top" "")
              [begin_marker "center"] [end_marker "center"] ""
              eq_refl eq_refl eq_refl) as [_ [Hempty _]].
  destruct (Hempty eq_refl) as [Hbuild _]. exact Hbuild.
Defined.

(** *** Labels *)

(** C5: for an environment with the one-line head and tail of its
    constructor and a non-empty label, the label line follows the
    decorated opening marker when [label_pos] is ['top'] and precedes the
    closing marker when it is ['bottom']; without a label, head and tail
    are the decorated marker and the closing marker alone. *)
Theorem build_label_placement
        (o o' : TexObject) (f : EnvFields) (m t body : string) :
  env o = Some f ->
  head f = [m] ->
  tail f = [t] ->
  TexObject_build obj_build o = Ok (body, o') ->
  (label f <> "" -> label_pos f = "top" ->
   obj_build o =
     Ok (join nl ([decorated_marker f m; label_line (name o) f]
                    ++ body_lines body ++ [t]), o')) /\
  (label f <> "" -> label_pos f = "bottom" ->
   obj_build o =
     Ok (join nl ([decorated_marker f m]
                    ++ body_lines body ++ [label_line (name o) f; t]), o')) /\
  (label f = "" ->
   obj_build o =
     Ok (join nl ([decorated_marker f m] ++ body_lines body ++ [t]), o')).
Proof.
  intros He Hh Ht Hb.
  pose proof (obj_build_lines _ He (head_tail_lines (name o) f Hh) Hb) as Hl.
  rewrite Ht in Hl. unfold top_label, bottom_label in Hl.
  split; [|split].
  - intros Hlab Hpos. rewrite Hpos in Hl.
    destruct (label f) eqn:E; [congruence|]. exact Hl.
  - intros Hlab Hpos. rewrite Hpos in Hl.
    destruct (label f) eqn:E; [congruence|]. exact Hl.
  - intros Hlab. rewrite Hlab in Hl. exact Hl.
Qed.

Lemma build_label_placement_witness :
  obj_build labelled_table_env =
    Ok ("\begin{table}[a, b, k=v, n=3]{p1, p2}" +:+ nl +:+ "\label{table:lab}" +:+ nl
        +:+ "hello" +:+ nl +:+ "\end{table}", labelled_table_env) /\
  obj_build bottom_labelled_env =
    Ok ("\begin{figure}[h!]" +:+ nl +:+ "\centering" +:+ nl +:+ "\label{figure:plot}"
        +:+ nl +:+ "\end{figure}", bottom_labelled_env) /\
  obj_build empty_env = Ok ("\begin{center}" +:+ nl +:+ "\end{center}", empty_env).
Proof.
  split; [|split].
  - destruct (@build_label_placement labelled_table_env labelled_table_env
                (mkEnvFields [begin_marker "table"] [end_marker "table"] ["p1"; "p2"]
                             ["a"; "b"] [("k", VStr "v"); ("n", VInt 3)] "top" "lab")
                (begin_marker "table") (end_marker "table") "hello"
                eq_refl eq_refl eq_refl eq_refl) as [Htop _].
    refine (eq_trans (Htop _ eq_refl) eq_refl). simpl. discriminate.
  - destruct (@build_label_placement bottom_labelled_env bottom_labelled_env
                (mkEnvFields [begin_marker "figure"] [end_marker "figure"] []
                             ["h!"] [] "bottom" "plot")
                (begin_marker "figure") (end_marker "figure") "\centering"
                eq_refl eq_refl eq_refl eq_refl) as [_ [Hbottom _]].
    refine (eq_trans (Hbottom _ eq_refl) eq_refl). simpl. discriminate.
  - destruct (@build_label_placement empty_env empty_env
                (mkEnvFields [begin_marker "center"] [end_marker "center"] [] [] []
                             "top" "")
                (begin_marker "center") (end_marker "center") ""
                eq_refl eq_refl eq_refl eq_refl) as [_ [_ Hnone]].
    exact (Hnone eq_refl).
Defined.

(** *** Package merging *)

(** [TexObject.add_package] always returns and stores the entry: the keyword
    options, then the positional options as keys of the empty string. *)
Lemma add_package_stores (o : TexObject) (package : string) (options : list string)
      (kwoptions : dict pyval) :
  dict_get package (packages (add_package o package options kwoptions)) =
    Some (dict_update kwoptions (options_dict options)).
Proof. unfold add_package. simpl. apply dict_get_set_same. Qed.

Ltac bind_inv H :=
  match type of H with
  | bind ?r _ = Ok _ =>
      let E := fresh "E" in
      destruct r eqn:E; simpl in H; [|discriminate H]
  end.

Tactic Notation "bind_inv_eq" hyp(H) "as" ident(E) :=
  match type of H with
  | bind ?r _ = Ok _ => destruct r eqn:E; simpl in H; [|discriminate H]
  end.

Lemma join_pieces_inv (sep s : string) (tex : list piece) :
  join_pieces sep tex = Ok s -> exists ss, pieces_strings tex = Ok ss /\ s = join sep ss.
Proof.
  unfold join_pieces. intros H. bind_inv_eq H as E. injection H as <-. now exists a.
Qed.

Lemma build_body_app rec (l1 l2 : list (item TexObject)) (pk : dict (dict pyval)) :
  build_body rec (l1 ++ l2) pk =
    ('(ps1, l1', pk1) <- build_body rec l1 pk ;;
     '(ps2, l2', pk2) <- build_body rec l2 pk1 ;;
     Ok (ps1 ++ ps2, l1' ++ l2', pk2)).
Proof.
  revert pk. induction l1 as [|x l1 IH]; intros pk; simpl.
  - destruct (build_body rec l2 pk) as [[[ps l'] pk']|e]; reflexivity.
  - destruct (build rec x) as [[p it']|e]; simpl; [|reflexivity].
    rewrite IH.
    destruct (build_body rec l1 _) as [[[ps1 l1'] pk1]|e]; simpl; [|reflexivity].
    destruct (build_body rec l2 pk1) as [[[ps2 l2'] pk2]|e]; reflexivity.
Qed.

(** The loop keeps the registry a dictionary. *)
Lemma build_body_wf rec (b b' : list (item TexObject)) (ps : list piece)
      (pk pk' : dict (dict pyval)) :
  dict_wf pk -> build_body rec b pk = Ok (ps, b', pk') -> dict_wf pk'.
Proof.
  revert b' ps pk pk'. induction b as [|x b IH]; intros b' ps pk pk' Hwf H; simpl in H.
  - now injection H as _ _ <-.
  - bind_inv H. destruct a as [p it'].
    bind_inv H. destruct a as [[ps0 rest'] pk0]. injection H as _ _ <-.
    eapply IH; [|eassumption].
    destruct it'; [assumption|]. now apply dict_wf_update.
Qed.

(** What a successful build did: the loop, then the join. *)
Lemma obj_build_inv (o o' : TexObject) (text : string) :
  obj_build o = Ok (text, o') ->
  exists tex b' pk' ss,
    build_body obj_build (body o) (packages o) = Ok (tex, b', pk') /\
    pieces_strings tex = Ok ss /\
    o' = mkTexObject (name o) b' pk' (env o).
Proof.
  intros H.
  assert (Hobj : exists body, TexObject_build obj_build o = Ok (body, o')).
  { destruct o as [n b pk [f|]]; simpl in H.
    - unfold TexEnvironment_build in H.
      bind_inv_eq H as Eht. destruct a as [h t].
      bind_inv_eq H as Eb. destruct a as [bd o1]. injection H as _ <-. now exists bd.
    - now exists text. }
  destruct Hobj as [bd Hobj]. destruct o as [n b pk e]. simpl in Hobj.
  bind_inv_eq Hobj as Eb. destruct a as [[tex b'] pk'].
  bind_inv_eq Hobj as Ej. injection Hobj as _ <-.
  destruct (join_pieces_inv _ _ Ej) as (ss & Hss & _).
  now exists tex, b', pk', ss.
Qed.

Lemma pieces_strings_app_inv (ps1 ps2 : list piece) (ss : list string) :
  pieces_strings (ps1 ++ ps2) = Ok ss ->
  exists ss1 ss2, pieces_strings ps1 = Ok ss1 /\ pieces_strings ps2 = Ok ss2.
Proof.
  revert ss. induction ps1 as [|[s|] ps1 IH]; intros ss H; simpl in H.
  - now exists [], ss.
  - bind_inv H. destruct (IH _ eq_refl) as (ss1 & ss2 & H1 & H2).
    exists (s :: ss1), ss2. simpl. now rewrite H1.
  - discriminate.
Qed.

(** A built object keeps its registry a dictionary. *)
Lemma obj_build_wf (o o' : TexObject) (text : string) :
  dict_wf (packages o) -> obj_build o = Ok (text, o') -> dict_wf (packages o').
Proof.
  intros Hwf H. destruct (obj_build_inv _ H) as (tex & b' & pk' & ss & Hb & _ & ->).
  simpl. exact (@build_body_wf _ _ _ _ _ _ Hwf Hb).
Qed.

(** Children that do not hold [P] leave the entry of [P] as it is. *)
Lemma build_body_get_unchanged (P : string) (post post' : list (item TexObject))
      (ps : list piece) (ss : list string) (pk pk' : dict (dict pyval)) :
  build_body obj_build post pk = Ok (ps, post', pk') ->
  pieces_strings ps = Ok ss ->
  (forall c opts, In (IObj c) post -> ~ declares c P opts) ->
  dict_get P pk' = dict_get P pk.
Proof.
  revert post' ps ss pk pk'.
  induction post as [|x post IH]; intros post' ps ss pk pk' H Hss Hno; simpl in H.
  - now injection H as _ _ <-.
  - bind_inv H. destruct a as [p it'].
    bind_inv H. destruct a as [[ps0 rest'] pk0]. injection H as <- _ <-.
    simpl in Hss. destruct p as [s|]; [|discriminate]. bind_inv Hss.
    rewrite (IH _ _ _ _ _ E0 E1) by (intros c opts Hin; apply Hno; now right).
    destruct x as [s0|c]; simpl in E.
    + now injection E as _ <-.
    + destruct (is_TexEnvironment c); [|discriminate].
      bind_inv E. destruct a0 as [t c']. injection E as _ <-.
      apply dict_get_update_None.
      destruct (dict_get P (packages c')) as [opts|] eqn:Eg; [|reflexivity].
      exfalso. apply (Hno c opts); [now left|]. now exists t, c'.
Qed.

(** C2: when two subtrees among the children of a node declare the same
    package with different option sets and no later child declares it,
    the node's registry after [build] holds that package once, with the
    option set of the second, last merged subtree, and not the first's. *)
Theorem build_packages_last_writer_wins
        (o o' c1 c2 : TexObject) (pre mid post : list (item TexObject))
        (P text : string) (opts1 opts2 : dict pyval) :
  body o = pre ++ IObj c1 :: mid ++ IObj c2 :: post ->
  dict_wf (packages o) ->
  dict_wf (packages c2) ->
  declares c1 P opts1 ->
  declares c2 P opts2 ->
  opts1 <> opts2 ->
  (forall c opts, In (IObj c) post -> ~ declares c P opts) ->
  obj_build o = Ok (text, o') ->
  dict_get P (packages o') = Some opts2 /\
  dict_get P (packages o') <> Some opts1 /\
  dict_count P (packages o') = 1.
Proof.
  intros Hbody Hwf Hwf2 _ (t2 & c2' & Hc2 & Hget2) Hne Hpost H.
  destruct (obj_build_inv _ H) as (tex & b' & pk' & ss & Hb & Hss & ->).
  simpl packages.
  assert (Hwf' : dict_wf pk') by exact (@build_body_wf _ _ _ _ _ _ Hwf Hb).
  rewrite Hbody in Hb.
  replace (pre ++ IObj c1 :: mid ++ IObj c2 :: post)
    with ((pre ++ IObj c1 :: mid) ++ IObj c2 :: post) in Hb
    by (rewrite <- app_assoc; reflexivity).
  rewrite build_body_app in Hb.
  bind_inv_eq Hb as Epre. destruct a as [[ps1 l1'] pk1].
  bind_inv_eq Hb as Erest. destruct a as [[ps2 l2'] pk2]. injection Hb as <- _ <-.
  destruct (pieces_strings_app_inv _ _ Hss) as (ss1 & ss2 & _ & Hss2).
  simpl in Erest. destruct (is_TexEnvironment c2).
  - rewrite Hc2 in Erest. simpl in Erest.
    bind_inv_eq Erest as Epost. destruct a as [[ps3 post'] pk3].
    injection Erest as <- _ <-.
    simpl in Hss2. bind_inv_eq Hss2 as Ess3.
    assert (Hget : dict_get P pk3 = Some opts2).
    { rewrite (@build_body_get_unchanged P post post' ps3 a _ pk3 Epost Ess3 Hpost).
      apply dict_get_update_Some; [|assumption].
      exact (obj_build_wf _ Hwf2 Hc2). }
    split; [assumption|]. split; [congruence|].
    eapply dict_count_one; eassumption.
  - simpl in Erest. bind_inv_eq Erest as Epost. destruct a as [[ps3 post'] pk3].
    injection Erest as <- _ _. simpl in Hss2. discriminate.
Qed.

Lemma build_packages_last_writer_wins_witness :
  exists text o',
    obj_build two_declarations = Ok (text, o') /\
    dict_get "P" (packages o') = Some [("mode", VStr "final")] /\
    dict_count "P" (packages o') = 1.
Proof.
  pose (first := add_package (env_object "figure" [] [] "" "top" [])
                             "P" ["draft"] []).
  pose (second := add_package (env_object "table" [] [] "" "top" [])
                              "P" [] [("mode", VStr "final")]).
  destruct (obj_build two_declarations) as [[text o']|e] eqn:E;
    [|vm_compute in E; discriminate E].
  exists text, o'. split; [reflexivity|].
  destruct (@build_packages_last_writer_wins two_declarations o' first second
              [] [IText "text"] [] "P" text [("draft", VStr "")] [("mode", VStr "final")])
    as (Hget & _ & Hcount).
  - reflexivity.
  - constructor.
  - repeat constructor. simpl. tauto.
  - eexists _, _. split; reflexivity.
  - eexists _, _. split; reflexivity.
  - discriminate.
  - intros c opts [].
  - exact E.
  - now split.
Defined.

(** *** Building twice *)

Lemma strip_env (o : TexObject) : env (strip o) = env o.
Proof. now destruct o. Qed.

(** [build] changes nothing but the package registries. *)
Lemma build_body_strip rec (b b' : list (item TexObject)) (tex : list piece)
      (pk pk' : dict (dict pyval)) :
  Forall (P_item (fun c => forall t c', rec c = Ok (t, c') -> strip c' = strip c)) b ->
  build_body rec b pk = Ok (tex, b', pk') ->
  map (strip_item strip) b' = map (strip_item strip) b.
Proof.
  intros HP. revert b' tex pk pk'.
  induction HP as [|x b Hx _ IH]; intros b' tex pk pk' H; simpl in H.
  - now injection H as _ <- _.
  - bind_inv_eq H as Ex. destruct a as [p it'].
    bind_inv_eq H as Eb. destruct a as [[ps rest'] pk0]. injection H as _ <- _.
    simpl. rewrite (IH _ _ _ _ Eb). f_equal.
    destruct x as [s|c]; simpl in Ex.
    + now injection Ex as _ <-.
    + destruct (is_TexEnvironment c).
      * bind_inv_eq Ex as Ec. destruct a as [t c']. injection Ex as _ <-.
        simpl. f_equal. exact (Hx _ _ Ec).
      * now injection Ex as _ <-.
Qed.

Lemma obj_build_strip (o o' : TexObject) (text : string) :
  obj_build o = Ok (text, o') -> strip o' = strip o.
Proof.
  revert o' text. induction o as [n b pk e HP] using TexObject_tree_ind.
  intros o' text H.
  destruct (obj_build_inv _ H) as (tex & b' & pk' & ss & Hb & _ & ->).
  simpl in Hb |- *. f_equal. eapply build_body_strip; [|exact Hb].
  eapply Forall_impl; [|exact HP]. intros [s|c]; simpl; eauto.
Qed.

Lemma build_body_pieces (b1 : list (item TexObject)) :
  Forall (P_item (fun c1 => forall c2, strip c1 = strip c2 ->
                              text_of (obj_build c1) = text_of (obj_build c2))) b1 ->
  forall b2 pk1 pk2,
    map (strip_item strip) b1 = map (strip_item strip) b2 ->
    pieces_of (build_body obj_build b1 pk1) = pieces_of (build_body obj_build b2 pk2).
Proof.
  induction 1 as [|x1 b1 Hx _ IH]; intros [|x2 b2] pk1 pk2 Hmap;
    try discriminate Hmap; [reflexivity|].
  simpl in Hmap. injection Hmap as Hx12 Hmap. simpl.
  destruct x1 as [s1|c1], x2 as [s2|c2]; try discriminate Hx12; simpl.
  - injection Hx12 as <-.
    specialize (IH b2 pk1 pk2 Hmap). unfold pieces_of in IH.
    destruct (build_body obj_build b1 pk1) as [[[ps1 r1] q1]|e1],
             (build_body obj_build b2 pk2) as [[[ps2 r2] q2]|e2];
      simpl in IH |- *; congruence.
  - injection Hx12 as Hc. simpl in Hx. specialize (Hx c2 Hc).
    assert (He : is_TexEnvironment c1 = is_TexEnvironment c2).
    { unfold is_TexEnvironment. now rewrite <- (strip_env c1), Hc, strip_env. }
    rewrite <- He. destruct (is_TexEnvironment c1); simpl.
    + unfold text_of in Hx.
      destruct (obj_build c1) as [[t1 c1']|e1], (obj_build c2) as [[t2 c2']|e2];
        simpl in Hx |- *; try congruence.
      injection Hx as <-.
      specialize (IH b2 (dict_update pk1 (packages c1'))
                     (dict_update pk2 (packages c2')) Hmap).
      unfold pieces_of in IH.
      destruct (build_body obj_build b1 _) as [[[ps1 r1] q1]|e1],
               (build_body obj_build b2 _) as [[[ps2 r2] q2]|e2];
        simpl in IH |- *; congruence.
    + specialize (IH b2 (dict_update pk1 (packages c1))
                     (dict_update pk2 (packages c2)) Hmap).
      unfold pieces_of in IH.
      destruct (build_body obj_build b1 _) as [[[ps1 r1] q1]|e1],
               (build_body obj_build b2 _) as [[[ps2 r2] q2]|e2];
        simpl in IH |- *; congruence.
Qed.

Lemma TexObject_build_text (n : string) (b1 b2 : list (item TexObject))
      (pk1 pk2 : dict (dict pyval)) (e : option EnvFields) :
  pieces_of (build_body obj_build b1 pk1) = pieces_of (build_body obj_build b2 pk2) ->
  text_of (TexObject_build obj_build (mkTexObject n b1 pk1 e)) =
  text_of (TexObject_build obj_build (mkTexObject n b2 pk2 e)).
Proof.
  unfold pieces_of, text_of, TexObject_build. intros H.
  destruct (build_body obj_build b1 pk1) as [[[ps1 r1] q1]|e1],
           (build_body obj_build b2 pk2) as [[[ps2 r2] q2]|e2];
    simpl in H |- *; try congruence.
  injection H as <-. destruct (join_pieces nl ps1); reflexivity.
Qed.

(** Objects that differ only in their package registries build to the same
    text (or raise the same exception). *)
Lemma same_data_same_text (o1 o2 : TexObject) :
  strip o1 = strip o2 -> text_of (obj_build o1) = text_of (obj_build o2).
Proof.
  revert o2. induction o1 as [n b1 pk1 e HP] using TexObject_tree_ind.
  intros [n2 b2 pk2 e2] Hs. simpl in Hs. injection Hs as <- Hmap <-.
  pose proof (@TexObject_build_text n b1 b2 pk1 pk2 e
                (@build_body_pieces b1 HP b2 pk1 pk2 Hmap)) as Ht.
  destruct e as [f|]; simpl obj_build; [|exact Ht].
  unfold TexEnvironment_build. simpl name.
  set (r1 := TexObject_build obj_build (mkTexObject n b1 pk1 (Some f))) in *.
  set (r2 := TexObject_build obj_build (mkTexObject n b2 pk2 (Some f))) in *.
  destruct (head_tail n f None None) as [[h t]|ex]; [|reflexivity].
  unfold text_of in Ht |- *.
  destruct r1 as [[bd1 o1']|e1], r2 as [[bd2 o2']|e2];
    simpl in Ht |- *; try discriminate Ht; [|exact Ht].
  injection Ht as <-. reflexivity.
Qed.

(** C9: on an environment left as the first [build] left it, a second
    [build] returns the same text. *)
Theorem build_twice_same_text (o o' : TexObject) (text : string) :
  obj_build o = Ok (text, o') ->
  exists o'', obj_build o' = Ok (text, o'').
Proof.
  intros H.
  pose proof (same_data_same_text o' o (obj_build_strip _ H)) as Ht.
  rewrite H in Ht. unfold text_of in Ht.
  destruct (obj_build o') as [[t o'']|e]; simpl in Ht; [|discriminate].
  injection Ht as ->. now exists o''.
Qed.

Lemma build_twice_same_text_witness :
  exists text o' o'',
    obj_build two_declarations = Ok (text, o') /\
    o' <> two_declarations /\
    obj_build o' = Ok (text, o'').
Proof.
  destruct (obj_build two_declarations) as [[text o']|e] eqn:E;
    [|vm_compute in E; discriminate E].
  destruct (build_twice_same_text _ E) as [o'' H2].
  exists text, o', o''. split; [reflexivity|]. split; [|exact H2].
  vm_compute in E. injection E as _ <-. discriminate.
Defined.

(** *** Totality *)

Lemma build_body_ok (b : list (item TexObject)) :
  Forall (P_item (fun c => buildable c = true ->
                           exists t c', obj_build c = Ok (t, c'))) b ->
  forallb (buildable_item buildable) b = true ->
  forall pk, exists ss b' pk',
    build_body obj_build b pk = Ok (map PStr ss, b', pk').
Proof.
  induction 1 as [|x b Hx _ IH]; intros Hb pk; simpl in Hb |- *.
  - now exists [], [], pk.
  - apply andb_prop in Hb as [Hbx Hb].
    destruct x as [s|c]; simpl in Hbx |- *.
    + destruct (IH Hb pk) as (ss & b' & pk' & ->). simpl.
      now exists (s :: ss), (IText s :: b'), pk'.
    + apply andb_prop in Hbx as [He Hc]. rewrite He.
      destruct (Hx Hc) as (t & c' & ->). simpl.
      destruct (IH Hb (dict_update pk (packages c'))) as (ss & b' & pk' & ->). simpl.
      now exists (t :: ss), (IObj c' :: b'), pk'.
Qed.

Lemma pieces_strings_PStr (ss : list string) : pieces_strings (map PStr ss) = Ok ss.
Proof. induction ss as [|s ss IH]; simpl; [reflexivity|]. now rewrite IH. Qed.

(** [build] returns on every tree whose nested objects are environments
    with a non-empty head. *)
Lemma obj_build_total (o : TexObject) :
  buildable o = true -> exists text o', obj_build o = Ok (text, o').
Proof.
  induction o as [n b pk e HP] using TexObject_tree_ind.
  intros Hb. simpl in Hb. apply andb_prop in Hb as [Hh Hb].
  destruct (@build_body_ok b HP Hb pk) as (ss & b' & pk' & Hbody).
  assert (Hobj : TexObject_build obj_build (mkTexObject n b pk e) =
                 Ok (join nl ss, mkTexObject n b' pk' e)).
  { simpl. rewrite Hbody. simpl. unfold join_pieces.
    now rewrite pieces_strings_PStr. }
  destruct e as [f|]; [|rewrite obj_build_obj by reflexivity; eauto].
  destruct (head f) as [|m rest] eqn:Ehead; [discriminate|].
  rewrite (@obj_build_lines (mkTexObject n b pk (Some f)) _ f _ _ _ eq_refl
                            (head_tail_lines n f Ehead) Hobj).
  eauto.
Qed.

(** ** Further properties of [tex_base.py] *)

(** *** Children in order *)

Lemma build_body_lengths rec (b b' : list (item TexObject)) (ps : list piece)
      (pk pk' : dict (dict pyval)) :
  build_body rec b pk = Ok (ps, b', pk') ->
  List.length ps = List.length b /\ List.length b' = List.length b.
Proof.
  revert b' ps pk pk'. induction b as [|x b IH]; intros b' ps pk pk' H; simpl in H.
  - injection H as <- <- _. now split.
  - bind_inv_eq H as Ex. destruct a as [p it'].
    bind_inv_eq H as Eb. destruct a as [[ps0 rest'] pk0]. injection H as <- <- _.
    destruct (IH _ _ _ _ Eb) as [H1 H2]. simpl. now rewrite H1, H2.
Qed.

Lemma pieces_strings_length (ps : list piece) (ss : list string) :
  pieces_strings ps = Ok ss -> List.length ss = List.length ps.
Proof.
  revert ss. induction ps as [|[s|] ps IH]; intros ss H; simpl in H.
  - now injection H as <-.
  - bind_inv_eq H as E. injection H as <-. simpl. now rewrite (IH _ eq_refl).
  - discriminate.
Qed.

Lemma pieces_strings_app (ps1 ps2 : list piece) (ss1 ss2 : list string) :
  pieces_strings ps1 = Ok ss1 -> pieces_strings ps2 = Ok ss2 ->
  pieces_strings (ps1 ++ ps2) = Ok (ss1 ++ ss2).
Proof.
  revert ss1. induction ps1 as [|[s|] ps1 IH]; intros ss1 H1 H2; simpl in H1 |- *.
  - now injection H1 as <-.
  - bind_inv_eq H1 as E. injection H1 as <-. now rewrite (IH _ eq_refl H2).
  - discriminate.
Qed.

Lemma build_body_contributes (b b' : list (item TexObject)) (ps : list piece)
      (ss : list string) (pk pk' : dict (dict pyval)) :
  build_body obj_build b pk = Ok (ps, b', pk') ->
  pieces_strings ps = Ok ss ->
  Forall2 contributes b ss.
Proof.
  revert b' ps ss pk pk'.
  induction b as [|x b IH]; intros b' ps ss pk pk' H Hss; simpl in H.
  - injection H as <- _ _. simpl in Hss. injection Hss as <-. constructor.
  - bind_inv_eq H as Ex. destruct a as [p it'].
    bind_inv_eq H as Eb. destruct a as [[ps0 rest'] pk0]. injection H as <- _ _.
    simpl in Hss. destruct p as [s|]; [|discriminate].
    bind_inv_eq Hss as Es. injection Hss as <-.
    constructor; [|exact (IH _ _ _ _ _ Eb Es)].
    destruct x as [s0|c]; simpl in Ex.
    + injection Ex as <- _. constructor.
    + destruct (is_TexEnvironment c) eqn:Ec; [|discriminate].
      bind_inv_eq Ex as Eo. destruct a0 as [t c']. injection Ex as <- _.
      econstructor; eassumption.
Qed.

(** What a successful [build] returned, in terms of the inherited
    [TexObject.build]. *)
Lemma obj_build_body_inv (o o' : TexObject) (text : string) :
  obj_build o = Ok (text, o') ->
  exists body,
    TexObject_build obj_build o = Ok (body, o') /\
    (env o = None -> text = body) /\
    (forall f h t, env o = Some f -> head_tail (name o) f None None = Ok (h, t) ->
                   text = join nl (h ++ body_lines body ++ t)).
Proof.
  intros H. destruct o as [n b pk [f|]].
  - simpl in H. unfold TexEnvironment_build in H.
    bind_inv_eq H as Eht. destruct a as [h t].
    bind_inv_eq H as Eb. destruct a as [bd o1]. injection H as <- <-.
    exists bd. split; [exact Eb|]. split; [discriminate|].
    intros f0 h0 t0 Hf Hht. injection Hf as <-. cbn [name] in Eht, Hht.
    rewrite Eht in Hht. injection Hht as <- <-.
    unfold body_lines. destruct (str_truthy bd); reflexivity.
  - exists text. split; [exact H|]. split; [reflexivity|discriminate].
Qed.

Lemma TexObject_build_inv (o o' : TexObject) (body : string) :
  TexObject_build obj_build o = Ok (body, o') ->
  exists ps b' pk' ss,
    build_body obj_build (TexBase.body o) (packages o) = Ok (ps, b', pk') /\
    pieces_strings ps = Ok ss /\
    body = join nl ss /\
    o' = mkTexObject (name o) b' pk' (env o).
Proof.
  intros H. destruct o as [n b pk e]. simpl in H.
  bind_inv_eq H as Eb. destruct a as [[ps b'] pk'].
  bind_inv_eq H as Ej. injection H as <- <-.
  destruct (join_pieces_inv _ _ Ej) as (ss & Hss & ->).
  now exists ps, b', pk', ss.
Qed.

(** X1: the text [build] returns holds the contributions of the elements of
    the body in body order, joined by newlines: a string contributes itself,
    an environment the text of its own [build]. *)
Theorem body_text_in_order (o o' : TexObject) (text : string) :
  obj_build o = Ok (text, o') ->
  exists ss,
    Forall2 contributes (body o) ss /\
    (env o = None -> text = join nl ss) /\
    (forall f h t, env o = Some f -> head_tail (name o) f None None = Ok (h, t) ->
                   text = join nl (h ++ body_lines (join nl ss) ++ t)).
Proof.
  intros H. destruct (obj_build_body_inv _ H) as (bd & Hb & Hnone & Hsome).
  destruct (TexObject_build_inv _ Hb) as (ps & b' & pk' & ss & Hbody & Hss & -> & _).
  exists ss. split; [exact (build_body_contributes _ _ Hbody Hss)|]. now split.
Qed.

Lemma body_text_in_order_witness :
  exists text o' ss,
    obj_build two_declarations = Ok (text, o') /\
    Forall2 contributes (body two_declarations) ss /\
    ss = ["\begin{figure}" +:+ nl +:+ "\end{figure}"; "text";
          "\begin{table}" +:+ nl +:+ "\end{table}"].
Proof.
  destruct (obj_build two_declarations) as [[text o']|e] eqn:E;
    [|vm_compute in E; discriminate E].
  destruct (body_text_in_order _ E) as (ss & Hc & _ & _).
  exists text, o', ss. split; [reflexivity|]. split; [exact Hc|].
  inversion Hc as [|x1 s1 l1 r1 H1 Hc1]; subst.
  inversion Hc1 as [|x2 s2 l2 r2 H2 Hc2]; subst.
  inversion Hc2 as [|x3 s3 l3 r3 H3 Hc3]; subst.
  inversion Hc3; subst.
  inversion H1 as [|c1 c1' t1 _ Hb1]; subst.
  inversion H2; subst.
  inversion H3 as [|c3 c3' t3 _ Hb3]; subst.
  vm_compute in Hb1. vm_compute in Hb3.
  injection Hb1 as <- _. injection Hb3 as <- _. reflexivity.
Defined.

Lemma join_snoc (sep x : string) (l : list string) :
  l <> [] -> join sep (l ++ [x]) = join sep l +:+ sep +:+ x.
Proof. intros Hl. now rewrite join_app by (assumption || discriminate). Qed.

Lemma build_body_snoc (b b' : list (item TexObject)) (ps : list piece)
      (pk pk' : dict (dict pyval)) (x : item TexObject) :
  build_body obj_build b pk = Ok (ps, b', pk') ->
  build_body obj_build (b ++ [x]) pk =
    ('(ps2, l2, pk2) <- build_body obj_build [x] pk' ;;
     Ok (ps ++ ps2, b' ++ l2, pk2)).
Proof. intros H. rewrite build_body_app, H. reflexivity. Qed.

(** X2: [add_text] then [build]: the new text is the last contribution of
    the body, one newline after what the body gave before (or alone, when
    the body was empty), and nothing else changes. *)
Theorem add_text_builds_last (o o' : TexObject) (body s : string) :
  TexObject_build obj_build o = Ok (body, o') ->
  TexObject_build obj_build (add_text o s) =
    Ok (if seq_truthy (TexBase.body o) then body +:+ nl +:+ s else s, add_text o' s).
Proof.
  intros H.
  destruct (TexObject_build_inv _ H) as (ps & b' & pk' & ss & Hb & Hss & -> & ->).
  destruct o as [n b pk e]. simpl in Hb |- *.
  erewrite build_body_snoc by exact Hb. simpl. unfold join_pieces.
  erewrite pieces_strings_app by (exact Hss || reflexivity).
  simpl.
  destruct (build_body_lengths _ _ _ Hb) as [Hl _].
  pose proof (pieces_strings_length _ Hss) as Hl2.
  destruct b as [|x b]; simpl seq_truthy; cbv iota.
  - destruct ss; [reflexivity|]. simpl in *. congruence.
  - rewrite join_snoc; [reflexivity|].
    destruct ss; [|discriminate]. simpl in *. congruence.
Qed.

Lemma add_text_builds_last_witness :
  TexObject_build obj_build (add_text labelled_table_env "world") =
    Ok ("hello" +:+ nl +:+ "world", add_text labelled_table_env "world").
Proof.
  exact (@add_text_builds_last labelled_table_env labelled_table_env "hello" "world"
           eq_refl).
Defined.

(** X3: [new] then [build]: the text of the new environment is the last
    contribution of the body, and its registry is merged after those of all
    earlier children. *)
Theorem new_builds_last (o o' c c' : TexObject) (body t : string) :
  TexObject_build obj_build o = Ok (body, o') ->
  is_TexEnvironment c = true ->
  obj_build c = Ok (t, c') ->
  TexObject_build obj_build (new o c) =
    Ok (if seq_truthy (TexBase.body o) then body +:+ nl +:+ t else t,
        mkTexObject (name o') (TexBase.body o' ++ [IObj c'])
                    (dict_update (packages o') (packages c')) (env o')).
Proof.
  intros H Hc Hbc.
  destruct (TexObject_build_inv _ H) as (ps & b' & pk' & ss & Hb & Hss & -> & ->).
  destruct o as [n b pk e]. simpl in Hb |- *.
  erewrite build_body_snoc by exact Hb. simpl. rewrite Hc, Hbc. simpl.
  unfold join_pieces.
  erewrite pieces_strings_app by (exact Hss || reflexivity).
  simpl.
  destruct (build_body_lengths _ _ _ Hb) as [Hl _].
  pose proof (pieces_strings_length _ Hss) as Hl2.
  destruct b as [|x b]; simpl seq_truthy; cbv iota.
  - destruct ss; [reflexivity|]. simpl in *. congruence.
  - rewrite join_snoc; [reflexivity|].
    destruct ss; [|discriminate]. simpl in *. congruence.
Qed.

Lemma new_builds_last_witness :
  exists o',
    TexObject_build obj_build (new labelled_table_env empty_env) =
      Ok ("hello" +:+ nl +:+ "\begin{center}" +:+ nl +:+ "\end{center}", o').
Proof.
  eexists.
  exact (@new_builds_last labelled_table_env labelled_table_env empty_env empty_env
           "hello" _ eq_refl eq_refl eq_refl).
Defined.

(** *** Heads *)

(** X4: an environment whose head is the empty list raises [IndexError] as
    soon as it has options, keyword options or parameters, before any child
    is built; with none of them, no label and an empty tail it builds to its
    bare body text. *)
Theorem empty_head_build (o : TexObject) (f : EnvFields) :
  env o = Some f ->
  head f = [] ->
  (seq_truthy (options f) || seq_truthy (kwoptions f) || seq_truthy (parameters f) = true ->
   obj_build o = Raise IndexError) /\
  (options f = [] -> kwoptions f = [] -> parameters f = [] -> label f = "" ->
   tail f = [] ->
   obj_build o = TexObject_build obj_build o).
Proof.
  intros He Hh. rewrite (obj_build_env _ He). unfold TexEnvironment_build, head_tail.
  rewrite Hh. simpl arg_or. split.
  - intros Hd.
    destruct (seq_truthy (options f) || seq_truthy (kwoptions f)) eqn:E1.
    + reflexivity.
    + simpl in Hd. rewrite Hd. reflexivity.
  - intros -> -> -> -> ->. simpl.
    destruct (TexObject_build obj_build o) as [[body o']|e]; [|reflexivity].
    simpl. destruct body; reflexivity.
Qed.

Lemma empty_head_build_witness :
  obj_build (headless_env ["h!"]) = Raise IndexError /\
  obj_build (headless_env []) = Ok ("\centering", headless_env []).
Proof.
  split.
  - exact (proj1 (@empty_head_build (headless_env ["h!"]) _ eq_refl eq_refl) eq_refl).
  - exact (eq_trans
             (proj2 (@empty_head_build (headless_env []) _ eq_refl eq_refl)
                eq_refl eq_refl eq_refl eq_refl eq_refl)
             eq_refl).
Defined.

Lemma build_body_bare_object rec (b b' : list (item TexObject)) (ps : list piece)
      (pk pk' : dict (dict pyval)) (c : TexObject) :
  build_body rec b pk = Ok (ps, b', pk') ->
  In (IObj c) b -> is_TexEnvironment c = false -> In PObj ps.
Proof.
  revert b' ps pk pk'. induction b as [|x b IH]; intros b' ps pk pk' H Hin Hc;
    [contradiction|]. simpl in H.
  bind_inv_eq H as Ex. destruct a as [p it'].
  bind_inv_eq H as Eb. destruct a as [[ps0 rest'] pk0]. injection H as <- _ _.
  destruct Hin as [->|Hin].
  - simpl in Ex. rewrite Hc in Ex. injection Ex as <- _. now left.
  - right. exact (IH _ _ _ _ Eb Hin Hc).
Qed.

Lemma pieces_strings_bare (ps : list piece) :
  In PObj ps -> pieces_strings ps = Raise TypeError.
Proof.
  induction ps as [|[s|] ps IH]; intros Hin; [contradiction| |reflexivity].
  destruct Hin as [Hin|Hin]; [discriminate|]. simpl. now rewrite IH.
Qed.

(** X5: with an object that is not an environment in its body, [build]
    never returns a text: where no child raises first, the final join
    raises [TypeError]. *)
Theorem bare_object_never_builds (o c : TexObject) :
  In (IObj c) (body o) ->
  is_TexEnvironment c = false ->
  (forall text o', obj_build o <> Ok (text, o')) /\
  (forall ps b' pk',
     build_body obj_build (body o) (packages o) = Ok (ps, b', pk') ->
     TexObject_build obj_build o = Raise TypeError).
Proof.
  intros Hin Hc.
  assert (Hraise : forall ps b' pk',
             build_body obj_build (body o) (packages o) = Ok (ps, b', pk') ->
             TexObject_build obj_build o = Raise TypeError).
  { intros ps b' pk' Hb. destruct o as [n b pk e]. simpl in Hb, Hin |- *.
    rewrite Hb. simpl. unfold join_pieces.
    rewrite pieces_strings_bare; [reflexivity|].
    eapply build_body_bare_object; eassumption. }
  split; [|exact Hraise].
  intros text o' H.
  destruct (obj_build_body_inv _ H) as (bd & Hb & _).
  destruct (TexObject_build_inv _ Hb) as (ps & b' & pk' & ss & Hbody & _).
  rewrite (Hraise _ _ _ Hbody) in Hb. discriminate.
Qed.

Lemma bare_object_never_builds_witness :
  obj_build (new empty_env (TexObject_init "o")) = Raise TypeError.
Proof.
  destruct (@bare_object_never_builds (new empty_env (TexObject_init "o"))
              (TexObject_init "o") (or_introl eq_refl) eq_refl) as [Hnever _].
  destruct (obj_build (new empty_env (TexObject_init "o"))) as [[text o']|e] eqn:E.
  - destruct (Hnever text o' eq_refl).
  - vm_compute in E. symmetry. exact E.
Defined.

(** X6: the text of an environment with the one-line head and tail of its
    constructor starts with its opening marker and ends, one newline after
    all the rest, with its closing marker. *)
Theorem built_text_between_markers (o o' : TexObject) (f : EnvFields) (body : string) :
  env o = Some f ->
  head f = [begin_marker (name o)] ->
  tail f = [end_marker (name o)] ->
  TexObject_build obj_build o = Ok (body, o') ->
  exists middle,
    obj_build o =
      Ok (begin_marker (name o) +:+ middle +:+ nl +:+ end_marker (name o), o').
Proof.
  intros He Hh Ht Hb. rewrite (obj_build_text _ He Hh Hb). unfold env_text.
  rewrite Ht. simpl app.
  set (lines := top_label (name o) f ++ body_lines body ++ bottom_label (name o) f).
  replace (top_label (name o) f ++ body_lines body ++ bottom_label (name o) f
             ++ [end_marker (name o)])
    with (lines ++ [end_marker (name o)])
    by (unfold lines; now rewrite <- !app_assoc).
  change (decorated_marker f (begin_marker (name o))
            :: [] ++ lines ++ [end_marker (name o)])
    with ((decorated_marker f (begin_marker (name o)) :: lines) ++ [end_marker (name o)]).
  rewrite join_snoc by discriminate.
  destruct lines as [|l lines].
  - exists (options_part f +:+ parameters_part f).
    unfold decorated_marker, join. cbn [String.concat]. now rewrite !append_assoc.
  - exists (options_part f +:+ parameters_part f +:+ nl +:+ join nl (l :: lines)).
    rewrite join_cons by discriminate.
    unfold decorated_marker. now rewrite !append_assoc.
Qed.

Lemma built_text_between_markers_witness :
  exists middle,
    obj_build labelled_table_env =
      Ok ("\begin{table}" +:+ middle +:+ nl +:+ "\end{table}", labelled_table_env).
Proof.
  exact (@built_text_between_markers labelled_table_env labelled_table_env _ "hello"
           eq_refl eq_refl eq_refl eq_refl).
Defined.

(** *** Registering packages *)

Lemma dict_set_set_same (V : Type) (k : string) (v1 v2 : V) (d : dict V) :
  dict_set k v2 (dict_set k v1 d) = dict_set k v2 d.
Proof.
  induction d as [|[k' v'] d IH]; simpl.
  - now rewrite String.eqb_refl.
  - destruct (String.eqb k k') eqn:E; simpl; rewrite E; [reflexivity|]. now rewrite IH.
Qed.

Lemma options_dict_positional (x : string) (options : list string) (acc : dict pyval) :
  In x options \/ dict_get x acc = Some (VStr "") ->
  dict_get x (fold_left (fun a o => dict_set o (VStr "") a) options acc) = Some (VStr "").
Proof.
  revert acc. induction options as [|o options IH]; intros acc H; simpl.
  - destruct H as [[]|H]. exact H.
  - apply IH. destruct (string_dec x o) as [->|Hne].
    + right. apply dict_get_set_same.
    + destruct H as [[Ho|Hin]|Hacc]; [congruence|now left|].
      right. now rewrite dict_get_set_other.
Qed.

Lemma options_dict_other (x : string) (options : list string) (acc : dict pyval) :
  ~ In x options ->
  dict_get x (fold_left (fun a o => dict_set o (VStr "") a) options acc) = dict_get x acc.
Proof.
  revert acc. induction options as [|o options IH]; intros acc H; simpl; [reflexivity|].
  rewrite IH by (intros Hin; apply H; now right).
  apply dict_get_set_other. intros ->. apply H. now left.
Qed.

Lemma options_dict_wf (options : list string) (acc : dict pyval) :
  dict_wf acc -> dict_wf (fold_left (fun a o => dict_set o (VStr "") a) options acc).
Proof.
  revert acc. induction options as [|o options IH]; intros acc H; simpl; [exact H|].
  apply IH. now apply dict_wf_set.
Qed.

(** X7: [add_package] overwrites: a second registration of a name replaces
    the first entry whole; in an entry every positional option is a key of
    the empty string, also when a keyword option of that name was given,
    and the other keyword options keep their values; the entries of other
    packages are untouched. *)
Theorem add_package_overwrites (o : TexObject) (package : string)
        (options1 options2 : list string) (kwoptions1 kwoptions2 : dict pyval) :
  add_package (add_package o package options1 kwoptions1) package options2 kwoptions2
  = add_package o package options2 kwoptions2 /\
  (forall entry,
     dict_get package (packages (add_package o package options2 kwoptions2)) = Some entry ->
     (forall x, In x options2 -> dict_get x entry = Some (VStr "")) /\
     (forall x, ~ In x options2 -> dict_get x entry = dict_get x kwoptions2)) /\
  (forall other, other <> package ->
     dict_get other (packages (add_package o package options2 kwoptions2))
     = dict_get other (packages o)).
Proof.
  split; [|split].
  - unfold add_package. simpl. now rewrite dict_set_set_same.
  - intros entry. rewrite add_package_stores. intros H. injection H as <-. split.
    + intros x Hin. apply dict_get_update_Some.
      * apply options_dict_wf. constructor.
      * apply options_dict_positional. now left.
    + intros x Hnin. apply dict_get_update_None. now apply options_dict_other.
  - intros other Hne. unfold add_package. simpl. now apply dict_get_set_other.
Qed.

Lemma add_package_overwrites_witness :
  exists entry,
    dict_get "P" (packages (add_package (add_package empty_env "P" ["draft"] [])
                                        "P" ["final"] [("final", VStr "yes"); ("k", VInt 1)]))
    = Some entry /\
    dict_get "final" entry = Some (VStr "") /\
    dict_get "k" entry = Some (VInt 1) /\
    dict_get "draft" entry = None.
Proof.
  destruct (add_package_overwrites empty_env "P" ["draft"] ["final"] []
              [("final", VStr "yes"); ("k", VInt 1)]) as (Hover & Hentry & _).
  rewrite Hover. eexists. split; [reflexivity|].
  destruct (Hentry _ eq_refl) as [Hpos Hkw].
  split; [apply Hpos; now left|]. split.
  - rewrite Hkw; [reflexivity|]. intros [H|[]]. discriminate.
  - rewrite Hkw; [reflexivity|]. intros [H|[]]. discriminate.
Defined.

Lemma strip_add_package (o : TexObject) (package : string) (options : list string)
      (kwoptions : dict pyval) :
  strip (add_package o package options kwoptions) = strip o.
Proof. now destruct o. Qed.

(** X8: the registries never reach the text: registering a package on a
    node, or on one of its children, leaves the text [build] returns (or the
    exception it raises) as it was. *)
Theorem add_package_keeps_text (o c : TexObject) (pre post : list (item TexObject))
        (package : string) (options : list string) (kwoptions : dict pyval) :
  text_of (obj_build (add_package o package options kwoptions)) = text_of (obj_build o) /\
  (body o = pre ++ IObj c :: post ->
   text_of (obj_build (mkTexObject (name o)
                         (pre ++ IObj (add_package c package options kwoptions) :: post)
                         (packages o) (env o)))
   = text_of (obj_build o)).
Proof.
  split.
  - apply same_data_same_text. apply strip_add_package.
  - intros Hb. apply same_data_same_text. destruct o as [n b pk e].
    simpl in Hb. subst b. cbn [name packages env strip]. f_equal.
    rewrite !map_app. cbn [map strip_item]. now rewrite strip_add_package.
Qed.

Lemma add_package_keeps_text_witness :
  text_of (obj_build
             (mkTexObject "section"
                [IObj (add_package (add_package empty_env "P" ["draft"] []) "Q" [] []);
                 IText "text"] [] None))
  = Ok ("\begin{center}" +:+ nl +:+ "\end{center}" +:+ nl +:+ "text").
Proof.
  destruct (@add_package_keeps_text
              (mkTexObject "section"
                 [IObj (add_package empty_env "P" ["draft"] []); IText "text"] [] None)
              (add_package empty_env "P" ["draft"] []) [] [IText "text"] "Q" [] [])
    as [_ Hchild].
  exact (eq_trans (Hchild eq_refl) eq_refl).
Defined.

(** *** What the registry holds after a build *)

Lemma dict_has_set (V : Type) (k k' : string) (v : V) (d : dict V) :
  dict_has k (dict_set k' v d) = String.eqb k k' || dict_has k d.
Proof.
  unfold dict_has. destruct (String.eqb k k') eqn:E.
  - apply String.eqb_eq in E. subst. now rewrite dict_get_set_same.
  - apply String.eqb_neq in E. now rewrite dict_get_set_other.
Qed.

Lemma dict_has_update (V : Type) (k : string) (d other : dict V) :
  dict_has k (dict_update d other) = dict_has k d || dict_has k other.
Proof.
  unfold dict_update. revert d.
  induction other as [|[k' v'] other IH]; intros d; simpl.
  - now rewrite orb_false_r.
  - rewrite IH, dict_has_set. unfold dict_has at 4. simpl.
    destruct (String.eqb k k'); simpl.
    + now rewrite orb_true_r.
    + reflexivity.
Qed.

Lemma dict_has_in (V : Type) (k : string) (d : dict V) :
  dict_has k d = true <-> In k (dict_keys d).
Proof.
  unfold dict_has. destruct (dict_get k d) eqn:E.
  - split; [intros _|reflexivity].
    destruct (in_dec string_dec k (dict_keys d)) as [H|H]; [exact H|].
    apply dict_get_None_notin in H. congruence.
  - split; [discriminate|]. intros H. apply dict_get_None_notin in E. contradiction.
Qed.

Lemma build_body_has (P : string) (b : list (item TexObject)) :
  Forall (P_item (fun c => forall t c', obj_build c = Ok (t, c') ->
                                        dict_has P (packages c') = tree_declares P c)) b ->
  forall b' ps ss pk pk',
    build_body obj_build b pk = Ok (ps, b', pk') ->
    pieces_strings ps = Ok ss ->
    dict_has P pk' = dict_has P pk || existsb (item_declares (tree_declares P)) b.
Proof.
  induction 1 as [|x b Hx _ IH]; intros b' ps ss pk pk' H Hss; simpl in H.
  - injection H as _ _ <-. simpl. now rewrite orb_false_r.
  - bind_inv_eq H as Ex. destruct a as [p it'].
    bind_inv_eq H as Eb. destruct a as [[ps0 rest'] pk0]. injection H as <- _ <-.
    simpl in Hss. destruct p as [s|]; [|discriminate].
    bind_inv_eq Hss as Es.
    rewrite (IH _ _ _ _ _ Eb Es). simpl existsb.
    destruct x as [s0|c]; simpl in Ex |- *.
    + now injection Ex as _ <-.
    + destruct (is_TexEnvironment c); [|discriminate].
      bind_inv_eq Ex as Ec. destruct a0 as [t c']. injection Ex as _ <-.
      rewrite dict_has_update, (Hx _ _ Ec). now rewrite orb_assoc.
Qed.

Lemma obj_build_has (P : string) (o o' : TexObject) (text : string) :
  obj_build o = Ok (text, o') -> dict_has P (packages o') = tree_declares P o.
Proof.
  revert text o'. induction o as [n b pk e HP] using TexObject_tree_ind.
  intros text o' H.
  destruct (obj_build_inv _ H) as (tex & b' & pk' & ss & Hb & Hss & ->).
  simpl in Hb |- *. eapply build_body_has; eassumption.
Qed.

(** X9: after [build] the registry of a node holds exactly the names some
    node of its tree held before: every package declared anywhere below is
    bubbled up, and no other name appears. *)
Theorem registry_holds_tree_names (o o' : TexObject) (text : string) :
  obj_build o = Ok (text, o') ->
  forall P, In P (dict_keys (packages o')) <-> tree_declares P o = true.
Proof.
  intros H P. rewrite <- dict_has_in. now rewrite (obj_build_has P _ H).
Qed.

Lemma registry_holds_tree_names_witness :
  exists text o',
    obj_build nested_declaration = Ok (text, o') /\
    packages nested_declaration = [] /\
    In "pgfplots" (dict_keys (packages o')) /\
    ~ In "tikz" (dict_keys (packages o')).
Proof.
  destruct (obj_build nested_declaration) as [[text o']|e] eqn:E;
    [|vm_compute in E; discriminate E].
  exists text, o'. split; [reflexivity|]. split; [reflexivity|].
  pose proof (registry_holds_tree_names _ E) as Hnames. split.
  - apply Hnames. reflexivity.
  - intros Hin. apply Hnames in Hin. discriminate Hin.
Defined.

Lemma dict_keys_set_prefix (V : Type) (k : string) (v : V) (d : dict V) :
  exists more, dict_keys (dict_set k v d) = dict_keys d ++ more.
Proof.
  destruct (in_dec string_dec k (dict_keys d)) as [H|H].
  - exists []. rewrite dict_keys_set_in by assumption. now rewrite app_nil_r.
  - exists [k]. now apply dict_keys_set_notin.
Qed.

Lemma dict_keys_update_prefix (V : Type) (d other : dict V) :
  exists more, dict_keys (dict_update d other) = dict_keys d ++ more.
Proof.
  unfold dict_update. revert d.
  induction other as [|[k v] other IH]; intros d; simpl.
  - exists []. now rewrite app_nil_r.
  - destruct (IH (dict_set k v d)) as [m2 H2].
    destruct (dict_keys_set_prefix k v d) as [m1 H1].
    exists (m1 ++ m2). rewrite H2, H1. now rewrite app_assoc.
Qed.

Lemma build_body_keys_prefix rec (b b' : list (item TexObject)) (ps : list piece)
      (pk pk' : dict (dict pyval)) :
  build_body rec b pk = Ok (ps, b', pk') ->
  exists more, dict_keys pk' = dict_keys pk ++ more.
Proof.
  revert b' ps pk pk'. induction b as [|x b IH]; intros b' ps pk pk' H; simpl in H.
  - injection H as _ _ <-. exists []. now rewrite app_nil_r.
  - bind_inv_eq H as Ex. destruct a as [p it'].
    bind_inv_eq H as Eb. destruct a as [[ps0 rest'] pk0]. injection H as _ _ <-.
    destruct (IH _ _ _ _ Eb) as [m2 H2]. rewrite H2.
    destruct it' as [s|c'].
    + now exists m2.
    + destruct (dict_keys_update_prefix pk (packages c')) as [m1 H1].
      exists (m1 ++ m2). rewrite H1. now rewrite app_assoc.
Qed.

(** X10: [build] keeps the entries a node already has in their places, new
    names coming after them in the order they are met, and it keeps the
    options of every name that no child tree declares. *)
Theorem registry_order_stable (o o' : TexObject) (text : string) :
  obj_build o = Ok (text, o') ->
  (exists more, dict_keys (packages o') = dict_keys (packages o) ++ more) /\
  (forall P, (forall c, In (IObj c) (body o) -> tree_declares P c = false) ->
             dict_get P (packages o') = dict_get P (packages o)).
Proof.
  intros H.
  destruct (obj_build_inv _ H) as (tex & b' & pk' & ss & Hb & Hss & ->).
  simpl packages at 1 3. split.
  - eapply build_body_keys_prefix. exact Hb.
  - intros P Hno. eapply build_body_get_unchanged; [exact Hb|exact Hss|].
    intros c opts Hin (t & c' & Hc & Hget).
    pose proof (obj_build_has P _ Hc) as Hhas.
    rewrite (Hno c Hin) in Hhas. unfold dict_has in Hhas. rewrite Hget in Hhas.
    discriminate.
Qed.

Lemma registry_order_stable_witness :
  exists text o',
    obj_build (add_package (add_package two_declarations "inputenc" ["utf8"] [])
                           "geometry" [] []) = Ok (text, o') /\
    dict_keys (packages o') = ["inputenc"; "geometry"; "P"] /\
    dict_get "inputenc" (packages o') = Some [("utf8", VStr "")].
Proof.
  set (o := add_package (add_package two_declarations "inputenc" ["utf8"] [])
                        "geometry" [] []).
  destruct (obj_build o) as [[text o']|e] eqn:E; [|vm_compute in E; discriminate E].
  exists text, o'. split; [reflexivity|].
  destruct (registry_order_stable _ E) as [_ Hkeep]. split.
  - vm_compute in E. injection E as _ <-. reflexivity.
  - rewrite Hkeep; [reflexivity|].
    intros c [Hc|[Hc|[Hc|[]]]]; try discriminate Hc; injection Hc as <-; reflexivity.
Defined.

(** *** A second build changes nothing *)

(** Dictionaries with the same keys in the same order and the same values
    are equal. *)
Lemma dict_ext (V : Type) (d1 d2 : dict V) :
  dict_keys d1 = dict_keys d2 -> dict_wf d1 ->
  (forall k, dict_get k d1 = dict_get k d2) -> d1 = d2.
Proof.
  revert d2. induction d1 as [|[k1 v1] d1 IH]; intros [|[k2 v2] d2] Hk Hwf Hget;
    try discriminate Hk; [reflexivity|].
  simpl in Hk. injection Hk as <- Hk.
  inversion Hwf as [|? ? Hnin Hwf']; subst.
  pose proof (Hget k1) as H1. simpl in H1. rewrite String.eqb_refl in H1.
  injection H1 as <-. f_equal. apply IH; [assumption|assumption|].
  intros k. destruct (String.eqb k k1) eqn:E.
  - apply String.eqb_eq in E. subst k.
    transitivity (@None V); [|symmetry]; apply dict_get_None_notin;
      [exact Hnin | unfold dict_keys in *; rewrite <- Hk; exact Hnin].
  - specialize (Hget k). simpl in Hget. now rewrite E in Hget.
Qed.

Lemma dict_keys_update_same (V : Type) (d other : dict V) :
  (forall k, In k (dict_keys other) -> In k (dict_keys d)) ->
  dict_keys (dict_update d other) = dict_keys d.
Proof.
  unfold dict_update. revert d.
  induction other as [|[k v] other IH]; intros d Hin; simpl; [reflexivity|].
  assert (Hk : dict_keys (dict_set k v d) = dict_keys d).
  { apply dict_keys_set_in. apply Hin. now left. }
  rewrite IH; [exact Hk|]. intros k' Hk'. rewrite Hk. apply Hin. now right.
Qed.

Lemma dict_get_update (V : Type) (k : string) (d other : dict V) :
  dict_wf other ->
  dict_get k (dict_update d other) =
    match dict_get k other with
    | Some v => Some v
    | None => dict_get k d
    end.
Proof.
  intros Hwf. destruct (dict_get k other) eqn:E.
  - now apply dict_get_update_Some.
  - now apply dict_get_update_None.
Qed.

Lemma dict_update_all_wf (V : Type) (d : dict V) (others : list (dict V)) :
  dict_wf d -> dict_wf (dict_update_all d others).
Proof.
  unfold dict_update_all. revert d.
  induction others as [|o others IH]; intros d Hwf; simpl; [exact Hwf|].
  apply IH. now apply dict_wf_update.
Qed.

Lemma dict_has_update_all (V : Type) (k : string) (d : dict V) (others : list (dict V)) :
  dict_has k (dict_update_all d others) = dict_has k d || existsb (dict_has k) others.
Proof.
  unfold dict_update_all. revert d.
  induction others as [|o others IH]; intros d; simpl.
  - now rewrite orb_false_r.
  - rewrite IH, dict_has_update. now rewrite orb_assoc.
Qed.

Lemma dict_get_update_all (V : Type) (k : string) (d : dict V) (others : list (dict V)) :
  Forall dict_wf others ->
  dict_get k (dict_update_all d others) =
    match last_get k others with
    | Some v => Some v
    | None => dict_get k d
    end.
Proof.
  unfold dict_update_all. intros Hwf. revert d.
  induction Hwf as [|o others Ho _ IH]; intros d; simpl; [reflexivity|].
  rewrite IH. destruct (last_get k others); [reflexivity|].
  now apply dict_get_update.
Qed.

Lemma dict_keys_update_all_same (V : Type) (d : dict V) (others : list (dict V)) :
  (forall o k, In o others -> In k (dict_keys o) -> In k (dict_keys d)) ->
  dict_keys (dict_update_all d others) = dict_keys d.
Proof.
  unfold dict_update_all. revert d.
  induction others as [|o others IH]; intros d Hin; simpl; [reflexivity|].
  assert (Hk : dict_keys (dict_update d o) = dict_keys d).
  { apply dict_keys_update_same. intros k. apply Hin. now left. }
  rewrite IH; [exact Hk|]. intros o' k Ho' Hk'. rewrite Hk.
  eapply Hin; [right; exact Ho'|exact Hk'].
Qed.

(** Merging the same dictionaries a second time changes nothing. *)
Lemma dict_update_all_again (V : Type) (d : dict V) (others : list (dict V)) :
  dict_wf d -> Forall dict_wf others ->
  dict_update_all (dict_update_all d others) others = dict_update_all d others.
Proof.
  intros Hd Ho. apply dict_ext.
  - apply dict_keys_update_all_same. intros o k Hin Hk.
    apply dict_has_in. rewrite dict_has_update_all.
    apply orb_true_iff. right. apply existsb_exists. exists o.
    split; [exact Hin|]. now apply dict_has_in.
  - apply dict_update_all_wf. now apply dict_update_all_wf.
  - intros k. rewrite (dict_get_update_all k _ Ho).
    destruct (last_get k others) eqn:E; [|reflexivity].
    rewrite (dict_get_update_all k _ Ho). now rewrite E.
Qed.

Lemma tree_wf_node (n : string) (b : list (item TexObject)) (pk : dict (dict pyval))
      (e : option EnvFields) :
  tree_wf (mkTexObject n b pk e) <-> dict_wf pk /\ Forall (P_item tree_wf) b.
Proof.
  simpl. split; intros [Hpk Hb]; (split; [exact Hpk|]).
  - induction b as [|[s|c] b IH]; constructor; simpl in Hb |- *.
    + exact I.
    + apply IH, Hb.
    + apply Hb.
    + apply IH, Hb.
  - induction Hb as [|[s|c] b Hx Hb IH]; simpl in *; tauto.
Qed.

Lemma build_body_merged rec (b b' : list (item TexObject)) (ps : list piece)
      (pk pk' : dict (dict pyval)) :
  build_body rec b pk = Ok (ps, b', pk') ->
  pk' = dict_update_all pk (child_packages b').
Proof.
  revert b' ps pk pk'. induction b as [|x b IH]; intros b' ps pk pk' H; simpl in H.
  - now injection H as _ <- <-.
  - bind_inv_eq H as Ex. destruct a as [p it'].
    bind_inv_eq H as Eb. destruct a as [[ps0 rest'] pk0]. injection H as _ <- <-.
    rewrite (IH _ _ _ _ Eb). destruct it'; reflexivity.
Qed.

Lemma obj_build_env_kept (o o' : TexObject) (text : string) :
  obj_build o = Ok (text, o') -> name o' = name o /\ env o' = env o.
Proof.
  intros H. destruct (obj_build_inv _ H) as (tex & b' & pk' & ss & _ & _ & ->).
  now split.
Qed.

(** The built children, built again, give the same pieces and stay as they
    are. *)
Lemma build_body_again (b : list (item TexObject)) :
  Forall (P_item (fun c => forall t c', tree_wf c -> obj_build c = Ok (t, c') ->
                                        obj_build c' = Ok (t, c'))) b ->
  Forall (P_item tree_wf) b ->
  forall b' ps pk pk',
    build_body obj_build b pk = Ok (ps, b', pk') ->
    Forall dict_wf (child_packages b') /\
    forall pk2, build_body obj_build b' pk2 =
                  Ok (ps, b', dict_update_all pk2 (child_packages b')).
Proof.
  induction 1 as [|x b Hx _ IH]; intros Hwf b' ps pk pk' H; simpl in H.
  - injection H as <- <- _. split; [constructor|reflexivity].
  - inversion Hwf as [|? ? Hwx Hwb]; subst.
    bind_inv_eq H as Ex. destruct a as [p it'].
    bind_inv_eq H as Eb. destruct a as [[ps0 rest'] pk0]. injection H as <- <- _.
    destruct (IH Hwb _ _ _ _ Eb) as [Hwfs Hagain].
    destruct x as [s|c]; simpl in Ex.
    + injection Ex as <- <-. split; [exact Hwfs|].
      intros pk2. simpl. now rewrite Hagain.
    + simpl in Hx, Hwx. destruct (is_TexEnvironment c) eqn:Ec.
      * bind_inv_eq Ex as Eo. destruct a as [t c']. injection Ex as <- <-.
        assert (Hwc : dict_wf (packages c)) by (destruct c; apply Hwx).
        split.
        -- constructor; [exact (obj_build_wf _ Hwc Eo)|exact Hwfs].
        -- intros pk2. simpl.
           assert (Ec' : is_TexEnvironment c' = true).
           { unfold is_TexEnvironment in *.
             destruct (obj_build_env_kept _ Eo) as [_ He]. now rewrite He. }
           rewrite Ec', (Hx _ _ Hwx eq_refl). simpl. now rewrite Hagain.
      * injection Ex as <- <-.
        assert (Hwc : dict_wf (packages c)) by (destruct c; apply Hwx).
        split; [constructor; assumption|].
        intros pk2. simpl. rewrite Ec. simpl. now rewrite Hagain.
Qed.

(** X11: [build] on a tree whose registries are dictionaries brings it to a
    state a second [build] leaves as it is, returning the same text. *)
Theorem build_again_is_identity (o o' : TexObject) (text : string) :
  tree_wf o ->
  obj_build o = Ok (text, o') ->
  obj_build o' = Ok (text, o').
Proof.
  revert text o'. induction o as [n b pk e HP] using TexObject_tree_ind.
  intros text o' Hwf H. apply tree_wf_node in Hwf as [Hpk Hwb].
  destruct (obj_build_body_inv _ H) as (bd & Hbody & Hnone & Hsome).
  destruct (TexObject_build_inv _ Hbody) as (ps & b' & pk' & ss & Hb & Hss & -> & ->).
  simpl in Hb. cbn [name env] in *.
  destruct (@build_body_again b HP Hwb b' ps pk pk' Hb) as [Hwfs Hagain].
  assert (Hsame : TexObject_build obj_build (mkTexObject n b' pk' e) =
                  Ok (join nl ss, mkTexObject n b' pk' e)).
  { simpl. rewrite Hagain. simpl. unfold join_pieces. rewrite Hss. simpl.
    do 3 f_equal. rewrite (build_body_merged _ _ _ Hb).
    now apply dict_update_all_again. }
  destruct e as [f|].
  - simpl obj_build. unfold TexEnvironment_build. cbn [name].
    destruct (head_tail n f None None) as [[h t]|x] eqn:Eht.
    + rewrite (Hsome f h t eq_refl Eht). cbn [bind].
      rewrite Hsame. cbn [bind]. unfold body_lines.
      destruct (str_truthy (join nl ss)); reflexivity.
    + simpl in H. unfold TexEnvironment_build in H. cbn [name] in H.
      rewrite Eht in H. discriminate H.
  - rewrite (Hnone eq_refl). rewrite obj_build_obj by reflexivity. exact Hsame.
Qed.

Lemma build_again_is_identity_witness :
  exists text o',
    obj_build two_declarations = Ok (text, o') /\
    o' <> two_declarations /\
    obj_build o' = Ok (text, o').
Proof.
  destruct (obj_build two_declarations) as [[text o']|e] eqn:E;
    [|vm_compute in E; discriminate E].
  exists text, o'. split; [reflexivity|]. split.
  - vm_compute in E. injection E as _ <-. discriminate.
  - apply (build_again_is_identity two_declarations); [|exact E].
    simpl. repeat split; repeat constructor; simpl; tauto.
Defined.

End TexBaseProps.

(** ** The in-place classes of [document.py] *)

Module DocProps.
Import Doc.

(** *** Margins *)

(** C6: [set_margins] stores, as the option string of [geometry],
    [top=..,bottom=..,margin=..] with the uniform value wherever [top] or
    [bottom] is not given; the stored string replaces the prior one and
    the other packages keep theirs. *)
Theorem set_margins_geometry (d : Document) (uniform : string) (top bottom : option string) :
  dict_get "geometry" (packages (set_margins d uniform None None)) =
    Some ("top=" +:+ uniform +:+ ",bottom=" +:+ uniform +:+ ",margin=" +:+ uniform) /\
  dict_get "geometry" (packages (set_margins d uniform top bottom)) =
    Some ("top=" +:+ or_default top uniform +:+ ",bottom=" +:+ or_default bottom uniform
          +:+ ",margin=" +:+ uniform) /\
  (forall prior,
      dict_get "geometry"
               (packages (set_margins (set_packages d (dict_set "geometry" prior (packages d)))
                                      uniform top bottom)) =
      dict_get "geometry" (packages (set_margins d uniform top bottom))) /\
  (forall package, package <> "geometry" ->
      dict_get package (packages (set_margins d uniform top bottom)) =
      dict_get package (packages d)).
Proof.
  assert (Hgen : forall d0 t b,
             dict_get "geometry" (packages (set_margins d0 uniform t b)) =
             Some ("top=" +:+ or_default t uniform +:+ ",bottom=" +:+ or_default b uniform
                   +:+ ",margin=" +:+ uniform)).
  { intros d0 t b. unfold set_margins. simpl packages. rewrite dict_get_set_same.
    destruct t, b; simpl; rewrite ?append_assoc; reflexivity. }
  split; [exact (Hgen d None None)|]. split; [exact (Hgen d top bottom)|]. split.
  - intros prior. now rewrite !Hgen.
  - intros package Hne. unfold set_margins. simpl packages.
    now apply dict_get_set_other.
Qed.

Lemma set_margins_geometry_witness :
  dict_get "geometry" (packages (Document_init "Test" "article" [] [])) =
    Some "top=2.5cm,bottom=2.5cm,margin=2.5cm" /\
  dict_get "inputenc"
           (packages (set_margins (Document_init "Test" "article" [] []) "2cm"
                                  (Some "3cm") None)) = Some "utf8".
Proof.
  destruct (set_margins_geometry (Document_init "Test" "article" [] []) "2cm"
                                 (Some "3cm") None) as (_ & _ & _ & Hother).
  split; [reflexivity|]. rewrite Hother by discriminate. reflexivity.
Defined.

(** *** Rules *)

Lemma slice_bound_clamp (length dflt : Z) (i : Z) :
  (0 <= length)%Z -> slice_bound length dflt (Some i) = slice_clamp length i.
Proof.
  intros Hlen. unfold slice_bound, slice_clamp.
  destruct (i <? 0)%Z eqn:Ei.
  - apply Z.ltb_lt in Ei. destruct (i + length <? 0)%Z eqn:Es.
    + apply Z.ltb_lt in Es. lia.
    + apply Z.ltb_ge in Es. lia.
  - apply Z.ltb_ge in Ei. destruct (length <? i)%Z eqn:El.
    + apply Z.ltb_lt in El. lia.
    + apply Z.ltb_ge in El. lia.
Qed.

(** The resolution [build_rule] computes is the language's. *)
Lemma slice_indices_resolve (start stop : option Z) (length : Z) :
  (0 <= length)%Z -> slice_indices start stop length = slice_resolve start stop length.
Proof.
  intros Hlen. unfold slice_indices, slice_resolve.
  destruct start, stop; rewrite ?slice_bound_clamp by assumption; reflexivity.
Qed.

Lemma slice_resolve_in_range (s e length : Z) :
  (0 <= s <= e)%Z -> (e <= length)%Z ->
  slice_resolve (Some s) (Some e) length = (s, e).
Proof.
  intros Hse He. unfold slice_resolve, slice_clamp.
  destruct (s <? 0)%Z eqn:Es; [apply Z.ltb_lt in Es; lia|].
  destruct (e <? 0)%Z eqn:Ee; [apply Z.ltb_lt in Ee; lia|].
  f_equal; lia.
Qed.

Lemma build_rule_partial (t : TabularFields) (start end_ : option Z) :
  (start, end_) <> (None, None) ->
  build_rule t start end_ None =
    "\cmidrule{"
    +:+ str_of_Z (fst (slice_indices start end_ (Z.of_nat (snd (shape t)))) + 1)
    +:+ "-" +:+ str_of_Z (snd (slice_indices start end_ (Z.of_nat (snd (shape t)))))
    +:+ "}".
Proof.
  intros Hne. unfold build_rule.
  destruct (slice_indices start end_ _) as [s e].
  destruct start, end_; try reflexivity. congruence.
Qed.

Lemma rules_get_set_same (i : Z) (r : rule) (rs : rules_t) :
  rules_get i (rules_set i r rs) = Some r.
Proof.
  induction rs as [|[j r'] rs IH]; simpl.
  - now rewrite Z.eqb_refl.
  - destruct (Z.eqb i j) eqn:E; simpl; rewrite E; auto.
Qed.

(** C7: a rule with no bounds and no trim is the full-width rule, whether
    [build_rule] gets no trim or the empty trim [add_rule] registers; a rule
    with bounds and no trim is the partial rule over the slice resolution
    of its bounds against the column count, printed from [start + 1] to
    the end as resolved, so over [s + 1] to [e] for bounds [0 <= s <= e]
    within the columns; bounds (1, 3) on four columns print [2-3]. The
    rule lines [build] emits for rules registered by [add_rule] are these. *)
Theorem build_rule_range (t : TabularFields) (start end_ : option Z) :
  let columns := Z.of_nat (snd (shape t)) in
  build_rule t None None None = "\midrule" /\
  build_rule t None None (Some "") = "\midrule" /\
  ((start, end_) <> (None, None) ->
   build_rule t start end_ None =
     "\cmidrule{" +:+ str_of_Z (fst (slice_resolve start end_ columns) + 1)
     +:+ "-" +:+ str_of_Z (snd (slice_resolve start end_ columns)) +:+ "}") /\
  (forall s e, (0 <= s <= e)%Z -> (e <= columns)%Z ->
     build_rule t (Some s) (Some e) None =
       "\cmidrule{" +:+ str_of_Z (s + 1) +:+ "-" +:+ str_of_Z e +:+ "}") /\
  (snd (shape t) = 4 -> build_rule t (Some 1%Z) (Some 3%Z) None = "\cmidrule{2-3}") /\
  (forall row,
     rule_line (add_rule t (Z.of_nat row) None None (TBool false) (TBool false)) row
     = ["\midrule"]) /\
  (forall row s e, (0 <= s <= e)%Z -> (e <= columns)%Z ->
     rule_line (add_rule t (Z.of_nat row) (Some s) (Some e) (TBool false) (TBool false)) row
     = ["\cmidrule{" +:+ str_of_Z (s + 1) +:+ "-" +:+ str_of_Z e +:+ "}"]).
Proof.
  intros columns.
  assert (Hcols : (0 <= columns)%Z) by apply Nat2Z.is_nonneg.
  assert (Hin : forall t0 s e, (0 <= s <= e)%Z -> (e <= Z.of_nat (snd (shape t0)))%Z ->
             build_rule t0 (Some s) (Some e) None =
               "\cmidrule{" +:+ str_of_Z (s + 1) +:+ "-" +:+ str_of_Z e +:+ "}").
  { intros t0 s e Hse He. rewrite build_rule_partial by discriminate.
    rewrite slice_indices_resolve by apply Nat2Z.is_nonneg.
    now rewrite slice_resolve_in_range. }
  split; [reflexivity|]. split; [reflexivity|]. split; [|split; [|split; [|split]]].
  - intros Hne. rewrite build_rule_partial by assumption.
    fold columns. now rewrite slice_indices_resolve.
  - intros s e. apply Hin.
  - intros H4. rewrite build_rule_partial by discriminate. now rewrite H4.
  - intros row. unfold rule_line, add_rule. simpl rules.
    now rewrite rules_get_set_same.
  - intros row s e Hse He. unfold rule_line, add_rule. simpl rules.
    rewrite rules_get_set_same.
    change (build_rule ?t0 (Some s) (Some e) (Some (trim_code "r" (TBool false)
                                                   +:+ trim_code "l" (TBool false))))
      with (build_rule t0 (Some s) (Some e) (Some "")).
    f_equal. now rewrite <- (Hin t s e Hse He).
Qed.

Lemma build_rule_range_witness :
  build_rule (mkTabularFields (4, 4) "c" ".2f" [] []) (Some 1%Z) (Some 3%Z) None
  = "\cmidrule{2-3}" /\
  build_rule (mkTabularFields (4, 4) "c" ".2f" [] []) (Some (-1)%Z) None None
  = "\cmidrule{4-4}" /\
  rule_line (add_rule (mkTabularFields (4, 4) "c" ".2f" [] []) 0 (Some 1%Z) (Some 3%Z)
                      (TBool false) (TBool false)) 0
  = ["\cmidrule{2-3}"].
Proof.
  destruct (build_rule_range (mkTabularFields (4, 4) "c" ".2f" [] [])
                             (Some (-1)%Z) None) as (_ & _ & Hres & Hin & _ & _ & Hreg).
  split; [|split].
  - refine (eq_trans (Hin 1%Z 3%Z _ _) eq_refl); simpl; lia.
  - refine (eq_trans (Hres _) eq_refl). discriminate.
  - refine (eq_trans (Hreg 0 1%Z 3%Z _ _) eq_refl); simpl; lia.
Defined.

(** *** Packages of the document *)

Lemma add_package_options_store (d : Document) (package : string) (options : list string) :
  exists d', add_package d package options [] = Ok d' /\
             dict_get package (packages d') =
               Some (if seq_truthy options then "[" +:+ join "," options +:+ "]" else "").
Proof.
  eexists. split; [reflexivity|]. simpl. apply dict_get_set_same.
Qed.

(** C10: [Document.add_package] with a keyword option raises an
    [AttributeError], whatever the package and the positional options, and
    stores nothing. *)
Theorem add_package_keyword_raises (d : Document) (package : string)
        (options : list string) (kwoptions : dict pyval) :
  kwoptions <> [] -> add_package d package options kwoptions = Raise AttributeError.
Proof.
  intros Hne. unfold add_package.
  destruct kwoptions as [|[key value] rest]; [congruence|]. reflexivity.
Qed.

Lemma add_package_keyword_raises_witness :
  add_package (Document_init "Test" "article" [] []) "hyperref" []
              [("colorlinks", VStr "true")] = Raise AttributeError.
Proof. apply add_package_keyword_raises. discriminate. Defined.

(** *** The inherited build *)

Ltac bind_inv H E :=
  match type of H with
  | bind ?r _ = Ok _ => destruct r eqn:E; simpl in H; [|discriminate H]
  end.

(** Induction over a tree of environments. *)
Section TexEnvironmentInd.
Variable P : TexEnvironment -> Prop.

Definition P_item (it : item TexEnvironment) : Prop :=
  match it with
  | IText _ => True
  | IEnv c => P c
  end.

Definition P_body (b : body_t (item TexEnvironment)) : Prop :=
  match b with
  | BList l => Forall P_item l
  | BStr _ => True
  end.

Hypothesis P_node : forall k n b h tl, P_body b -> P (mkTexEnvironment k n b h tl).

Fixpoint TexEnvironment_tree_ind (e : TexEnvironment) : P e :=
  match e with
  | mkTexEnvironment k n b h tl =>
      @P_node k n b h tl
        (match b return P_body b with
         | BList l =>
             (fix items (l : list (item TexEnvironment)) : Forall P_item l :=
                match l with
                | [] => Forall_nil _
                | it :: r =>
                    Forall_cons it
                      (match it return P_item it with
                       | IText _ => I
                       | IEnv c => TexEnvironment_tree_ind c
                       end)
                      (items r)
                end) l
         | BStr _ => I
         end)
  end.
End TexEnvironmentInd.

(** [Tabular.build], statement by statement. *)
Lemma env_build_tabular (format_float : string -> pyfloat -> result string)
      (t : TabularFields) (n h tl : string) (b : body_t (item TexEnvironment)) :
  env_build format_float (mkTexEnvironment (KTabular t) n b h tl) =
    (entries <- format_data format_float (float_format t) (data t) ;;
     TexEnvironment_build_appended (env_build format_float)
       (mkTexEnvironment (KTabular (formatted t entries)) n b
          (h +:+ "{" +:+ str_repeat "c" (snd (shape t)) +:+ "}" +:+ nl +:+ "\toprule")
          ("\bottomrule" +:+ nl +:+ tl))
       (tabular_lines t 0 entries)).
Proof. destruct t as [[row col] al fmt dt rl]. reflexivity. Qed.

Section Formatting.
Variable format_float : string -> pyfloat -> result string.

(** Cells that are strings are left as they are. *)
Lemma format_row_texts (fmt : string) (ss : list string) :
  format_row format_float fmt (map (fun s => CVal (VStr s)) ss) = Ok ss.
Proof. induction ss as [|s ss IH]; simpl; [reflexivity|]. now rewrite IH. Qed.

Lemma format_data_texts (fmt : string) (entries : list (list string)) :
  format_data format_float fmt (map (map (fun s => CVal (VStr s))) entries) = Ok entries.
Proof.
  induction entries as [|row entries IH]; simpl; [reflexivity|].
  now rewrite format_row_texts, IH.
Qed.

Lemma format_row_cells (fmt : string) (row : list cell) (entries : list string) :
  format_row format_float fmt row = Ok entries ->
  Forall2 (fun value entry => format_cell format_float fmt value = Ok entry) row entries.
Proof.
  revert entries. induction row as [|value row IH]; intros entries H; simpl in H.
  - injection H as <-. constructor.
  - destruct (format_cell format_float fmt value) as [entry|x] eqn:Ec; [|discriminate].
    cbn [bind] in H. destruct (format_row format_float fmt row) as [rest|x]; [|discriminate].
    cbn [bind] in H. injection H as <-. constructor; [exact Ec|now apply IH].
Qed.

Lemma format_data_cells (fmt : string) (data : list (list cell))
      (entries : list (list string)) :
  format_data format_float fmt data = Ok entries ->
  Forall2 (Forall2 (fun value entry => format_cell format_float fmt value = Ok entry))
          data entries.
Proof.
  revert entries. induction data as [|row data IH]; intros entries H; simpl in H.
  - injection H as <-. constructor.
  - destruct (format_row format_float fmt row) as [r|x] eqn:Er; [|discriminate].
    cbn [bind] in H. destruct (format_data format_float fmt data) as [more|x]; [|discriminate].
    cbn [bind] in H. injection H as <-.
    constructor; [now apply format_row_cells|now apply IH].
Qed.

Lemma format_data_rows (fmt : string) (data : list (list cell))
      (entries : list (list string)) :
  format_data format_float fmt data = Ok entries ->
  seq_truthy entries = seq_truthy data.
Proof.
  intros H. apply format_data_cells in H. now destruct H.
Qed.
End Formatting.

Section Inherited.
Variable format_float : string -> pyfloat -> result string.
Let build := env_build format_float.

Lemma items_strings_texts (ss : list string) :
  items_strings (map (@IText TexEnvironment) ss) = Ok ss.
Proof. induction ss as [|s ss IH]; simpl; [reflexivity|]. now rewrite IH. Qed.

Lemma items_strings_app (l : list (item TexEnvironment)) (lines : list string) :
  items_strings (l ++ map IText lines) =
    (ss <- items_strings l ;; Ok (ss ++ lines)).
Proof.
  induction l as [|[s|c] l IH]; simpl.
  - now rewrite items_strings_texts.
  - rewrite IH. destruct (items_strings l); reflexivity.
  - reflexivity.
Qed.

Lemma build_items_app rec (l : list (item TexEnvironment)) (lines : list string) :
  build_items rec (l ++ map IText lines) =
    (l' <- build_items rec l ;; Ok (l' ++ map IText lines)).
Proof.
  induction l as [|[s|c] l IH]; simpl.
  - induction lines as [|x lines IHl]; simpl; [reflexivity|]. now rewrite IHl.
  - rewrite IH. destruct (build_items rec l); reflexivity.
  - destruct (rec c) as [c'|e]; simpl; [|reflexivity].
    destruct (body c'); [reflexivity|].
    rewrite IH. destruct (build_items rec l); reflexivity.
Qed.

Lemma body_extend_list (l : list (item TexEnvironment)) (lines : list string) :
  body_extend (BList l) lines = Ok (BList (l ++ map IText lines)).
Proof.
  revert l. induction lines as [|x lines IH]; intros l; simpl.
  - now rewrite app_nil_r.
  - rewrite IH. now rewrite <- app_assoc.
Qed.

(** The build of [Tabular] after its appends is the inherited build on
    the extended body. *)
Lemma TexEnvironment_build_appended_eq rec (k : kind) (n h tl : string)
      (b : body_t (item TexEnvironment)) (lines : list string) :
  TexEnvironment_build_appended rec (mkTexEnvironment k n b h tl) lines =
    (b' <- body_extend b lines ;;
     TexEnvironment_build rec (mkTexEnvironment k n b' h tl)).
Proof.
  destruct b as [l|s]; simpl.
  - rewrite body_extend_list. simpl. rewrite build_items_app.
    destruct (build_items rec l) as [l'|e]; simpl; [|reflexivity].
    rewrite items_strings_app. destruct (items_strings l'); reflexivity.
  - destruct lines; reflexivity.
Qed.

Lemma TexEnvironment_build_appended_nil rec (e : TexEnvironment) :
  TexEnvironment_build_appended rec e [] = TexEnvironment_build rec e.
Proof. destruct e. now rewrite TexEnvironment_build_appended_eq. Qed.

(** A successful build leaves the joined string in [body]. *)
Lemma env_build_built (e e' : TexEnvironment) :
  build e = Ok e' -> exists s, body e' = BStr s.
Proof.
  unfold build. intros H.
  assert (Hcore : exists lines k h tl,
             TexEnvironment_build_appended (env_build format_float)
               (mkTexEnvironment k (env_name e) (body e) h tl) lines = Ok e').
  { destruct e as [k n b h tl]. cbn [env_name body]. destruct k as [| |t].
    - exists [], KEnv, h, tl. rewrite TexEnvironment_build_appended_nil. exact H.
    - exists [], KTable, h, tl. rewrite TexEnvironment_build_appended_nil. exact H.
    - rewrite env_build_tabular in H. bind_inv H Ef.
      eexists _, _, _, _. exact H. }
  destruct Hcore as (lines & k & h & tl & Hc). simpl in Hc.
  destruct (body e) as [l|s].
  - bind_inv Hc El. bind_inv Hc Es. injection Hc as <-. simpl. eauto.
  - destruct lines; discriminate Hc.
Qed.

(** On a built environment, [build] raises. *)
Lemma env_build_again_raises (e e' : TexEnvironment) :
  build e = Ok e' -> exists x, build e' = Raise x.
Proof.
  intros H. destruct (env_build_built _ H) as [s Hs]. unfold build.
  destruct e' as [k n b h tl]. simpl in Hs. subst b.
  destruct k as [| |t]; [simpl; eauto|simpl; eauto|].
  rewrite env_build_tabular.
  destruct (format_data format_float (float_format t) (data t)) as [entries|x];
    cbn [bind]; [|eauto].
  simpl. destruct (tabular_lines _ _ _); eauto.
Qed.

Lemma build_items_unbuilt (l : list (item TexEnvironment)) :
  Forall (P_item (fun c => unbuilt c = true -> formats format_float c = true ->
                           exists c' s, build c = Ok c' /\ body c' = BStr s)) l ->
  forallb (unbuilt_item unbuilt) l = true ->
  forallb (formats_item (formats format_float)) l = true ->
  exists ss, build_items build l = Ok (map IText ss).
Proof.
  induction 1 as [|x l Hx _ IH]; simpl; intros Hu Hf.
  - now exists [].
  - apply andb_prop in Hu as [Hux Hu]. apply andb_prop in Hf as [Hfx Hf].
    destruct (IH Hu Hf) as [ss Hss].
    destruct x as [s|c]; simpl in Hux, Hfx |- *.
    + rewrite Hss. now exists (s :: ss).
    + destruct (Hx Hux Hfx) as (c' & s & -> & Hb). simpl. rewrite Hb, Hss.
      now exists (s :: ss).
Qed.

(** [build] returns on every unbuilt tree whose float cells are accepted. *)
Lemma env_build_unbuilt (e : TexEnvironment) :
  unbuilt e = true -> formats format_float e = true ->
  exists e' s, build e = Ok e' /\ body e' = BStr s.
Proof.
  induction e as [k n b h tl HP] using TexEnvironment_tree_ind.
  intros Hu Hf. simpl in Hu. destruct b as [l|s]; [|discriminate].
  cbn [formats] in Hf. apply andb_prop in Hf as [Hk Hf].
  destruct (build_items_unbuilt HP Hu Hf) as [ss Hss].
  unfold build. destruct k as [| |t].
  - simpl. fold build. rewrite Hss. simpl. rewrite items_strings_texts. simpl.
    eexists _, _. split; reflexivity.
  - simpl. fold build. rewrite Hss. simpl. rewrite items_strings_texts. simpl.
    eexists _, _. split; reflexivity.
  - rewrite env_build_tabular.
    destruct (format_data format_float (float_format t) (data t)) as [entries|x];
      [|discriminate].
    cbn [bind]. simpl. fold build. rewrite Hss. simpl.
    rewrite items_strings_texts. simpl. eexists _, _. split; reflexivity.
Qed.

Lemma TexEnvironment_build_unbuilt (e : TexEnvironment) :
  unbuilt e = true -> formats format_float e = true ->
  exists s, TexEnvironment_build build e =
              Ok (mkTexEnvironment (cls e) (env_name e) (BStr s) (head e) (tail e)).
Proof.
  destruct e as [k n [l|s] h tl]; simpl; [|discriminate]. intros Hu Hf.
  apply andb_prop in Hf as [_ Hf].
  assert (HP : Forall (P_item (fun c => unbuilt c = true -> formats format_float c = true ->
                                exists c' s, build c = Ok c' /\ body c' = BStr s)) l).
  { apply Forall_forall. intros [s|c] _; simpl; [exact I|]. apply env_build_unbuilt. }
  destruct (build_items_unbuilt HP Hu Hf) as [ss ->]. simpl.
  rewrite items_strings_texts. simpl. eexists. reflexivity.
Qed.
End Inherited.

(** *** Tables *)

Lemma tabular_lines_rows (t : TabularFields) (k : nat) (rows : list (list string)) :
  tabular_lines t (Z.of_nat k) rows =
    flat_map (fun ir => row_line (snd ir) :: rule_line t (fst ir))
             (combine (seq k (List.length rows)) rows).
Proof.
  revert k. induction rows as [|row rows IH]; intros k; [reflexivity|].
  cbn [tabular_lines List.length seq combine flat_map fst snd].
  replace (Z.of_nat k + 1)%Z with (Z.of_nat (S k)) by lia. rewrite IH.
  unfold rule_line, row_line.
  destruct (rules_get (Z.of_nat k) (rules t)) as [[[start end_] trim]|]; reflexivity.
Qed.

Lemma row_lines_no_rules (t : TabularFields) (entries : list (list string)) :
  rules t = [] -> row_lines t entries = map row_line entries.
Proof.
  intros Hr. unfold row_lines. generalize 0. 
  induction entries as [|row entries IH]; intros k; [reflexivity|].
  cbn [List.length seq combine flat_map fst snd map]. rewrite IH.
  unfold rule_line. now rewrite Hr.
Qed.

Lemma TexEnvironment_build_appended_list rec (k : kind) (n h tl : string)
      (l l' : list (item TexEnvironment)) (ss lines : list string) :
  build_items rec l = Ok l' ->
  items_strings l' = Ok ss ->
  TexEnvironment_build_appended rec (mkTexEnvironment k n (BList l) h tl) lines =
    Ok (mkTexEnvironment k n (BStr (join nl ([h] ++ (ss ++ lines) ++ [tl]))) h tl).
Proof.
  intros Hl Hs. unfold TexEnvironment_build_appended. rewrite Hl. cbn [bind].
  rewrite Hs. reflexivity.
Qed.

(** C8: [Tabular.build] formats a float cell with the float format and
    turns any other cell into its [str] (under ['.2f'] the float 1.5 becomes
    [1.50] while the integer 2 becomes [2]); when the float format accepts
    the float cells, the texts [entries] being what the cells become, the
    body it builds holds, after the texts already there, one line per row
    in row order, the entries joined by [" & "] and ended by two
    backslashes, each followed by the rule registered under the row, if
    any. *)
Theorem Tabular_build_rows
        (format_float : string -> pyfloat -> result string) (t : TabularFields)
        (n h tl : string) (l l' : list (item TexEnvironment)) (ss : list string)
        (entries : list (list string)) :
  build_items (env_build format_float) l = Ok l' ->
  items_strings l' = Ok ss ->
  format_data format_float (float_format t) (data t) = Ok entries ->
  let h' := h +:+ "{" +:+ str_repeat "c" (snd (shape t)) +:+ "}" +:+ nl +:+ "\toprule" in
  let tl' := "\bottomrule" +:+ nl +:+ tl in
  Forall2 (Forall2 (fun value entry =>
                      format_cell format_float (float_format t) value = Ok entry))
          (data t) entries /\
  (forall x, format_cell format_float (float_format t) (CFloat x)
             = format_float (float_format t) x) /\
  (forall v, format_cell format_float (float_format t) (CVal v) = Ok (py_str v)) /\
  (float_format t = ".2f" ->
   (forall x, format_float ".2f" x = Ok (format_fixed 2 x)) ->
   format_cell format_float (float_format t) (CFloat (mkFloat 3 (-1))) = Ok "1.50" /\
   format_cell format_float (float_format t) (CVal (VInt 2)) = Ok "2") /\
  env_build format_float (mkTexEnvironment (KTabular t) n (BList l) h tl) =
    Ok (mkTexEnvironment (KTabular (formatted t entries)) n
          (BStr (join nl ([h'] ++ (ss ++ row_lines t entries) ++ [tl']))) h' tl') /\
  (rules t = [] -> row_lines t entries = map row_line entries).
Proof.
  intros Hl Hss Hf h' tl'.
  split; [now apply format_data_cells|].
  split; [reflexivity|]. split; [reflexivity|]. split; [|split].
  - intros Hfmt Hfixed. rewrite Hfmt. simpl. rewrite Hfixed. split; reflexivity.
  - rewrite env_build_tabular, Hf. cbn [bind].
    erewrite TexEnvironment_build_appended_list by eassumption.
    change 0%Z with (Z.of_nat 0). rewrite tabular_lines_rows. reflexivity.
  - apply row_lines_no_rules.
Qed.

Lemma Tabular_build_rows_witness :
  exists e',
    env_build sample_format
              (TexEnvironment_init (KTabular sample_tabular) "tabular" [] None) = Ok e' /\
    body e' =
      BStr ("\begin{tabular}{cc}" +:+ nl +:+ "\toprule" +:+ nl +:+ "1.50 & 2\\" +:+ nl
            +:+ "\cmidrule{2-2}" +:+ nl +:+ "A & B\\" +:+ nl +:+ "\bottomrule" +:+ nl
            +:+ "\end{tabular}") /\
    format_cell sample_format ".2f" (CFloat (mkFloat 3 (-1))) = Ok "1.50".
Proof.
  destruct (@Tabular_build_rows sample_format sample_tabular "tabular"
              "\begin{tabular}" "\end{tabular}" [] [] [] [["1.50"; "2"]; ["A"; "B"]]
              eq_refl eq_refl eq_refl)
    as (_ & _ & _ & Hcells & Hbuild & _).
  eexists. split; [exact Hbuild|]. split; [reflexivity|].
  exact (proj1 (Hcells eq_refl (fun x => eq_refl))).
Defined.

(** *** The document *)

Section DocumentFacts.
Variable format_float : string -> pyfloat -> result string.

Lemma append_packages_list (hl : list string) (pk : dict string) :
  append_packages (HList hl) pk = Ok (HList (preamble_lines hl pk)).
Proof.
  unfold preamble_lines. revert hl.
  induction pk as [|[package options] pk IH]; intros hl; simpl.
  - now rewrite app_nil_r.
  - rewrite IH. now rewrite <- app_assoc.
Qed.

(** The preamble of a document whose header is still a list. *)
Lemma render_header_lines (d : Document) (hl : list string) :
  header d = HList hl ->
  render_header d =
    Ok (mkDocument (self_env d) (filename d)
                   (HStr (join nl (preamble_lines hl (packages d))))
                   (packages d) (margins d)).
Proof.
  intros Hh. unfold render_header. rewrite Hh, append_packages_list. reflexivity.
Qed.

(** A completed [Document.build] is a run of its three statements. *)
Lemma Document_build_reaches (d d' : Document) (tex : string) :
  Document_build format_float d = Ok (d', tex) ->
  reaches format_float (start d) (mkConfig Finished d' (Some tex)).
Proof.
  unfold Document_build. intros H.
  bind_inv H E1. bind_inv H E2. bind_inv H E3. injection H as <- <-.
  eapply reaches_step with (c1 := mkConfig AtSave a0 None).
  - eapply reaches_step with (c1 := mkConfig AtBody a None).
    + eapply reaches_step; [apply reaches_refl|]. unfold step. simpl. now rewrite E1.
    + unfold step. simpl. now rewrite E2.
  - unfold step. simpl. now rewrite E3.
Qed.

(** [super().build()] does not touch the registry. *)
Lemma build_body_packages (d d' : Document) :
  build_body format_float d = Ok d' ->
  packages d' = packages d /\ header d' = header d.
Proof.
  unfold build_body. intros H. bind_inv H E. injection H as <-. now split.
Qed.

(** A second [Document.build] raises. *)
Lemma Document_build_again_raises (d d' : Document) (tex : string) :
  Document_build format_float d = Ok (d', tex) ->
  exists x, Document_build format_float d' = Raise x.
Proof.
  unfold Document_build. intros H.
  bind_inv H E1. bind_inv H E2. bind_inv H E3. injection H as <- _.
  unfold build_body in E2. bind_inv E2 Eb. injection E2 as <-.
  unfold saved_text in E3. simpl in E3.
  destruct (header a) as [hl|hs] eqn:Eh; [discriminate|].
  destruct (body a2) as [l|s] eqn:Ebody; [discriminate|].
  unfold render_header. simpl. rewrite Eh.
  destruct (append_packages (HStr hs) (packages a)) as [h'|x]; simpl; [|eauto].
  unfold build_body. simpl.
  destruct a2 as [k n b h tl]. simpl in Ebody. subst b. simpl. eauto.
Qed.
End DocumentFacts.

(** C1, as worded, on the sample document: after the first statement of
    [Document.build] the preamble is rendered and the body is not built. *)
Lemma preamble_rendered_before_body :
  ~ body_built_before_preamble sample_format sample_document.
Proof.
  intros H.
  assert (Hstep : exists c1,
             step sample_format (start sample_document) = Ok c1 /\
             header_rendered (doc c1) = true /\ body_built (doc c1) = false).
  { eexists. split; [vm_compute; reflexivity|]. split; reflexivity. }
  destruct Hstep as (c1 & Hc1 & Hh & Hb).
  specialize (H c1 (reaches_step (reaches_refl _ _) Hc1) Hh).
  congruence.
Qed.

(** C1 (amended): on a document whose header is still the list of lines
    and whose body tree has not been built (its float cells being ones
    their float formats accept), [Document.build] first renders the
    preamble from the registry as it stands at the call (the lines of the
    header, then one declaration line per entry, in order), the body being
    untouched, then builds the body, which leaves the registry as it was;
    the saved text is the preamble, a newline, and the built body. *)
Theorem Document_build_preamble_then_body
        (format_float : string -> pyfloat -> result string) (d : Document) (hl : list string) :
  header d = HList hl ->
  unbuilt (self_env d) = true ->
  formats format_float (self_env d) = true ->
  let preamble := join nl (preamble_lines hl (packages d)) in
  let rendered := mkDocument (self_env d) (filename d) (HStr preamble)
                             (packages d) (margins d) in
  exists built,
    step format_float (start d) = Ok (mkConfig AtBody rendered None) /\
    step format_float (mkConfig AtBody rendered None)
      = Ok (mkConfig AtSave (with_env rendered
                               (mkTexEnvironment (cls (self_env d)) (env_name (self_env d))
                                  (BStr built) (head (self_env d)) (tail (self_env d))))
                     None) /\
    Document_build format_float d =
      Ok (with_env rendered
            (mkTexEnvironment (cls (self_env d)) (env_name (self_env d))
                              (BStr built) (head (self_env d)) (tail (self_env d))),
          preamble +:+ nl +:+ built).
Proof.
  intros Hh Hu Hf preamble rendered.
  destruct (TexEnvironment_build_unbuilt format_float _ Hu Hf) as [built Hbuilt].
  exists built.
  assert (Hr : render_header d = Ok rendered) by now apply render_header_lines.
  assert (Hb : build_body format_float rendered =
               Ok (with_env rendered
                     (mkTexEnvironment (cls (self_env d)) (env_name (self_env d))
                        (BStr built) (head (self_env d)) (tail (self_env d))))).
  { unfold build_body. simpl self_env. now rewrite Hbuilt. }
  split; [|split].
  - unfold step. simpl. now rewrite Hr.
  - unfold step. simpl at_point. cbv iota. simpl doc. now rewrite Hb.
  - unfold Document_build. rewrite Hr. simpl. rewrite Hb. reflexivity.
Qed.

Lemma Document_build_preamble_then_body_witness :
  exists d' body_text,
    Document_build sample_format sample_document =
      Ok (d', "\documentclass[12pt]{article}" +:+ nl
              +:+ "\usepackage[utf8]{inputenc}" +:+ nl
              +:+ "\usepackage[top=2.5cm,bottom=2.5cm,margin=2.5cm]{geometry}" +:+ nl
              +:+ "\usepackage{booktabs}" +:+ nl +:+ body_text) /\
    packages d' = packages sample_document.
Proof.
  destruct (@Document_build_preamble_then_body sample_format sample_document
              ["\documentclass[12pt]{article}"] eq_refl eq_refl eq_refl)
    as (built & _ & _ & Hbuild).
  eexists _, built. split; [exact Hbuild|reflexivity].
Defined.

(** ** Further properties of [document.py] *)

(** *** The in-place build *)

Section InPlace.
Variable format_float : string -> pyfloat -> result string.

Lemma env_build_plain (e : TexEnvironment) :
  cls e = KEnv \/ cls e = KTable ->
  env_build format_float e = TexEnvironment_build (env_build format_float) e.
Proof.
  destruct e as [k n b h tl]. simpl cls.
  intros [->| ->]; reflexivity.
Qed.

(** What a successful build did, whatever the class. *)
Lemma env_build_items (e e' : TexEnvironment) :
  env_build format_float e = Ok e' ->
  exists l l' ss,
    body e = BList l /\
    build_items (env_build format_float) l = Ok l' /\
    items_strings l' = Ok ss.
Proof.
  intros H.
  assert (Hcore : exists lines k h tl,
             TexEnvironment_build_appended (env_build format_float)
               (mkTexEnvironment k (env_name e) (body e) h tl) lines = Ok e').
  { destruct e as [k n b h tl]. cbn [env_name body]. destruct k as [| |t].
    - exists [], KEnv, h, tl. rewrite TexEnvironment_build_appended_nil. exact H.
    - exists [], KTable, h, tl. rewrite TexEnvironment_build_appended_nil. exact H.
    - rewrite env_build_tabular in H. bind_inv H Ef. eexists _, _, _, _. exact H. }
  destruct Hcore as (lines & k & h & tl & Hc). simpl in Hc.
  destruct (body e) as [l|s].
  - bind_inv Hc El. bind_inv Hc Es. now exists l, a, a0.
  - destruct lines; discriminate Hc.
Qed.

(** A tabular whose build returns had its cells accepted. *)
Lemma env_build_formats_node (t : TabularFields) (n h tl : string)
      (b : body_t (item TexEnvironment)) (e' : TexEnvironment) :
  env_build format_float (mkTexEnvironment (KTabular t) n b h tl) = Ok e' ->
  exists entries, format_data format_float (float_format t) (data t) = Ok entries.
Proof.
  intros H. rewrite env_build_tabular in H. bind_inv H Ef. now exists a.
Qed.

Lemma build_items_contributes (l l' : list (item TexEnvironment)) :
  build_items (env_build format_float) l = Ok l' ->
  exists ss, l' = map IText ss /\ Forall2 (contributes format_float) l ss.
Proof.
  revert l'. induction l as [|[s|c] l IH]; intros l' H; simpl in H.
  - injection H as <-. exists []. split; [reflexivity|constructor].
  - bind_inv H E. injection H as <-. destruct (IH _ eq_refl) as (ss & -> & Hc).
    exists (s :: ss). split; [reflexivity|]. constructor; [constructor|exact Hc].
  - bind_inv H Ec. destruct (body a) as [lb|s] eqn:Eb; [discriminate|].
    bind_inv H E. injection H as <-. destruct (IH _ eq_refl) as (ss & -> & Hc).
    exists (s :: ss). split; [reflexivity|].
    constructor; [econstructor; eassumption|exact Hc].
Qed.

(** X12: the in-place [build] of a plain environment or a table replaces
    its body by one string: the head, the contributions of the elements of
    the body in body order, and the tail, joined by newlines; class, name,
    head and tail stay as they were. *)
Theorem inplace_build_in_order (e e' : TexEnvironment) :
  cls e = KEnv \/ cls e = KTable ->
  env_build format_float e = Ok e' ->
  exists l ss,
    body e = BList l /\
    Forall2 (contributes format_float) l ss /\
    e' = mkTexEnvironment (cls e) (env_name e)
           (BStr (join nl ([head e] ++ ss ++ [tail e]))) (head e) (tail e).
Proof.
  intros Hk H. rewrite (env_build_plain _ Hk) in H.
  destruct e as [k n [l|s] h tl]; simpl in H; [|discriminate].
  bind_inv H El. bind_inv H Es. injection H as <-.
  destruct (build_items_contributes _ El) as (ss & -> & Hc).
  rewrite items_strings_texts in Es. injection Es as <-.
  now exists l, ss.
Qed.

(** X13: [build] returns exactly on the trees on which it has not run
    and whose float cells are accepted by the float format of their
    tabular: a body that is already a string, anywhere in the tree, makes
    it raise, and so does a float cell that the float format refuses. *)
Theorem env_build_returns_iff_unbuilt (e : TexEnvironment) :
  (exists e', env_build format_float e = Ok e')
  <-> unbuilt e = true /\ formats format_float e = true.
Proof.
  split.
  - induction e as [k n b h tl HP] using TexEnvironment_tree_ind.
    intros [e' H]. destruct (env_build_items _ H) as (l & l' & ss & Hb & Hl & _).
    simpl in Hb. subst b. simpl in HP. cbn [unbuilt formats].
    assert (Hk : match k with
                 | KTabular t =>
                     match format_data format_float (float_format t) (data t) with
                     | Ok _ => true
                     | Raise _ => false
                     end
                 | _ => true
                 end = true).
    { destruct k as [| |t]; [reflexivity|reflexivity|].
      destruct (env_build_formats_node _ _ _ _ _ H) as [entries ->]. reflexivity. }
    rewrite Hk. cbn [andb].
    clear H Hk. revert l' Hl. induction HP as [|x l Hx _ IH]; intros l' Hl;
      [split; reflexivity|].
    simpl in Hl. cbn [forallb]. destruct x as [s|c].
    + bind_inv Hl E. destruct (IH a eq_refl) as [Hu Hf]. cbn [unbuilt_item formats_item].
      now rewrite Hu, Hf.
    + bind_inv Hl Ec. destruct (body a); [discriminate|]. bind_inv Hl E.
      simpl in Hx. destruct (Hx (ex_intro _ a Ec)) as [Huc Hfc].
      destruct (IH a0 eq_refl) as [Hu Hf]. cbn [unbuilt_item formats_item].
      now rewrite Huc, Hfc, Hu, Hf.
  - intros [Hu Hf]. destruct (env_build_unbuilt format_float _ Hu Hf) as (e' & s & H & _).
    now exists e'.
Qed.

(** X14: after a successful [build], a second [build] of the same
    environment raises: [TypeError], or [AttributeError] for a tabular that
    has rows. *)
Theorem env_build_twice_raises (e e' : TexEnvironment) :
  env_build format_float e = Ok e' ->
  env_build format_float e' = Raise (second_build_exn (cls e)).
Proof.
  intros H. destruct e as [k n b h tl]. simpl cls.
  destruct k as [| |t].
  - change (TexEnvironment_build (env_build format_float)
              (mkTexEnvironment KEnv n b h tl) = Ok e') in H.
    destruct b as [l|s]; simpl in H; [|discriminate].
    bind_inv H El. bind_inv H Es. now injection H as <-.
  - change (TexEnvironment_build (env_build format_float)
              (mkTexEnvironment KTable n b h tl) = Ok e') in H.
    destruct b as [l|s]; simpl in H; [|discriminate].
    bind_inv H El. bind_inv H Es. now injection H as <-.
  - rewrite env_build_tabular in H. bind_inv H Ef.
    destruct b as [l|s]; simpl in H; [|destruct (tabular_lines _ _ _); discriminate].
    bind_inv H El. bind_inv H Es. injection H as <-.
    rewrite env_build_tabular. cbn [formatted float_format data].
    rewrite format_data_texts. cbn [bind]. unfold second_build_exn.
    rewrite <- (format_data_rows _ _ _ Ef).
    destruct a as [|row rows]; [reflexivity|]. simpl.
    destruct (rules_get 0 (rules t)) as [[[st en] tr]|]; reflexivity.
Qed.
End InPlace.

Lemma env_build_twice_raises_witness :
  exists e',
    env_build sample_format
              (TexEnvironment_init (KTabular sample_tabular) "tabular" [] None) = Ok e' /\
    env_build sample_format e' = Raise AttributeError.
Proof.
  destruct (env_build sample_format
              (TexEnvironment_init (KTabular sample_tabular) "tabular" [] None))
    as [e'|x] eqn:E; [|vm_compute in E; discriminate E].
  exists e'. split; [reflexivity|].
  exact (env_build_twice_raises _ _ E).
Defined.

Lemma env_build_returns_iff_unbuilt_witness :
  (exists e', env_build sample_format (self_env sample_document) = Ok e') /\
  ~ (exists e', env_build sample_format
                  (TexEnvironment_init (KTabular refused_tabular) "tabular" [] None)
                = Ok e').
Proof.
  split.
  - apply env_build_returns_iff_unbuilt. split; reflexivity.
  - intros H. apply env_build_returns_iff_unbuilt in H. destruct H as [_ H].
    discriminate H.
Defined.

Lemma inplace_build_in_order_witness :
  exists tabular_text,
    contributes sample_format
                (IEnv (TexEnvironment_init (KTabular sample_tabular) "tabular" [] None))
                tabular_text /\
    built_parts
      (env_build sample_format
         (Table_init "h!" (TexEnvironment_init (KTabular sample_tabular) "tabular" [] None)))
    = Ok (BStr ("\begin{table}[h!]" +:+ nl +:+ "\centering" +:+ nl +:+ tabular_text
                +:+ nl +:+ "\end{table}"),
          "\begin{table}[h!]" +:+ nl +:+ "\centering", "\end{table}").
Proof.
  set (tab := TexEnvironment_init (KTabular sample_tabular) "tabular" [] None).
  destruct (env_build sample_format (Table_init "h!" tab)) as [e'|x] eqn:E;
    [|vm_compute in E; discriminate E].
  destruct (@inplace_build_in_order sample_format (Table_init "h!" tab) e'
              (or_intror eq_refl) E) as (l & ss & Hl & Hc & ->).
  injection Hl as <-.
  inversion Hc as [|x1 s1 l1 r1 H1 Hc1]; subst. inversion Hc1; subst.
  exists s1. split; [exact H1|]. reflexivity.
Defined.

(** *** The document and its registry *)

Section DocumentMore.
Variable format_float : string -> pyfloat -> result string.

(** The text a first [Document.build] saves. *)
Lemma Document_build_fresh (d : Document) (hl : list string) :
  header d = HList hl ->
  unbuilt (self_env d) = true ->
  formats format_float (self_env d) = true ->
  exists built d',
    Document_build format_float d =
      Ok (d', join nl (preamble_lines hl (packages d)) +:+ nl +:+ built) /\
    packages d' = packages d.
Proof.
  intros Hh Hu Hf.
  destruct (TexEnvironment_build_unbuilt format_float _ Hu Hf) as [built Hbuilt].
  exists built. eexists. unfold Document_build.
  rewrite (render_header_lines _ Hh). cbn [bind]. unfold build_body.
  cbn [self_env]. rewrite Hbuilt. cbn [bind]. split; reflexivity.
Qed.

(** X15: a second [Document.build] raises: [AttributeError] from
    [self.header.append] when the registry holds a package, and else
    [TypeError] from the build of the body. *)
Theorem Document_build_twice_raises (d d' : Document) (tex : string) :
  Document_build format_float d = Ok (d', tex) ->
  Document_build format_float d' =
    Raise (if seq_truthy (packages d) then AttributeError else TypeError).
Proof.
  unfold Document_build. intros H.
  destruct (render_header d) as [d1|x] eqn:E1; [|discriminate]. cbn [bind] in H.
  destruct (build_body format_float d1) as [d2|x] eqn:E2; [|discriminate].
  cbn [bind] in H.
  destruct (saved_text d2) as [t|x] eqn:E3; [|discriminate]. cbn [bind] in H.
  injection H as <- _.
  unfold render_header in E1.
  destruct (append_packages (header d) (packages d)) as [h1|x] eqn:Eh; [|discriminate].
  cbn [bind] in E1. injection E1 as <-.
  unfold build_body in E2. cbn [self_env] in E2.
  destruct (TexEnvironment_build (env_build format_float) (self_env d)) as [e2|x] eqn:Eb;
    [|discriminate].
  cbn [bind] in E2. injection E2 as <-.
  unfold saved_text in E3. cbn [header with_env self_env] in E3.
  destruct (body e2) as [l|s] eqn:Ebody; [discriminate|].
  unfold render_header. cbn [header packages with_env].
  destruct (packages d) as [|[package options] pk]; cbn [seq_truthy append_packages].
  - cbn [bind]. unfold build_body. cbn [self_env with_env].
    destruct e2 as [k n b h tl]. simpl in Ebody. subst b. reflexivity.
  - reflexivity.
Qed.

Lemma preamble_lines_in (hl : list string) (pk : dict string) (package options : string) :
  dict_get package pk = Some options ->
  In (usepackage_line package options) (preamble_lines hl pk).
Proof.
  intros H. unfold preamble_lines. apply in_or_app. right.
  induction pk as [|[k v] pk IH]; simpl in H |- *; [discriminate|].
  destruct (String.eqb package k) eqn:E.
  - apply String.eqb_eq in E. subst k. injection H as ->. now left.
  - right. now apply IH.
Qed.

(** X16: a package registered on the document with positional options is
    declared with doubled brackets: [add_package] stores the options already
    bracketed and [build] brackets every non-empty option string again (the
    document being one whose build returns: not built yet, its float
    cells accepted by their float formats). *)
Theorem positional_options_bracketed_twice
        (d : Document) (hl : list string) (package : string) (options : list string) :
  header d = HList hl ->
  unbuilt (self_env d) = true ->
  formats format_float (self_env d) = true ->
  options <> [] ->
  exists d1 d2 built,
    add_package d package options [] = Ok d1 /\
    Document_build format_float d1 =
      Ok (d2, join nl (preamble_lines hl (packages d1)) +:+ nl +:+ built) /\
    In ("\usepackage[[" +:+ join "," options +:+ "]]{" +:+ package +:+ "}")
       (preamble_lines hl (packages d1)).
Proof.
  intros Hh Hu Hf Ho.
  set (d1 := set_packages d (dict_set package ("[" +:+ join "," options +:+ "]")
                                      (packages d))).
  assert (Hadd : add_package d package options [] = Ok d1).
  { unfold add_package. destruct options; [congruence|reflexivity]. }
  destruct (@Document_build_fresh d1 hl Hh Hu Hf) as (built & d2 & Hbuild & _).
  exists d1, d2, built. split; [exact Hadd|]. split; [exact Hbuild|].
  replace ("\usepackage[[" +:+ join "," options +:+ "]]{" +:+ package +:+ "}")
    with (usepackage_line package ("[" +:+ join "," options +:+ "]")).
  - apply preamble_lines_in. unfold d1. simpl. apply dict_get_set_same.
  - unfold usepackage_line. simpl. now rewrite !append_assoc.
Qed.
End DocumentMore.

Lemma Document_build_twice_raises_witness :
  exists d' tex,
    Document_build sample_format sample_document = Ok (d', tex) /\
    Document_build sample_format d' = Raise AttributeError.
Proof.
  destruct (Document_build sample_format sample_document)
    as [[d' tex]|x] eqn:E; [|vm_compute in E; discriminate E].
  exists d', tex. split; [reflexivity|].
  exact (Document_build_twice_raises _ _ E).
Defined.

Lemma positional_options_bracketed_twice_witness :
  exists d1,
    add_package (Document_init "Test" "article" [] []) "babel" ["french"; "english"] []
    = Ok d1 /\
    In "\usepackage[[french,english]]{babel}"
       (preamble_lines ["\documentclass[]{article}"] (packages d1)).
Proof.
  destruct (@positional_options_bracketed_twice sample_format
              (Document_init "Test" "article" [] []) ["\documentclass[]{article}"]
              "babel" ["french"; "english"] eq_refl eq_refl eq_refl)
    as (d1 & d2 & built & Hadd & _ & Hin); [discriminate|].
  exists d1. split; [exact Hadd|exact Hin].
Defined.

(** X17: [set_margins] starts from the uniform value every time, so a later
    call undoes the overrides of an earlier one; it keeps the place of the
    [geometry] entry in the registry when there is one and otherwise puts
    it last. *)
Theorem set_margins_last_call_wins
        (d : Document) (u1 u2 : string) (top1 bottom1 top2 bottom2 : option string) :
  set_margins (set_margins d u1 top1 bottom1) u2 top2 bottom2
  = set_margins d u2 top2 bottom2 /\
  (In "geometry" (dict_keys (packages d)) ->
   dict_keys (packages (set_margins d u2 top2 bottom2)) = dict_keys (packages d)) /\
  (~ In "geometry" (dict_keys (packages d)) ->
   dict_keys (packages (set_margins d u2 top2 bottom2))
   = dict_keys (packages d) ++ ["geometry"]).
Proof.
  split; [|split].
  - unfold set_margins. simpl. now rewrite TexBaseProps.dict_set_set_same.
  - intros Hin. unfold set_margins. simpl packages. now apply dict_keys_set_in.
  - intros Hnin. unfold set_margins. simpl packages. now apply dict_keys_set_notin.
Qed.

Lemma set_margins_last_call_wins_witness :
  packages (set_margins (set_margins (Document_init "Test" "article" [] [])
                                     "2cm" (Some "1cm") None) "3cm" None None)
  = [("inputenc", "utf8"); ("geometry", "top=3cm,bottom=3cm,margin=3cm")].
Proof.
  destruct (set_margins_last_call_wins (Document_init "Test" "article" [] [])
              "2cm" "3cm" (Some "1cm") None None None) as [Hwins _].
  rewrite Hwins. reflexivity.
Defined.

(** X18: a document built right after its construction: the class line,
    with brackets even when no option is given, the [inputenc] and
    [geometry] lines with the default margins of 2.5cm, and an empty
    [document] environment. *)
Theorem fresh_document_text
        (format_float : string -> pyfloat -> result string) (filename doc_type : string)
        (options : list string) (kwoptions : dict pyval) :
  saved_of (Document_build format_float
              (Document_init filename doc_type options kwoptions)) =
    Ok ("\documentclass["
        +:+ join "," (options ++ map (fun kv => fst kv +:+ "=" +:+ py_str (snd kv)) kwoptions)
        +:+ "]{" +:+ doc_type +:+ "}" +:+ nl
        +:+ "\usepackage[utf8]{inputenc}" +:+ nl
        +:+ "\usepackage[top=2.5cm,bottom=2.5cm,margin=2.5cm]{geometry}" +:+ nl
        +:+ "\begin{document}" +:+ nl +:+ "\end{document}").
Proof.
  unfold Document_init.
  set (J := join "," (options ++ map _ kwoptions)). clearbody J.
  unfold saved_of, Document_build, render_header, build_body, saved_text.
  repeat (progress (simpl; rewrite ?append_assoc)). reflexivity.
Qed.

(** X19: [new_table] on a document whose body is still a list appends the
    table to the body and registers [booktabs], without options, once:
    the other entries keep their values and the registry stays a
    dictionary however many tables are added. *)
Theorem new_table_registers_booktabs
        (d : Document) (l : list (item TexEnvironment)) (position : string)
        (tabular : TabularFields) :
  body (self_env d) = BList l ->
  exists d',
    new_table d position tabular = Ok d' /\
    body (self_env d') =
      BList (l ++ [IEnv (Table_init position
                           (TexEnvironment_init (KTabular tabular) "tabular" [] None))]) /\
    dict_get "booktabs" (packages d') = Some "" /\
    (forall package, package <> "booktabs" ->
       dict_get package (packages d') = dict_get package (packages d)) /\
    (dict_wf (packages d) ->
     dict_wf (packages d') /\ dict_count "booktabs" (packages d') = 1).
Proof.
  intros Hb. unfold new_table, add_package, append_item. simpl.
  rewrite Hb. simpl. eexists. split; [reflexivity|]. simpl.
  split; [reflexivity|]. split; [apply dict_get_set_same|]. split.
  - intros package Hne. now apply dict_get_set_other.
  - intros Hwf. split; [now apply dict_wf_set|].
    eapply dict_count_one; [now apply dict_wf_set|apply dict_get_set_same].
Qed.

Lemma new_table_registers_booktabs_witness :
  exists d1 d2,
    new_table (Document_init "Test" "article" [] []) "h!" sample_tabular = Ok d1 /\
    new_table d1 "t" sample_tabular = Ok d2 /\
    dict_keys (packages d2) = ["inputenc"; "geometry"; "booktabs"].
Proof.
  destruct (@new_table_registers_booktabs (Document_init "Test" "article" [] []) []
              "h!" sample_tabular eq_refl) as (d1 & H1 & Hb1 & _).
  destruct (@new_table_registers_booktabs d1 _ "t" sample_tabular Hb1)
    as (d2 & H2 & _).
  exists d1, d2. split; [exact H1|]. split; [exact H2|].
  vm_compute in H1. injection H1 as <-. vm_compute in H2. injection H2 as <-.
  reflexivity.
Defined.

(** *** Tabulars *)

Lemma build_rule_shape (t1 t2 : TabularFields) (start end_ : option Z)
      (trim : option string) :
  shape t1 = shape t2 -> build_rule t1 start end_ trim = build_rule t2 start end_ trim.
Proof. intros H. unfold build_rule. now rewrite H. Qed.

Lemma tabular_lines_shape_rules (t1 t2 : TabularFields) (i : Z)
      (rows : list (list string)) :
  shape t1 = shape t2 -> rules t1 = rules t2 ->
  tabular_lines t1 i rows = tabular_lines t2 i rows.
Proof.
  intros Hs Hr. revert i. induction rows as [|row rows IH]; intros i; [reflexivity|].
  simpl. rewrite Hr, IH.
  destruct (rules_get i (rules t2)) as [[[st en] tr]|]; [|reflexivity].
  now rewrite (build_rule_shape t1 t2 _ _ _ Hs).
Qed.

Lemma built_parts_appended rec (k1 k2 : kind) (n h tl : string)
      (b : body_t (item TexEnvironment)) (lines : list string) :
  built_parts (TexEnvironment_build_appended rec (mkTexEnvironment k1 n b h tl) lines)
  = built_parts (TexEnvironment_build_appended rec (mkTexEnvironment k2 n b h tl) lines).
Proof.
  destruct b as [l|s]; simpl; [|destruct lines; reflexivity].
  destruct (build_items rec l) as [l'|x]; simpl; [|reflexivity].
  destruct (items_strings l'); reflexivity.
Qed.

Lemma TexEnvironment_build_appended_head rec (e e' : TexEnvironment)
      (lines : list string) :
  TexEnvironment_build_appended rec e lines = Ok e' ->
  head e' = head e /\ tail e' = tail e.
Proof.
  destruct e as [k n [l|s] h tl]; simpl; intros H.
  - bind_inv H El. bind_inv H Es. injection H as <-. now split.
  - destruct lines; discriminate H.
Qed.

(** X20: the [alignment] given to a tabular never reaches its output:
    whatever the alignment, the column specification a build leaves in the
    head is one [c] per column, and body, head and tail after [build] (or
    the exception it raises) are those of the same tabular under any other
    alignment. *)
Theorem alignment_is_ignored
        (format_float : string -> pyfloat -> result string) (t : TabularFields)
        (alignment : string) (n h tl : string) (b : body_t (item TexEnvironment)) :
  built_parts (env_build format_float
                 (mkTexEnvironment (KTabular (with_alignment t alignment)) n b h tl))
  = built_parts (env_build format_float (mkTexEnvironment (KTabular t) n b h tl)) /\
  (forall e',
     env_build format_float
       (mkTexEnvironment (KTabular (with_alignment t alignment)) n b h tl) = Ok e' ->
     head e' = h +:+ "{" +:+ str_repeat "c" (snd (shape t)) +:+ "}" +:+ nl +:+ "\toprule" /\
     tail e' = "\bottomrule" +:+ nl +:+ tl).
Proof.
  split.
  - rewrite !env_build_tabular. cbn [with_alignment shape float_format data].
    destruct (format_data format_float (float_format t) (data t)) as [entries|x];
      cbn [bind]; [|reflexivity].
    rewrite (tabular_lines_shape_rules (with_alignment t alignment) t 0 _ eq_refl eq_refl).
    apply built_parts_appended.
  - intros e' H. rewrite env_build_tabular in H.
    cbn [with_alignment shape float_format data] in H.
    destruct (format_data format_float (float_format t) (data t)) as [entries|x];
      cbn [bind] in H; [|discriminate H].
    apply TexEnvironment_build_appended_head in H. exact H.
Qed.

Lemma alignment_is_ignored_witness :
  exists e',
    env_build sample_format
      (TexEnvironment_init (KTabular (with_alignment sample_tabular "l")) "tabular" [] None)
    = Ok e' /\
    head e' = "\begin{tabular}{cc}" +:+ nl +:+ "\toprule".
Proof.
  destruct (env_build sample_format
              (TexEnvironment_init (KTabular (with_alignment sample_tabular "l"))
                                   "tabular" [] None)) as [e'|x] eqn:E;
    [|vm_compute in E; discriminate E].
  exists e'. split; [reflexivity|].
  destruct (@alignment_is_ignored sample_format sample_tabular "l" "tabular"
              "\begin{tabular}" "\end{tabular}" (BList [])) as [_ Hhead].
  exact (proj1 (Hhead e' E)).
Defined.

Lemma build_rule_trimmed (t : TabularFields) (start end_ : option Z) (trim : string) :
  trim <> "" ->
  build_rule t start end_ (Some trim) =
    "\cmidrule(" +:+ trim +:+ "){"
    +:+ str_of_Z (fst (slice_indices start end_ (Z.of_nat (snd (shape t)))) + 1)
    +:+ "-" +:+ str_of_Z (snd (slice_indices start end_ (Z.of_nat (snd (shape t)))))
    +:+ "}".
Proof.
  intros Hne. unfold build_rule.
  destruct (slice_indices start end_ _) as [s e].
  destruct trim as [|c trim]; [congruence|].
  destruct start, end_; simpl; now rewrite ?append_assoc.
Qed.

(** X21: a rule registered with a trim is always a partial rule, with the
    trim code in parentheses before the range, also when it has no bounds:
    it then spans columns 1 to the last. The code is [r] then [l], each
    followed by its length in braces when the trim is a string; an empty
    string gives the code [{}], so it still makes a partial rule. *)
Theorem trimmed_rule_is_partial
        (t : TabularFields) (row : nat) (start end_ : option Z)
        (trim_right trim_left : trim_arg) :
  let code := trim_code "r" trim_right +:+ trim_code "l" trim_left in
  let columns := Z.of_nat (snd (shape t)) in
  (code <> "" ->
   rule_line (add_rule t (Z.of_nat row) start end_ trim_right trim_left) row =
     ["\cmidrule(" +:+ code +:+ "){"
      +:+ str_of_Z (fst (slice_resolve start end_ columns) + 1) +:+ "-"
      +:+ str_of_Z (snd (slice_resolve start end_ columns)) +:+ "}"]) /\
  (trim_right = TBool true -> trim_left = TBool false ->
   rule_line (add_rule t (Z.of_nat row) None None trim_right trim_left) row =
     ["\cmidrule(r){1-" +:+ str_of_Z columns +:+ "}"]) /\
  (trim_right = TBool false -> trim_left = TStr "" ->
   rule_line (add_rule t (Z.of_nat row) None None trim_right trim_left) row =
     ["\cmidrule({}){1-" +:+ str_of_Z columns +:+ "}"]).
Proof.
  intros code columns.
  assert (Hline : forall s e tr tl,
             rule_line (add_rule t (Z.of_nat row) s e tr tl) row =
             [build_rule t s e (Some (trim_code "r" tr +:+ trim_code "l" tl))]).
  { intros s e tr tl. unfold rule_line, add_rule. cbn [rules].
    rewrite rules_get_set_same. reflexivity. }
  split; [|split].
  - intros Hcode. rewrite Hline. fold code. rewrite build_rule_trimmed by assumption.
    fold columns. rewrite slice_indices_resolve by apply Nat2Z.is_nonneg. reflexivity.
  - intros -> ->. rewrite Hline. reflexivity.
  - intros -> ->. rewrite Hline. reflexivity.
Qed.

Lemma trimmed_rule_is_partial_witness :
  rule_line (add_rule sample_tabular 1 (Some 0%Z) (Some 1%Z) (TStr "1em") (TBool true)) 1
  = ["\cmidrule(r{1em}l){1-1}"].
Proof.
  destruct (trimmed_rule_is_partial sample_tabular 1 (Some 0%Z) (Some 1%Z)
              (TStr "1em") (TBool true)) as [Hcode _].
  refine (eq_trans (Hcode _) eq_refl). discriminate.
Defined.

(** X22: the bounds of a partial rule are resolved into the grid: the
    printed start lies between 1 and the column count plus one and the
    printed end between 0 and the column count; a negative bound counts
    from the last column; nothing checks that the start does not pass the
    end. *)
Theorem rule_range_bounds (t : TabularFields) (start end_ : option Z) :
  let columns := Z.of_nat (snd (shape t)) in
  (exists s e,
     slice_indices start end_ columns = (s, e) /\
     (0 <= s <= columns)%Z /\ (0 <= e <= columns)%Z /\
     ((start, end_) <> (None, None) ->
      build_rule t start end_ None =
        "\cmidrule{" +:+ str_of_Z (s + 1) +:+ "-" +:+ str_of_Z e +:+ "}")) /\
  (forall k, (0 < k <= columns)%Z ->
     fst (slice_indices (Some (- k)%Z) end_ columns) = (columns - k)%Z) /\
  (forall s e, (0 <= e < s)%Z -> (s <= columns)%Z ->
     build_rule t (Some s) (Some e) None =
       "\cmidrule{" +:+ str_of_Z (s + 1) +:+ "-" +:+ str_of_Z e +:+ "}").
Proof.
  intros columns.
  assert (Hcols : (0 <= columns)%Z) by apply Nat2Z.is_nonneg.
  assert (Hb : forall d i, (0 <= d <= columns)%Z ->
                           (0 <= slice_bound columns d i <= columns)%Z).
  { intros d [i|] Hd; [|exact Hd]. rewrite slice_bound_clamp by assumption.
    unfold slice_clamp. destruct (i <? 0)%Z; lia. }
  split; [|split].
  - exists (slice_bound columns 0 start), (slice_bound columns columns end_).
    split; [reflexivity|]. split; [apply Hb; lia|]. split; [apply Hb; lia|].
    intros Hne. now rewrite build_rule_partial.
  - intros k Hk. unfold slice_indices. cbn [fst].
    rewrite slice_bound_clamp by assumption. unfold slice_clamp.
    destruct (- k <? 0)%Z eqn:E; [lia|]. apply Z.ltb_ge in E. lia.
  - intros s e Hes Hs. rewrite build_rule_partial by discriminate.
    fold columns. unfold slice_indices. cbn [fst snd].
    rewrite !slice_bound_clamp by assumption. unfold slice_clamp.
    destruct (s <? 0)%Z eqn:Es; [apply Z.ltb_lt in Es; lia|].
    destruct (e <? 0)%Z eqn:Ee; [apply Z.ltb_lt in Ee; lia|].
    replace (Z.max 0 (Z.min columns s)) with s by lia.
    replace (Z.max 0 (Z.min columns e)) with e by lia. reflexivity.
Qed.

Lemma rule_range_bounds_witness :
  build_rule (mkTabularFields (4, 4) "c" ".2f" [] []) (Some 3%Z) (Some 1%Z) None
  = "\cmidrule{4-1}" /\
  fst (slice_indices (Some (-1)%Z) (Some 9%Z) 4) = 3%Z.
Proof.
  destruct (rule_range_bounds (mkTabularFields (4, 4) "c" ".2f" [] [])
                              (Some 0%Z) (Some 9%Z)) as (_ & Hneg & Hpast).
  split.
  - refine (eq_trans (Hpast 3%Z 1%Z _ _) eq_refl); simpl; lia.
  - refine (eq_trans (Hneg 1%Z _) eq_refl). simpl. lia.
Defined.

Lemma rules_get_set_other (i j : Z) (r : rule) (rs : rules_t) :
  i <> j -> rules_get i (rules_set j r rs) = rules_get i rs.
Proof.
  intros Hne. induction rs as [|[k r'] rs IH]; simpl.
  - apply Z.eqb_neq in Hne. now rewrite Hne.
  - destruct (Z.eqb j k) eqn:E; simpl.
    + apply Z.eqb_eq in E. subst k. apply Z.eqb_neq in Hne. now rewrite Hne.
    + now rewrite IH.
Qed.

(** X23: a row has at most one rule: [add_rule] on a row that has one
    replaces it, the rules of the other rows stay, and the cells are not
    touched. *)
Theorem add_rule_replaces
        (t : TabularFields) (row : Z) (start1 end1 start2 end2 : option Z)
        (tr1 tl1 tr2 tl2 : trim_arg) :
  let t2 := add_rule (add_rule t row start1 end1 tr1 tl1) row start2 end2 tr2 tl2 in
  rules_get row (rules t2)
  = Some (start2, end2, trim_code "r" tr2 +:+ trim_code "l" tl2) /\
  (forall other, other <> row -> rules_get other (rules t2) = rules_get other (rules t)) /\
  data t2 = data t /\ shape t2 = shape t.
Proof.
  intros t2. unfold t2, add_rule. cbn [rules data shape]. split; [|split; [|split]].
  - apply rules_get_set_same.
  - intros other Hne. now rewrite !rules_get_set_other.
  - reflexivity.
  - reflexivity.
Qed.

Lemma add_rule_replaces_witness :
  rule_line (add_rule sample_tabular 0 None None (TBool false) (TBool false)) 0
  = ["\midrule"].
Proof.
  destruct (add_rule_replaces
              (mkTabularFields (2, 2) "c" ".2f"
                 [[CFloat (mkFloat 3 (-1)); CVal (VInt 2)];
                  [CVal (VStr "A"); CVal (VStr "B")]] [])
              0 (Some 1%Z) (Some 3%Z) None None
              (TBool false) (TBool false) (TBool false) (TBool false)) as [Hget _].
  unfold rule_line. unfold sample_tabular.
  change (Z.of_nat 0) with 0%Z. rewrite Hget. reflexivity.
Defined.

(** X24: a tabular that was never filled prints [None] in every cell: its
    [build] gives as many rows as its shape has, each with as many [None]
    as there are columns. *)
Theorem unfilled_tabular_prints_None
        (format_float : string -> pyfloat -> result string) (rows columns : nat)
        (al ff : string) :
  built_parts (env_build format_float
                 (Tabular_init (rows, columns) al ff))
  = Ok (BStr (join nl (["\begin{tabular}{" +:+ str_repeat "c" columns +:+ "}" +:+ nl
                        +:+ "\toprule"]
                       ++ repeat (row_line (repeat "None" columns)) rows
                       ++ ["\bottomrule" +:+ nl +:+ "\end{tabular}"])),
        "\begin{tabular}{" +:+ str_repeat "c" columns +:+ "}" +:+ nl +:+ "\toprule",
        "\bottomrule" +:+ nl +:+ "\end{tabular}").
Proof.
  assert (Hrow : forall k, format_row format_float ff (repeat (CVal VNone) k)
                           = Ok (repeat "None" k)).
  { induction k as [|k IH]; simpl; [reflexivity|]. now rewrite IH. }
  assert (Hdata : format_data format_float ff (repeat (repeat (CVal VNone) columns) rows)
                  = Ok (repeat (repeat "None" columns) rows)).
  { induction rows as [|r IH]; simpl; [reflexivity|]. now rewrite Hrow, IH. }
  unfold Tabular_init, TexEnvironment_init. cbn [seq_truthy fst snd].
  rewrite env_build_tabular. cbn [float_format data]. rewrite Hdata. cbn [bind].
  erewrite TexEnvironment_build_appended_list by reflexivity.
  cbn [built_parts bind body head tail shape snd float_format data rules app].
  change 0%Z with (Z.of_nat 0). rewrite tabular_lines_rows.
  fold (row_lines (mkTabularFields (rows, columns) al ff
                     (repeat (repeat (CVal VNone) columns) rows) [])
                  (repeat (repeat "None" columns) rows)).
  rewrite row_lines_no_rules by reflexivity.
  rewrite map_repeat. reflexivity.
Qed.

End DocProps.

(** ** [plot.py]: the curves of a plot *)

Module PlotProps.
Import Plot.

Lemma dict_set_fresh (V : Type) (k : string) (v : V) (d : dict V) :
  ~ In k (dict_keys d) -> dict_set k v d = d ++ [(k, v)].
Proof.
  induction d as [|[k' v'] d IH]; intros Hn; [reflexivity|]. simpl in *.
  destruct (String.eqb k k') eqn:E.
  - apply String.eqb_eq in E. subst. tauto.
  - rewrite IH; tauto.
Qed.

Lemma fold_set_fresh (V : Type) (g : string -> string) (l acc : dict V) :
  NoDup (dict_keys acc ++ map g (dict_keys l)) ->
  fold_left (fun acc kv => dict_set (g (fst kv)) (snd kv) acc) l acc
  = acc ++ map (fun kv => (g (fst kv), snd kv)) l.
Proof.
  revert acc. induction l as [|[k v] l IH]; intros acc Hnd; simpl.
  - now rewrite app_nil_r.
  - simpl in Hnd. rewrite dict_set_fresh.
    + rewrite IH.
      * now rewrite <- app_assoc.
      * unfold dict_keys in *. rewrite map_app. simpl. rewrite <- app_assoc. exact Hnd.
    + apply NoDup_remove_2 in Hnd. intros Hin. apply Hnd. apply in_or_app. now left.
Qed.

Lemma spaced_keys_respelled (kw : dict pyval) :
  NoDup (map replace_underscores (dict_keys kw)) -> spaced_keys kw = respelled kw.
Proof. intros Hnd. unfold spaced_keys. now rewrite fold_set_fresh. Qed.

Lemma dict_update_disjoint (V : Type) (d other : dict V) :
  NoDup (dict_keys d ++ dict_keys other) -> dict_update d other = d ++ other.
Proof.
  intros Hnd. unfold dict_update.
  rewrite (fold_set_fresh (fun k => k)).
  - f_equal. rewrite <- (map_id other) at 2. apply map_ext. now intros [k v].
  - now rewrite map_id.
Qed.

Lemma dict_get_app (V : Type) (k : string) (d1 d2 : dict V) :
  dict_get k (d1 ++ d2) =
    match dict_get k d1 with
    | Some v => Some v
    | None => dict_get k d2
    end.
Proof.
  induction d1 as [|[k' v'] d1 IH]; [reflexivity|]. simpl.
  destruct (String.eqb k k'); [reflexivity|exact IH].
Qed.

Lemma dict_get_filter_key (V : Type) (f : string -> bool) (k : string) (d : dict V) :
  dict_get k (filter (fun kv => f (fst kv)) d) = if f k then dict_get k d else None.
Proof.
  induction d as [|[k' v'] d IH]; simpl; [now destruct (f k)|].
  destruct (f k') eqn:Ef; simpl.
  - destruct (String.eqb k k') eqn:E.
    + apply String.eqb_eq in E. subst. now rewrite Ef.
    + exact IH.
  - destruct (String.eqb k k') eqn:E.
    + apply String.eqb_eq in E. subst. now rewrite Ef in IH |- *.
    + exact IH.
Qed.

Lemma dict_get_in_wf (V : Type) (k : string) (v : V) (d : dict V) :
  dict_wf d -> In (k, v) d -> dict_get k d = Some v.
Proof.
  unfold dict_wf, dict_keys. induction d as [|[k' v'] d IH]; intros Hnd Hin; [easy|].
  simpl in *. inversion Hnd as [|? ? Hnotin Hnd']; subst.
  destruct Hin as [Heq|Hin].
  - inversion Heq; subst. now rewrite String.eqb_refl.
  - destruct (String.eqb k k') eqn:E.
    + apply String.eqb_eq in E. subst. exfalso. apply Hnotin.
      change k' with (fst (k', v)). now apply in_map.
    + now apply IH.
Qed.

Lemma filter_keys_fresh (V : Type) (given d : dict V) :
  dict_wf given -> dict_wf d ->
  NoDup (dict_keys given
         ++ dict_keys (filter (fun kv => negb (dict_has (fst kv) given)) d)).
Proof.
  intros Hg Hd. unfold dict_wf in *.
  assert (Hsub : forall k, In k (dict_keys (filter (fun kv => negb (dict_has (fst kv) given)) d))
                           -> In k (dict_keys d) /\ dict_has k given = false).
  { intros k Hin. unfold dict_keys in Hin. apply in_map_iff in Hin.
    destruct Hin as ([k' v'] & <- & Hin). apply filter_In in Hin. destruct Hin as [Hin Hf].
    split; [now apply (in_map fst) in Hin|]. simpl in *. now apply negb_true_iff in Hf. }
  assert (Hnd : NoDup (dict_keys (filter (fun kv => negb (dict_has (fst kv) given)) d))).
  { clear Hsub. unfold dict_keys in *. induction d as [|[k v] d IH]; simpl; [constructor|].
    inversion Hd as [|? ? Hnotin Hd']; subst.
    destruct (negb (dict_has k given)); simpl; [|now apply IH].
    constructor; [|now apply IH].
    intros Hin. apply Hnotin. apply in_map_iff in Hin. destruct Hin as (kv & Hk & Hin).
    apply filter_In in Hin. apply in_map_iff. exists kv. tauto. }
  apply NoDup_app; [exact Hg|exact Hnd|].
  intros k Hk Hin. apply Hsub in Hin. destruct Hin as [_ Hf].
  apply TexBaseProps.dict_has_in in Hk. congruence.
Qed.

Lemma respelled_keys (kw : dict pyval) :
  dict_keys (respelled kw) = map replace_underscores (dict_keys kw).
Proof. unfold respelled, dict_keys. rewrite !map_map. reflexivity. Qed.

Lemma add_plot_closed (A : Type) (p : Plot A) (xs ys : list A) (opts : list string)
      (lg : option string) (kw : dict pyval) :
  NoDup (map replace_underscores (dict_keys kw)) ->
  dict_wf (default_plot_kwoptions p) ->
  add_plot p xs ys opts lg kw =
    mkPlot (axis p) (plot_name p)
           (plots p ++ [mkCurve xs ys lg (map replace_underscores opts)
                          (respelled kw
                           ++ filter (fun kv => negb (dict_has (fst kv) (respelled kw)))
                                     (default_plot_kwoptions p))])
           (default_plot_kwoptions p).
Proof.
  intros Hnd Hwf. unfold add_plot. rewrite spaced_keys_respelled by exact Hnd.
  rewrite dict_update_disjoint; [reflexivity|].
  apply filter_keys_fresh; [|exact Hwf].
  unfold dict_wf. now rewrite respelled_keys.
Qed.

(** X25: [add_plot] appends one curve after those the plot has. Its
    options are the given ones with every underscore turned into a space.
    Its keyword options are the given ones, keys respelled the same way,
    followed by the plot's default options whose key was not given: a
    given [line_width] replaces the default [line width], and a default
    that is not given is kept. *)
Theorem add_plot_fills_defaults
        (A : Type) (p : Plot A) (xs ys : list A) (opts : list string) (lg : option string)
        (kw : dict pyval) :
  NoDup (map replace_underscores (dict_keys kw)) ->
  dict_wf (default_plot_kwoptions p) ->
  exists c,
    plots (add_plot p xs ys opts lg kw) = plots p ++ [c] /\
    options c = map replace_underscores opts /\
    kwoptions c = respelled kw
                  ++ filter (fun kv => negb (dict_has (fst kv) (respelled kw)))
                            (default_plot_kwoptions p) /\
    (forall k v, In (k, v) kw ->
                 dict_get (replace_underscores k) (kwoptions c) = Some v) /\
    (forall k, dict_has k (respelled kw) = false ->
               dict_get k (kwoptions c) = dict_get k (default_plot_kwoptions p)).
Proof.
  intros Hnd Hwf. rewrite add_plot_closed by assumption.
  eexists. split; [reflexivity|]. cbn [options kwoptions plots].
  split; [reflexivity|]. split; [reflexivity|]. split.
  - intros k v Hin. rewrite dict_get_app.
    erewrite dict_get_in_wf; [reflexivity| |].
    + unfold dict_wf. now rewrite respelled_keys.
    + unfold respelled. apply in_map_iff. exists (k, v). now split.
  - intros k Hk. rewrite dict_get_app.
    unfold dict_has in Hk. destruct (dict_get k (respelled kw)) eqn:E; [discriminate|].
    rewrite (dict_get_filter_key (fun k => negb (dict_has k (respelled kw)))).
    unfold dict_has. now rewrite E.
Qed.

Lemma add_plot_fills_defaults_witness :
  exists c : curve Z,
    plots (add_plot (mkPlot (TexBase.env_object "axis" [] [] "" "top" [])
                            "fig" [] (default_kwoptions (Doc.TBool false) (Doc.TBool true)))
                    [0; 1]%Z [2; 3]%Z ["dashed"; "very_thick"] (Some "sine")
                    [("line_width", VStr "2pt")])
    = [c] /\
    options c = ["dashed"; "very thick"] /\
    kwoptions c = [("line width", VStr "2pt"); ("mark size", VStr "0pt")].
Proof.
  destruct (add_plot_fills_defaults
              (mkPlot (TexBase.env_object "axis" [] [] "" "top" [])
                      "fig" [] (default_kwoptions (Doc.TBool false) (Doc.TBool true)))
              [0; 1]%Z [2; 3]%Z ["dashed"; "very_thick"] (Some "sine")
              [("line_width", VStr "2pt")])
    as (c & Hp & Ho & Hk & _).
  - repeat constructor; simpl; intuition discriminate.
  - repeat constructor; simpl; intuition discriminate.
  - exists c. split; [exact Hp|]. split; [exact Ho|exact Hk].
Defined.

Lemma add_texts_body (ls : list string) (a : TexBase.TexObject) :
  fold_left TexBase.add_text ls a =
    TexBase.mkTexObject (TexBase.name a)
                        (TexBase.body a ++ map TexBase.IText ls)
                        (TexBase.packages a) (TexBase.env a).
Proof.
  revert a. induction ls as [|l ls IH]; intros a; simpl.
  - rewrite app_nil_r. now destruct a.
  - rewrite IH. unfold TexBase.add_text. cbn. now rewrite <- app_assoc.
Qed.

Lemma kwoption_texts_str (kw : dict pyval) :
  str_valued kw = true ->
  kwoption_texts kw = Ok (map (fun kv => fst kv +:+ "=" +:+ py_str (snd kv)) kw).
Proof.
  induction kw as [|[k v] kw IH]; intros H; [reflexivity|].
  simpl in H. apply andb_true_iff in H. destruct H as [Hv Hkw].
  cbn [kwoption_texts]. unfold kwoption_text. cbn [fst snd] in *.
  destruct v; try discriminate. cbn [bind]. rewrite IH by exact Hkw. reflexivity.
Qed.

Lemma kwoption_texts_not_str (kw : dict pyval) :
  str_valued kw = false -> kwoption_texts kw = Raise TypeError.
Proof.
  induction kw as [|[k v] kw IH]; intros H; [discriminate|].
  simpl in H. cbn [kwoption_texts]. unfold kwoption_text. cbn [fst snd] in *.
  destruct v; try reflexivity. cbn [bind]. simpl in H. rewrite IH by exact H. reflexivity.
Qed.

Lemma curve_lines_str (A : Type) (name : string) (i : nat) (c : curve A) :
  str_valued (kwoptions c) = true ->
  curve_lines name i c = Ok (addplot_line name i c :: legend_lines c).
Proof.
  intros H. unfold curve_lines. rewrite kwoption_texts_str by exact H. cbn [bind].
  unfold addplot_line, bracket, legend_lines.
  destruct (str_truthy (join ", " (options c)) && str_truthy _);
    now rewrite ?append_assoc.
Qed.

Lemma curve_lines_not_str (A : Type) (name : string) (i : nat) (c : curve A) :
  str_valued (kwoptions c) = false -> curve_lines name i c = Raise TypeError.
Proof.
  intros H. unfold curve_lines. now rewrite kwoption_texts_not_str by exact H.
Qed.

Lemma build_plots_from_str (A : Type) (name : string) (cs : list (curve A)) (i : nat)
      (a : TexBase.TexObject) :
  forallb (fun c => str_valued (kwoptions c)) cs = true ->
  build_plots_from name i cs a =
    Ok (TexBase.mkTexObject (TexBase.name a)
          (TexBase.body a
           ++ map TexBase.IText
                (flat_map (fun ic => addplot_line name (fst ic) (snd ic)
                                     :: legend_lines (snd ic))
                          (combine (seq i (List.length cs)) cs)))
          (TexBase.packages a) (TexBase.env a)).
Proof.
  revert i a. induction cs as [|c cs IH]; intros i a H.
  - simpl. rewrite app_nil_r. now destruct a.
  - simpl in H. apply andb_true_iff in H. destruct H as [Hc Hcs].
    cbn [build_plots_from]. rewrite curve_lines_str by exact Hc. cbn [bind].
    rewrite IH by exact Hcs. rewrite add_texts_body.
    cbn [TexBase.name TexBase.body TexBase.packages TexBase.env
         List.length seq combine flat_map fst snd].
    now rewrite map_app, <- app_assoc.
Qed.

Lemma build_plots_from_not_str (A : Type) (name : string) (cs : list (curve A))
      (i : nat) (a : TexBase.TexObject) :
  forallb (fun c => str_valued (kwoptions c)) cs = false ->
  build_plots_from name i cs a = Raise TypeError.
Proof.
  revert i a. induction cs as [|c cs IH]; intros i a H; [discriminate|].
  simpl in H. cbn [build_plots_from].
  destruct (str_valued (kwoptions c)) eqn:Hc.
  - rewrite curve_lines_str by exact Hc. cbn [bind]. now apply IH.
  - now rewrite curve_lines_not_str by exact Hc.
Qed.

Lemma plot_lines_length (A : Type) (name : string) (cs : list (curve A)) :
  List.length cs <= List.length (plot_lines name cs).
Proof.
  unfold plot_lines. generalize 0.
  induction cs as [|c cs IH]; intros i; [apply le_n|].
  cbn [List.length seq combine flat_map fst snd app]. specialize (IH (S i)).
  rewrite length_app. cbn [List.length]. lia.
Qed.

(** X26: when every keyword option of every curve is a string,
    [_build_plots] adds to the axis, after what it holds, the texts of the
    curves in their order: for the curve of index [i] the line
    [\addplot+[...] table[x=xi, y=yi, col sep=comma]{name.csv};], whose
    brackets hold the options and then the keyword options as [key=value],
    and after it [\addlegendentry{legend}] when the legend is not empty.
    Nothing else of the plot changes. *)
Theorem build_plots_lines (A : Type) (p : Plot A) :
  forallb (fun c => str_valued (kwoptions c)) (plots p) = true ->
  _build_plots p =
    Ok (mkPlot (TexBase.mkTexObject
                  (TexBase.name (axis p))
                  (TexBase.body (axis p)
                   ++ map TexBase.IText (plot_lines (plot_name p) (plots p)))
                  (TexBase.packages (axis p)) (TexBase.env (axis p)))
               (plot_name p) (plots p) (default_plot_kwoptions p)).
Proof.
  intros H. unfold _build_plots. now rewrite build_plots_from_str by exact H.
Qed.

(** X27: a keyword option of a curve that is not a string makes
    [_build_plots] raise [TypeError], whichever curve holds it: unlike the
    keyword options of an environment, those of a curve are not passed
    through [str]. *)
Theorem build_plots_non_string_raises (A : Type) (p : Plot A) :
  forallb (fun c => str_valued (kwoptions c)) (plots p) = false ->
  _build_plots p = Raise TypeError.
Proof.
  intros H. unfold _build_plots. now rewrite build_plots_from_not_str by exact H.
Qed.

(** X28: [_build_plots] does not remember that it ran: called again, it
    adds the texts of all the curves once more, so the axis then holds
    them twice, at least one line per curve each time. *)
Theorem build_plots_again_duplicates (A : Type) (p p1 : Plot A) :
  _build_plots p = Ok p1 ->
  exists p2,
    _build_plots p1 = Ok p2 /\
    TexBase.body (axis p1)
    = TexBase.body (axis p) ++ map TexBase.IText (plot_lines (plot_name p) (plots p)) /\
    TexBase.body (axis p2)
    = TexBase.body (axis p) ++ map TexBase.IText (plot_lines (plot_name p) (plots p))
                            ++ map TexBase.IText (plot_lines (plot_name p) (plots p)) /\
    List.length (plots p) <= List.length (plot_lines (plot_name p) (plots p)).
Proof.
  intros H1. unfold _build_plots in *.
  destruct (forallb (fun c => str_valued (kwoptions c)) (plots p)) eqn:Hs.
  - rewrite build_plots_from_str in H1 by exact Hs. cbn [bind] in H1.
    inversion H1; subst p1; clear H1. cbn [axis plot_name plots default_plot_kwoptions].
    rewrite build_plots_from_str by exact Hs. cbn [bind].
    eexists. split; [reflexivity|].
    cbn [axis TexBase.body]. split; [reflexivity|]. split.
    + now rewrite <- app_assoc.
    + apply plot_lines_length.
  - rewrite build_plots_from_not_str in H1 by exact Hs. discriminate.
Qed.

Lemma build_plots_lines_witness :
  exists p',
    _build_plots sample_plot = Ok p' /\
    TexBase.body (axis p') =
      [TexBase.IText "\addplot+[blue, line width=1.25pt, mark size=0pt] table[x=x0, y=y0, col sep=comma]{fig.csv};";
       TexBase.IText "\addlegendentry{sine}";
       TexBase.IText "\addplot+[line width=2pt, mark size=0pt] table[x=x1, y=y1, col sep=comma]{fig.csv};"].
Proof.
  eexists. split.
  - apply (build_plots_lines sample_plot). reflexivity.
  - reflexivity.
Defined.

Lemma build_plots_non_string_raises_witness :
  _build_plots (add_plot sample_plot [0]%Z [1]%Z [] None [("line_width", VInt 2)])
  = Raise TypeError.
Proof.
  apply (build_plots_non_string_raises
           (add_plot sample_plot [0]%Z [1]%Z [] None [("line_width", VInt 2)])).
  reflexivity.
Defined.

Lemma build_plots_again_duplicates_witness :
  exists p1 p2,
    _build_plots sample_plot = Ok p1 /\ _build_plots p1 = Ok p2 /\
    List.length (TexBase.body (axis p1)) = 3 /\
    List.length (TexBase.body (axis p2)) = 6.
Proof.
  destruct (@build_plots_again_duplicates Z sample_plot _ eq_refl) as (p2 & H2 & H1b & H2b & _).
  eexists _, p2. split; [reflexivity|]. split; [exact H2|]. split.
  - reflexivity.
  - rewrite H2b. reflexivity.
Defined.

Lemma heads_tails_nth (A : Type) (columns : list (list A)) (hs : list A)
      (ts : list (list A)) :
  heads_tails columns = Some (hs, ts) ->
  Forall2 (fun col h => nth_error col 0 = Some h) columns hs /\
  (forall r row, Forall2 (fun t x => nth_error t r = Some x) ts row ->
                 Forall2 (fun col x => nth_error col (S r) = Some x) columns row).
Proof.
  revert hs ts. induction columns as [|col columns IH]; intros hs ts H.
  - inversion H; subst. split; [constructor|]. intros r row Hr.
    inversion Hr; subst. constructor.
  - simpl in H. destruct col as [|x xs]; [discriminate|].
    destruct (heads_tails columns) as [[hs' ts']|]; [|discriminate].
    inversion H; subst; clear H. destruct (IH hs' ts' eq_refl) as [H0 HS]. split.
    + constructor; [reflexivity|exact H0].
    + intros r row Hr. inversion Hr; subst. constructor; [assumption|]. now apply HS.
Qed.

Lemma heads_tails_shortest (A : Type) (columns : list (list A)) :
  columns <> [] ->
  match heads_tails columns with
  | Some (_, ts) => ts <> [] /\ shortest columns = S (shortest ts)
  | None => shortest columns = 0
  end.
Proof.
  induction columns as [|col columns IH]; intros Hne; [congruence|].
  destruct columns as [|col' columns].
  - destruct col as [|x xs]; simpl; [reflexivity|]. split; [discriminate|reflexivity].
  - specialize (IH ltac:(discriminate)).
    change (shortest (col :: col' :: columns))
      with (Nat.min (List.length col) (shortest (col' :: columns))).
    destruct col as [|x xs]; [reflexivity|].
    change (heads_tails ((x :: xs) :: col' :: columns))
      with (match heads_tails (col' :: columns) with
            | Some (hs, ts) => Some (x :: hs, xs :: ts)
            | None => None
            end).
    destruct (heads_tails (col' :: columns)) as [[hs ts]|].
    + destruct IH as [Hts Hs]. split; [discriminate|].
      rewrite Hs. cbn [List.length].
      destruct ts as [|t ts]; [congruence|].
      change (shortest (xs :: t :: ts))
        with (Nat.min (List.length xs) (shortest (t :: ts))).
      lia.
    + rewrite IH. apply Nat.min_0_r.
Qed.

Lemma zip_from_length (A : Type) (first : list A) (columns : list (list A)) :
  columns <> [] -> shortest columns <= List.length first ->
  List.length (zip_from first columns) = shortest columns.
Proof.
  revert columns. induction first as [|x first IH]; intros columns Hne Hle.
  - simpl in *. lia.
  - cbn [zip_from]. pose proof (heads_tails_shortest Hne) as H.
    destruct (heads_tails columns) as [[hs ts]|]; [|now rewrite H].
    destruct H as [Hts Hs]. cbn [List.length] in *. rewrite IH; [lia|exact Hts|lia].
Qed.

Lemma shortest_le_first (A : Type) (first : list A) (rest : list (list A)) :
  shortest (first :: rest) <= List.length first.
Proof. destruct rest; [apply le_n|]. cbn [shortest]. apply Nat.le_min_l. Qed.

Lemma zip_from_nth (A : Type) (first : list A) (columns : list (list A)) (r : nat)
      (row : list A) :
  nth_error (zip_from first columns) r = Some row ->
  Forall2 (fun col x => nth_error col r = Some x) columns row.
Proof.
  revert columns r. induction first as [|x first IH]; intros columns r H.
  - destruct r; discriminate.
  - cbn [zip_from] in H. destruct (heads_tails columns) as [[hs ts]|] eqn:E.
    + destruct (heads_tails_nth _ E) as [H0 HS]. destruct r as [|r].
      * inversion H; subst. exact H0.
      * apply HS. apply IH. exact H.
    + destruct r; discriminate.
Qed.

(** X29: [save_to_csv] writes to the file named after the plot a row of
    titles, one for each series, then one row for each position that every
    series has: the number of rows is the length of the shortest series,
    row [r] holds the item [r] of every series in the order of the titles,
    and what a longer series holds beyond is not written. A plot without
    a curve writes no row after the (empty) row of titles. *)
Theorem save_to_csv_rows (A : Type) (p : Plot A) :
  exists rows,
    save_to_csv p = (plot_name p +:+ ".csv", titles (List.length (plots p)), rows) /\
    List.length (titles (List.length (plots p))) = List.length (X_Y (plots p)) /\
    List.length rows = shortest (X_Y (plots p)) /\
    (forall r row, nth_error rows r = Some row ->
                   Forall2 (fun series x => nth_error series r = Some x)
                           (X_Y (plots p)) row).
Proof.
  unfold save_to_csv. eexists. split; [reflexivity|]. split; [|split].
  - unfold titles, X_Y. generalize 0. induction (plots p) as [|c cs IH]; intros i.
    + reflexivity.
    + cbn [List.length seq flat_map]. rewrite !length_app. now rewrite IH.
  - unfold zip_star. destruct (X_Y (plots p)) as [|first rest] eqn:E; [reflexivity|].
    apply zip_from_length; [discriminate|apply shortest_le_first].
  - intros r row H. unfold zip_star in H.
    destruct (X_Y (plots p)) as [|first rest] eqn:E; [destruct r; discriminate|].
    now apply zip_from_nth in H.
Qed.

End PlotProps.
